(** * BaseVectorStore: schema and index synthesis, record conversion,
      dimension validation

    A shallow embedding of [src/base/base_vector_store.py].  Python values are
    a small inductive type, dictionaries are insertion-ordered association
    lists, exceptions are an error type threaded through a result monad, the
    objects the caller keeps a reference to live in an explicit heap (the
    nodes and their related-node objects; for search hits, the metadata
    mappings the module writes to), and the storage engine is an oracle over
    the log of the calls issued so far. *)

From Stdlib Require Import String Ascii List ZArith Bool Lia.
From Stdlib Require Import Floats.PrimFloat.
From Stdlib Require Import DecimalString.
Import ListNotations.
Open Scope string_scope.
Open Scope list_scope.

Set Implicit Arguments.
Set Warnings "-register-all".

(** ** Exceptions and results *)

Module Py.

(** The exception classes the module raises or meets.  [EngineError] stands
    for whatever the storage engine client reports. *)
Inductive exn : Type :=
| ValueError (msg : string)
| AssertionError (msg : string)
| NotImplementedError (msg : string)
| TypeError
| IndexError
| KeyError (key : string)
| AttributeError (attr : string)
| EngineError (msg : string).

Inductive result (A : Type) : Type :=
| Ok (a : A)
| Raise (e : exn).

Arguments Ok {A} a.
Arguments Raise {A} e.

(** Sequencing, shared by the pure functions (which can only raise) and the
    methods that also change the caller's objects or talk to the engine. *)
Class Monad (M : Type -> Type) : Type := {
  ret : forall {A : Type}, A -> M A;
  bind : forall {A B : Type}, M A -> (A -> M B) -> M B;
  raise : forall {A : Type}, exn -> M A
}.

#[export] Instance result_monad : Monad result := {
  ret := fun A a => Ok a;
  bind := fun A B m k =>
    match m with
    | Ok a => k a
    | Raise e => Raise e
    end;
  raise := fun A e => Raise e
}.

Definition is_ok {A : Type} (m : result A) : bool :=
  match m with Ok _ => true | Raise _ => false end.

(** [for x in xs: f x], collecting the results, stopping at the first raise. *)
Fixpoint mapM {M : Type -> Type} `{Monad M} {A B : Type}
    (f : A -> M B) (xs : list A) : M (list B) :=
  match xs with
  | [] => ret []
  | x :: xs' =>
      bind (f x) (fun y => bind (mapM f xs') (fun ys => ret (y :: ys)))
  end.

(** [for x in xs: acc = f acc x]. *)
Fixpoint foldM {M : Type -> Type} `{Monad M} {A B : Type}
    (f : B -> A -> M B) (xs : list A) (acc : B) : M B :=
  match xs with
  | [] => ret acc
  | x :: xs' => bind (f acc x) (fun acc' => foldM f xs' acc')
  end.

(** [for x in xs: f x], for the effect only. *)
Fixpoint forM_ {M : Type -> Type} `{Monad M} {A : Type}
    (f : A -> M unit) (xs : list A) : M unit :=
  match xs with
  | [] => ret tt
  | x :: xs' => bind (f x) (fun _ => forM_ f xs')
  end.

(** ** Values *)

(** JSON-like Python values.  Dictionaries keep insertion order. *)
Inductive value : Type :=
| VNone
| VBool (b : bool)
| VInt (z : Z)
| VFloat (f : float)
| VStr (s : string)
| VList (items : list value)
| VDict (entries : list (string * value)).

Definition dict : Type := list (string * value).

(** [d.get(k)]: the value of the first entry under [k]. *)
Fixpoint dict_find (d : dict) (k : string) : option value :=
  match d with
  | [] => None
  | (k', v) :: d' => if String.eqb k' k then Some v else dict_find d' k
  end.

(** [d.get(k)] with Python's [None] for a missing key. *)
Definition dict_get (d : dict) (k : string) : value :=
  match dict_find d k with
  | Some v => v
  | None => VNone
  end.

(** [d[k] = v]: an existing key keeps its position, a new one goes last. *)
Fixpoint dict_set (d : dict) (k : string) (v : value) : dict :=
  match d with
  | [] => [(k, v)]
  | (k', v') :: d' =>
      if String.eqb k' k then (k', v) :: d' else (k', v') :: dict_set d' k v
  end.

(** The dictionary without its entry under [k]. *)
Fixpoint dict_remove (d : dict) (k : string) : dict :=
  match d with
  | [] => []
  | (k', v') :: d' =>
      if String.eqb k' k then d' else (k', v') :: dict_remove d' k
  end.

(** [d.pop(k)]: raises [KeyError] when the key is missing. *)
Definition dict_pop (d : dict) (k : string) : result (value * dict) :=
  match dict_find d k with
  | Some v => Ok (v, dict_remove d k)
  | None => Raise (KeyError k)
  end.

(** [d.update(other)]. *)
Definition dict_update (d other : dict) : dict :=
  fold_left (fun acc kv => dict_set acc (fst kv) (snd kv)) other d.

(** A dictionary display [{k1: v1, k2: v2, ...}]: a repeated key keeps its
    first position and its last value. *)
Definition dict_literal (entries : list (string * value)) : dict :=
  dict_update [] entries.

(** [dict(v)]: a shallow copy of a mapping.  The constructor's other forms
    (a sequence of pairs) are left out: every other value is rejected, with
    [TypeError]. *)
Definition to_dict (v : value) : result dict :=
  match v with
  | VDict d => Ok d
  | _ => Raise TypeError
  end.

(** Iterating a value in a comprehension.  Only lists are iterated: every
    other value is rejected, with [TypeError]. *)
Definition to_list (v : value) : result (list value) :=
  match v with
  | VList l => Ok l
  | _ => Raise TypeError
  end.

(** Truthiness, as [if v:] tests it. *)
Definition truthy (v : value) : bool :=
  match v with
  | VNone => false
  | VBool b => b
  | VInt z => negb (Z.eqb z 0)
  | VFloat f => negb (PrimFloat.eqb f 0%float)
  | VStr s => negb (String.eqb s "")
  | VList l => match l with [] => false | _ => true end
  | VDict d => match d with [] => false | _ => true end
  end.

Definition is_none (v : value) : bool :=
  match v with VNone => true | _ => false end.

(** [v == s] for a string [s]. *)
Definition eq_str (v : value) (s : string) : bool :=
  match v with
  | VStr s' => String.eqb s' s
  | _ => false
  end.

(** [isinstance(v, int)]: [bool] is a subclass of [int] in Python, so a
    boolean passes the test and counts as 0 or 1. *)
Definition as_int (v : value) : option Z :=
  match v with
  | VInt z => Some z
  | VBool true => Some 1%Z
  | VBool false => Some 0%Z
  | _ => None
  end.

(** [str(z)] for an integer. *)
Definition str_of_Z (z : Z) : string := NilZero.string_of_int (Z.to_int z).

(** How an f-string prints a value that passed [isinstance(v, int)]. *)
Definition format_int_like (v : value) : string :=
  match v with
  | VInt z => str_of_Z z
  | VBool true => "True"
  | VBool false => "False"
  | _ => ""
  end.

(** [d[k]]: raises [KeyError] when the key is missing. *)
Definition dict_getitem (d : dict) (k : string) : result value :=
  match dict_find d k with
  | Some v => Ok v
  | None => Raise (KeyError k)
  end.

(** [d.setdefault(k, v)]: the value now under [k], and the dictionary, which
    changes only when the key was missing. *)
Definition dict_setdefault (d : dict) (k : string) (v : value) : value * dict :=
  match dict_find d k with
  | Some v' => (v', d)
  | None => (v, dict_set d k v)
  end.

(** Lookup in a mapping whose values are not [value]s. *)
Fixpoint dict_assoc {A : Type} (k : string) (d : list (string * A)) : option A :=
  match d with
  | [] => None
  | (k', v) :: d' => if String.eqb k' k then Some v else dict_assoc k d'
  end.

(** [xs[i]]: [IndexError] out of range. *)
Definition getitem {A : Type} (xs : list A) (i : nat) : result A :=
  match nth_error xs i with
  | Some x => Ok x
  | None => Raise IndexError
  end.

(** [s.endswith(suffix)]. *)
Definition endswith (s suffix : string) : bool :=
  (String.length suffix <=? String.length s)%nat
  && String.eqb
       (substring (String.length s - String.length suffix)
                  (String.length suffix) s)
       suffix.

End Py.

Export Py.

Declare Scope py_scope.
Delimit Scope py_scope with py.
Notation "x <- m ;; k" := (bind m (fun x => k))
  (at level 61, m at next level, right associativity) : py_scope.
Notation "m ;;; k" := (bind m (fun _ => k))
  (at level 61, right associativity) : py_scope.
Open Scope py_scope.

(** ** Storage schema and index parameters *)

(** The storage engine's field datatypes this module uses. *)
Inductive DataType : Type :=
| VARCHAR
| JSON
| ARRAY
| INT64
| FLOAT_VECTOR
| FLOAT16_VECTOR
| BFLOAT16_VECTOR
| SPARSE_FLOAT_VECTOR.

Definition DataType_eqb (a b : DataType) : bool :=
  match a, b with
  | VARCHAR, VARCHAR | JSON, JSON | ARRAY, ARRAY | INT64, INT64
  | FLOAT_VECTOR, FLOAT_VECTOR | FLOAT16_VECTOR, FLOAT16_VECTOR
  | BFLOAT16_VECTOR, BFLOAT16_VECTOR
  | SPARSE_FLOAT_VECTOR, SPARSE_FLOAT_VECTOR => true
  | _, _ => false
  end.

(** One [add_field] call: the field name, its datatype and the keyword
    arguments the module passes. *)
Record FieldSchema : Type := mkField {
  field_name : string;
  datatype : DataType;
  is_primary : bool;
  max_length : option Z;
  dim : option Z;
  element_type : option DataType;
  max_capacity : option Z;
  nullable : bool
}.

(** A field with no keyword argument given. *)
Definition plain_field (name : string) (dt : DataType) : FieldSchema :=
  mkField name dt false None None None None false.

Definition with_primary (f : FieldSchema) : FieldSchema :=
  mkField (field_name f) (datatype f) true (max_length f) (dim f)
          (element_type f) (max_capacity f) (nullable f).

Definition with_max_length (n : Z) (f : FieldSchema) : FieldSchema :=
  mkField (field_name f) (datatype f) (is_primary f) (Some n) (dim f)
          (element_type f) (max_capacity f) (nullable f).

Definition with_dim (n : Z) (f : FieldSchema) : FieldSchema :=
  mkField (field_name f) (datatype f) (is_primary f) (max_length f) (Some n)
          (element_type f) (max_capacity f) (nullable f).

Definition with_elements (et : DataType) (cap : Z) (f : FieldSchema) : FieldSchema :=
  mkField (field_name f) (datatype f) (is_primary f) (max_length f) (dim f)
          (Some et) (Some cap) (nullable f).

Definition with_nullable (f : FieldSchema) : FieldSchema :=
  mkField (field_name f) (datatype f) (is_primary f) (max_length f) (dim f)
          (element_type f) (max_capacity f) true.

(** The schema object: fields in the order of the [add_field] calls. *)
Record CollectionSchema : Type := mkSchema {
  auto_id : bool;
  fields : list FieldSchema
}.

Definition create_schema (auto : bool) : CollectionSchema := mkSchema auto [].

Definition add_field (schema : CollectionSchema) (f : FieldSchema) : CollectionSchema :=
  mkSchema (auto_id schema) (fields schema ++ [f]).

(** One [add_index] call. *)
Record IndexParam : Type := mkIndex {
  index_field : string;
  index_name : string;
  index_type : option string;
  metric_type : option string;
  index_params : option dict
}.

(** The index-parameters object: entries in the order of the [add_index]
    calls. *)
Definition IndexParams : Type := list IndexParam.

Definition prepare_index_params : IndexParams := [].

Definition add_index (ip : IndexParams) (i : IndexParam) : IndexParams :=
  (ip ++ [i]).

(** [_get_datatype]. *)
Definition _get_datatype (datatype : string) : result DataType :=
  if String.eqb datatype "FLOAT_VECTOR" then Ok FLOAT_VECTOR
  else if String.eqb datatype "FLOAT16_VECTOR" then Ok FLOAT16_VECTOR
  else if String.eqb datatype "BFLOAT16_VECTOR" then Ok BFLOAT16_VECTOR
  else Raise (ValueError ("Dense data type: " ++ datatype
                          ++ " is not compatible with dense vector field!")).

(** The three encodings a dense-vector field can have. *)
Definition is_dense_datatype (dt : DataType) : bool :=
  match dt with
  | FLOAT_VECTOR | FLOAT16_VECTOR | BFLOAT16_VECTOR => true
  | _ => false
  end.

(** ** The caller's objects *)

Definition addr : Type := nat.

(** A related-node entry of a node's [relationships]: an object with a
    mutable [metadata] attribute. *)
Record RelatedNodeInfo : Type := mkInfo {
  info_node_id : string;
  info_metadata : dict
}.

(** What a node holds under a relationship key ([RelatedNodeType]): one
    related-node object, or, as under the key of a node's children, a list
    of them. *)
Inductive RelatedNodeType : Type :=
| OneRelated (r : addr)
| ManyRelated (rs : list addr).

(** A node of the first document framework ([BaseNode]): the attributes the
    module reads or writes.  [relationships] maps a relationship key to the
    related-node object, held by address, or to the list of them. *)
Record BaseNode : Type := mkNode {
  node_id_ : string;
  node_embedding : value;
  node_metadata : dict;
  node_relationships : list (string * RelatedNodeType);
  node_text : string
}.

(** A document of the second framework ([Document]): [id] is optional. *)
Record Document : Type := mkDocument {
  doc_id : option string;
  doc_metadata : dict;
  doc_page_content : string;
  doc_type : string
}.

(** What a caller can put in a batch.  Nodes are held by reference, so that
    what the module writes to them is seen by the caller.  [OtherObject] is
    an object of any other class, with the result of its [dict()] method if
    it has one. *)
Inductive pyobj : Type :=
| NodeRef (a : addr)
| DocumentObj (d : Document)
| OtherObject (as_dict : option dict).

(** [isinstance(o, BaseNode)]. *)
Definition is_BaseNode (o : pyobj) : bool :=
  match o with NodeRef _ => true | _ => false end.

(** [Document.dict()]: the four fields of the class, in declaration order. *)
Definition Document_dict (d : Document) : dict :=
  [ ("id", match doc_id d with Some s => VStr s | None => VNone end);
    ("metadata", VDict (doc_metadata d));
    ("page_content", VStr (doc_page_content d));
    ("type", VStr (doc_type d)) ].

(** ** The storage engine *)

(** The calls the module issues to the storage engine client. *)
Inductive call : Type :=
| CreateCollection (collection_name : string) (schema : CollectionSchema)
                   (index_params : IndexParams)
| CreatePartition (collection_name partition_name : string)
| GetLoadState (collection_name : string)
| DescribeCollection (collection_name : string).

(** ** The world a method runs in *)

(** The node and related-node objects by address, how many identifiers the
    generator has handed out, and the calls issued to the engine so far. *)
Record world : Type := mkWorld {
  nodes : addr -> BaseNode;
  infos : addr -> RelatedNodeInfo;
  drawn : nat;
  log : list call
}.

(** A method: it may change the world before it returns or raises. *)
Definition M (A : Type) : Type := world -> result A * world.

#[export] Instance M_monad : Monad M := {
  ret := fun A a w => (Ok a, w);
  bind := fun A B m k w =>
    match m w with
    | (Ok a, w') => k a w'
    | (Raise e, w') => (Raise e, w')
    end;
  raise := fun A e w => (Raise e, w)
}.

(** A pure computation inside a method. *)
Definition lift {A : Type} (r : result A) : M A := fun w => (r, w).

Definition set_node (a : addr) (n : BaseNode) : M unit :=
  fun w => (Ok tt,
            mkWorld (fun a' => if Nat.eqb a' a then n else nodes w a')
                    (infos w) (drawn w) (log w)).

Definition get_node (a : addr) : M BaseNode := fun w => (Ok (nodes w a), w).

Definition set_info (a : addr) (i : RelatedNodeInfo) : M unit :=
  fun w => (Ok tt,
            mkWorld (nodes w)
                    (fun a' => if Nat.eqb a' a then i else infos w a')
                    (drawn w) (log w)).

Definition get_info (a : addr) : M RelatedNodeInfo :=
  fun w => (Ok (infos w a), w).

(** ** The hits a caller holds *)

(** A search hit as the caller holds it: its value when the call starts, and
    the identity of the mapping its entity holds under ["metadata"], the one
    object of a hit the module writes to.  Two hits with the same identity
    hold the same mapping object. *)
Record HeldHit : Type := mkHeldHit {
  held_value : dict;
  held_metadata : addr
}.

(** The entries of the metadata mappings the module has reached with
    [setdefault], by identity; [None] for a mapping it has not reached, which
    has the entries the value of its hit shows. *)
Definition writes : Type := addr -> option dict.

Definition no_writes : writes := fun _ => None.

(** The hit as it is now: its metadata mapping with the entries it has been
    left with. *)
Definition hit_now (ws : writes) (h : HeldHit) : dict :=
  match dict_find (held_value h) "entity" with
  | Some (VDict e) =>
      match dict_find e "metadata", ws (held_metadata h) with
      | Some (VDict _), Some md =>
          dict_set (held_value h) "entity"
                   (VDict (dict_set e "metadata" (VDict md)))
      | _, _ => held_value h
      end
  | _ => held_value h
  end.

(** A method that may write to the metadata mappings of the hits before it
    returns or raises. *)
Definition W (A : Type) : Type := writes -> result A * writes.

#[export] Instance W_monad : Monad W := {
  ret := fun A a ws => (Ok a, ws);
  bind := fun A B m k ws =>
    match m ws with
    | (Ok a, ws') => k a ws'
    | (Raise e, ws') => (Raise e, ws')
    end;
  raise := fun A e ws => (Raise e, ws)
}.

(** A pure computation inside such a method. *)
Definition liftW {A : Type} (r : result A) : W A := fun ws => (r, ws).

Definition read_hit (h : HeldHit) : W dict :=
  fun ws => (Ok (hit_now ws h), ws).

Definition write_metadata (h : HeldHit) (md : dict) : W unit :=
  fun ws => (Ok tt,
             fun a => if Nat.eqb a (held_metadata h) then Some md else ws a).

(** The configuration an instance keeps ([__init__]). *)
Record BaseVectorStore : Type := mkStore {
  _collection_name : string;
  _dense_search_metrics : string;
  _index_algo : string;
  _dense_datatype : string;
  _uri : string
}.

(** ** Embedding backends *)

Definition Embedding : Type := list float.

(** A [BaseEmbedding] instance: two mutable attributes, and the batch method,
    whose result may depend on them. *)
Record BaseEmbedding : Type := mkBaseEmbedding {
  attr_num_workers : Z;
  attr_embed_batch_size : Z;
  get_text_embedding_batch :
    Z -> Z -> list string -> bool -> result (list Embedding)
}.

(** The model object handed to [_embed_texts]: an instance of the first
    framework's class, or any other object, with its [embed_documents]
    method if it has one.  [is_Embeddings] tells whether the object is an
    instance of the second framework's [Embeddings] class, which the module
    never tests. *)
Inductive EmbeddingModel : Type :=
| BaseEmbeddingObj (m : BaseEmbedding)
| OtherModel (is_Embeddings : bool)
             (embed_documents : option (list string -> result (list Embedding))).

(** ** What the module takes from outside *)

(** The names and collaborators the module imports, none of which is defined
    in the file itself.
    - [FundamentalField] is declared in the package's [types] module: the
      names of its first four fields (primary key, dense vector, sparse
      vector, document type) and of any further ones.
    - [base_node_fields] and [document_fields] are
      [list(TextNode.model_fields.keys())] and
      [list(Document.model_fields.keys())], the field names of the two
      document frameworks' classes.
    - [uuid4 n] is the [n]-th identifier the generator hands out, as a string.
    - [engine] is the storage engine: what it answers to a call, given the
      calls issued before.
    - [BaseNode_dict] is the first framework's serialisation of a node
      ([dict()]), a function of the node and of the related-node objects it
      points to.
    - [TextNode] is the node the first framework reconstructs, with its
      constructor [from_dict]; [Document_parse_obj] is the second framework's
      validating constructor.
    - [validate_score] is what the constructor of the first framework's
      [NodeWithScore] does with the value it is given for its [score]
      field, an optional float: the value it stores, or its validation
      error. *)
Record Imports : Type := mkImports {
  id_key : string;
  embedding_key : string;
  sparse_key : string;
  type_key : string;
  more_keys : list string;
  base_node_fields : list string;
  document_fields : list string;
  uuid4 : nat -> string;
  engine : list call -> call -> result value;
  BaseNode_dict : BaseNode -> (addr -> RelatedNodeInfo) -> dict;
  TextNode : Type;
  TextNode_from_dict : dict -> result TextNode;
  Document_parse_obj : dict -> result Document;
  validate_score : value -> result value
}.

Section Store.

Variable env : Imports.

(** [default_keys = list(FundamentalField.model_fields.keys())]. *)
Definition default_keys : list string :=
  id_key env :: embedding_key env :: sparse_key env :: type_key env
  :: more_keys env.

(** [_setup_collection_schema]. *)
Definition _setup_collection_schema (document_type : string) (vector_dims : Z)
    (dense_datatype : string) (enable_sparse : bool) : result CollectionSchema :=
  let schema := create_schema false in
  dense_datatype <- _get_datatype dense_datatype ;;
  k0 <- getitem default_keys 0 ;;
  let schema := add_field schema
    (with_max_length 64 (with_primary (plain_field k0 VARCHAR))) in
  k1 <- getitem default_keys 1 ;;
  let schema := add_field schema
    (with_dim vector_dims (plain_field k1 dense_datatype)) in
  schema <- (if enable_sparse
             then k2 <- getitem default_keys 2 ;;
                  Ok (add_field schema (plain_field k2 SPARSE_FLOAT_VECTOR))
             else Ok schema) ;;
  k3 <- getitem default_keys 3 ;;
  let schema := add_field schema (with_max_length 16 (plain_field k3 VARCHAR)) in
  if endswith document_type "Node" then
    f2 <- getitem (base_node_fields env) 2 ;;
    let schema := add_field schema (plain_field f2 JSON) in
    f3 <- getitem (base_node_fields env) 3 ;;
    let schema := add_field schema
      (with_max_length 64 (with_elements VARCHAR 16 (plain_field f3 ARRAY))) in
    f4 <- getitem (base_node_fields env) 4 ;;
    let schema := add_field schema
      (with_max_length 64 (with_elements VARCHAR 16 (plain_field f4 ARRAY))) in
    f5 <- getitem (base_node_fields env) 5 ;;
    let schema := add_field schema (plain_field f5 JSON) in
    f6 <- getitem (base_node_fields env) 6 ;;
    let schema := add_field schema (with_max_length 32 (plain_field f6 VARCHAR)) in
    f7 <- getitem (base_node_fields env) 7 ;;
    let schema := add_field schema (with_max_length 8 (plain_field f7 VARCHAR)) in
    f8 <- getitem (base_node_fields env) 8 ;;
    let schema := add_field schema (with_max_length 16384 (plain_field f8 VARCHAR)) in
    f9 <- getitem (base_node_fields env) 9 ;;
    let schema := add_field schema (with_max_length 16 (plain_field f9 VARCHAR)) in
    f10 <- getitem (base_node_fields env) 10 ;;
    let schema := add_field schema
      (with_nullable (with_max_length 8 (plain_field f10 INT64))) in
    f11 <- getitem (base_node_fields env) 11 ;;
    let schema := add_field schema
      (with_nullable (with_max_length 8 (plain_field f11 INT64))) in
    f12 <- getitem (base_node_fields env) 12 ;;
    let schema := add_field schema (with_max_length 8 (plain_field f12 VARCHAR)) in
    f13 <- getitem (base_node_fields env) 13 ;;
    let schema := add_field schema (with_max_length 64 (plain_field f13 VARCHAR)) in
    Ok schema
  else if String.eqb document_type "Document" then
    d1 <- getitem (document_fields env) 1 ;;
    let schema := add_field schema (plain_field d1 JSON) in
    d2 <- getitem (document_fields env) 2 ;;
    let schema := add_field schema (with_max_length 16384 (plain_field d2 VARCHAR)) in
    Ok schema
  else Ok schema.

(** [_setup_collection_index].  [params] and [sparse_params] are [None] when
    the caller leaves them out. *)
Definition _setup_collection_index (index_algo dense_search_metric : string)
    (params : option dict) (enable_sparse : bool) (sparse_index_type : string)
    (sparse_params : option dict) : result IndexParams :=
  let index_params := prepare_index_params in
  let params :=
    match params with
    | None => [("nlist", VInt 128)]
    | Some p => p
    end in
  let sparse_params :=
    match sparse_params with
    | None => [("drop_ratio_build", VFloat 0x1.999999999999ap-3%float)]
    | Some p => p
    end in
  k0 <- getitem default_keys 0 ;;
  let index_params := add_index index_params
    (mkIndex k0 "unique_id" None None None) in
  k1 <- getitem default_keys 1 ;;
  let index_params := add_index index_params
    (mkIndex k1 "dense_representation" (Some index_algo)
             (Some dense_search_metric) (Some params)) in
  if enable_sparse then
    k2 <- getitem default_keys 2 ;;
    Ok (add_index index_params
          (mkIndex k2 "sparse_representation" (Some sparse_index_type)
                   (Some "IP") (Some sparse_params)))
  else Ok index_params.


(** [str(uuid.uuid4())]. *)
Definition str_uuid4 : M string :=
  fun w => (Ok (uuid4 env (drawn w)),
            mkWorld (nodes w) (infos w) (S (drawn w)) (log w)).

(** A call to the storage engine: its answer, and the call logged. *)
Definition invoke (c : call) : M value :=
  fun w => (engine env (log w) c,
            mkWorld (nodes w) (infos w) (drawn w) (log w ++ [c])).

(** [o.dict()] for an object of a batch. *)
Definition obj_dict (o : pyobj) : M dict :=
  match o with
  | NodeRef a => fun w => (Ok (BaseNode_dict env (nodes w a) (infos w)), w)
  | DocumentObj d => ret (Document_dict d)
  | OtherObject (Some d) => ret d
  | OtherObject None => raise (AttributeError "dict")
  end.

(** ** Record conversion *)

(** [relationships[key].metadata = {}].  A related-node object takes the
    new attribute value; a list of them has no such attribute. *)
Definition clear_related (relationships : list (string * RelatedNodeType))
    (key : string) : M unit :=
  r <- lift (match dict_assoc key relationships with
             | Some r => Ok r
             | None => Raise (KeyError key)
             end) ;;
  match r with
  | OneRelated r =>
      i <- get_info r ;;
      set_info r (mkInfo (info_node_id i) [])
  | ManyRelated _ => raise (AttributeError "metadata")
  end.

(** The message of the second framework's [Document] for an attribute that
    is not one of its fields. *)
Definition no_field_message (attribute : string) : string :=
  let quote := String (ascii_of_nat 34) EmptyString in
  (quote ++ "Document" ++ quote ++ " object has no field " ++ quote
   ++ attribute ++ quote)%string.

(** The body of the loop over a node batch.  A document of the second
    framework refuses the write of an attribute that is not one of its
    fields with [ValueError]; an object of any other class is taken to have
    none of the attributes. *)
Definition strip_node (o : pyobj) : M unit :=
  match o with
  | NodeRef a =>
      n <- get_node a ;;
      set_node a (mkNode (node_id_ n) VNone (node_metadata n)
                         (node_relationships n) (node_text n)) ;;;
      n <- get_node a ;;
      (if truthy (dict_get (node_metadata n) "file_path")
       then
         r <- lift (dict_pop (node_metadata n) "file_path") ;;
         set_node a (mkNode (node_id_ n) (node_embedding n) (snd r)
                            (node_relationships n) (node_text n))
       else ret tt) ;;;
      n <- get_node a ;;
      forM_ (clear_related (node_relationships n))
            (map fst (node_relationships n))
  | DocumentObj _ => raise (ValueError (no_field_message "embedding"))
  | OtherObject _ => raise (AttributeError "embedding")
  end.

(** The body of the loop over the dictionaries of a document batch. *)
Definition rename_keys (d : dict) : M dict :=
  let document_id := dict_get d "id" in
  k0 <- lift (getitem default_keys 0) ;;
  v0 <- (if negb (is_none document_id) then ret document_id
         else u <- str_uuid4 ;; ret (VStr u)) ;;
  k3 <- lift (getitem default_keys 3) ;;
  let d := dict_update d (dict_literal [(k0, v0); (k3, dict_get d "type")]) in
  r <- lift (dict_pop d "id") ;;
  r <- lift (dict_pop (snd r) "type") ;;
  ret (snd r).

(** [_convert_upsert_data]. *)
Definition _convert_upsert_data (documents : list pyobj) : M (list dict) :=
  first <- lift (getitem documents 0) ;;
  if is_BaseNode first then
    forM_ strip_node documents ;;;
    mapM obj_dict documents
  else
    documents <- mapM obj_dict documents ;;
    mapM rename_keys documents.

(** ** Search hits back to typed documents *)

(** The wrapper the first conversion returns. *)
Record NodeWithScore : Type := mkNodeWithScore {
  node : TextNode env;
  score : value
}.

(** [NodeWithScore(node=n, score=s)]: the constructor validates the score. *)
Definition NodeWithScore_new (n : TextNode env) (s : value)
    : result NodeWithScore :=
  s <- validate_score env s ;;
  Ok (mkNodeWithScore n s).

(** The entity of a hit, with the two vector fields set to [None] on
    request: the part the two conversions share. *)
Definition entity_of (response : dict) (remove_embedding : bool) : result dict :=
  e <- dict_getitem response "entity" ;;
  temp <- to_dict e ;;
  if remove_embedding then
    k1 <- getitem default_keys 1 ;;
    k2 <- getitem default_keys 2 ;;
    Ok (dict_update temp (dict_literal [(k1, VNone); (k2, VNone)]))
  else Ok temp.

(** [_convert_response_to_node_with_score]. *)
Definition _convert_response_to_node_with_score (responses : list dict)
    (remove_embedding : bool) : result (list NodeWithScore) :=
  results <- foldM (fun results response =>
                      temp <- entity_of response remove_embedding ;;
                      Ok (results ++ [temp]))
                   responses [] ;;
  text_nodes <- mapM (TextNode_from_dict env) results ;;
  mapM (fun i =>
          n <- getitem text_nodes i ;;
          r <- getitem responses i ;;
          s <- dict_getitem r "distance" ;;
          NodeWithScore_new n s)
       (seq 0 (length responses)).

(** [entity.setdefault("metadata", {}).setdefault("score", distance)]: the
    inner call updates the metadata dictionary the entity holds, which is
    written back here. *)
Definition add_score (entity : dict) (distance : value) : result dict :=
  let (md, entity) := dict_setdefault entity "metadata" (VDict []) in
  match md with
  | VDict md =>
      let (_, md) := dict_setdefault md "score" distance in
      Ok (dict_set entity "metadata" (VDict md))
  | _ => Raise (AttributeError "setdefault")
  end.

(** [_convert_response_to_document], as a function of the values of the
    hits: what the method returns when no two hits hold the same metadata
    mapping ([in_place_returns] below). *)
Definition _convert_response_to_document (responses : list dict)
    (remove_embedding : bool) : result (list Document) :=
  foldM (fun results response =>
           entity <- entity_of response remove_embedding ;;
           entity <- add_score entity (dict_get response "distance") ;;
           doc <- Document_parse_obj env entity ;;
           Ok (results ++ [doc]))
        responses [].

(** [entity.setdefault("metadata", {}).setdefault("score", distance)] on the
    copy [dict(response['entity'])] of the entity of the hit [h].  The copy
    is shallow: a mapping found under ["metadata"] is the one the hit holds,
    and the entry set in it is set for the caller and for every hit that
    holds the same mapping; a mapping created for the purpose belongs to the
    copy alone. *)
Definition add_score_in_place (h : HeldHit) (entity : dict) (distance : value)
    : W dict :=
  entity' <- liftW (add_score entity distance) ;;
  match dict_find entity "metadata", dict_find entity' "metadata" with
  | Some _, Some (VDict md) => write_metadata h md ;;; ret entity'
  | _, _ => ret entity'
  end.

(** The body of the loop of [_convert_response_to_document] on a hit the
    caller holds. *)
Definition convert_held (remove_embedding : bool) (h : HeldHit) : W Document :=
  response <- read_hit h ;;
  entity <- liftW (entity_of response remove_embedding) ;;
  entity <- add_score_in_place h entity (dict_get response "distance") ;;
  liftW (Document_parse_obj env entity).

(** [_convert_response_to_document] on the hits the caller holds: the
    documents, or the exception, and what the metadata mappings of the hits
    have been given. *)
Definition _convert_response_to_document_in_place (responses : list HeldHit)
    (remove_embedding : bool) : result (list Document) * writes :=
  foldM (fun results h =>
           doc <- convert_held remove_embedding h ;;
           ret (results ++ [doc]))
        responses [] no_writes.

(** ** Collections and partitions *)

(** [_create_collection]. *)
Definition _create_collection (self : BaseVectorStore) (document_type : string)
    (dimension_nums : Z) (enable_sparse : bool) : M value :=
  schema <- lift (_setup_collection_schema document_type dimension_nums
                    (_dense_datatype self) enable_sparse) ;;
  index_params <- lift (_setup_collection_index (_index_algo self)
                          (_dense_search_metrics self) None enable_sparse
                          "SPARSE_INVERTED_INDEX" None) ;;
  invoke (CreateCollection (_collection_name self) schema index_params) ;;;
  res <- invoke (GetLoadState (_collection_name self)) ;;
  ret res.

(** [_create_partition]. *)
Definition _create_partition (self : BaseVectorStore) (partition_name : string)
    : M value :=
  if truthy (VStr partition_name) then
    invoke (CreatePartition (_collection_name self) partition_name) ;;;
    invoke (GetLoadState (_collection_name self))
  else raise (AssertionError "Collection name must be a string").

(** The message of the last check of [_verify_collection_dimension]. *)
Definition dimension_message (embedding_dimension : Z) (collection_dims : value)
    : string :=
  "Embed dimension (" ++ str_of_Z embedding_dimension
  ++ ") is differ with default collection dimension ("
  ++ format_int_like collection_dims ++ ")".

(** One step of the comprehension
    [[stats for stats in collection_stats
      if dict(stats).get("name") == default_keys[1]]]. *)
Definition keep_dense (acc : list value) (stats : value) : result (list value) :=
  d <- to_dict stats ;;
  k1 <- getitem default_keys 1 ;;
  if eq_str (dict_get d "name") k1 then Ok (acc ++ [stats]) else Ok acc.

(** The checks of [_verify_collection_dimension] on the description the
    engine returned. *)
Definition check_dimension (stats : value) (embedding_dimension : Z)
    : result unit :=
  stats <- to_dict stats ;;
  let collection_stats := dict_get stats "fields" in
  if is_none collection_stats
  then Raise (ValueError "Fields not existed in collection")
  else
    items <- to_list collection_stats ;;
    collection_stats <- foldM keep_dense items [] ;;
    if Nat.eqb (length collection_stats) 0
    then Raise (ValueError "Empty embedding field!")
    else
      first <- getitem collection_stats 0 ;;
      first <- to_dict first ;;
      let collection_params := dict_get first "params" in
      if is_none collection_params
      then Raise (ValueError "Empty params field!")
      else
        collection_params <- to_dict collection_params ;;
        let collection_dims := dict_get collection_params "dim" in
        if is_none collection_dims
        then Raise (ValueError "Empty dim field!")
        else
          match as_int collection_dims with
          | None => Raise (ValueError "Collection dims must be integer!")
          | Some n =>
              if negb (Z.eqb embedding_dimension n)
              then Raise (ValueError
                            (dimension_message embedding_dimension collection_dims))
              else Ok tt
          end.

(** [_verify_collection_dimension]. *)
Definition _verify_collection_dimension (self : BaseVectorStore)
    (collection_name : string) (embedding_dimension : Z) : M unit :=
  stats <- invoke (DescribeCollection collection_name) ;;
  lift (check_dimension stats embedding_dimension).

End Store.

(** ** Dense embedding *)

(** [_embed_texts]: the vectors, or the exception, and the model object as
    the call leaves it. *)
Definition _embed_texts (texts : list string) (embedding_model : EmbeddingModel)
    (batch_size num_workers : Z) (show_progress : bool)
    : result (list Embedding) * EmbeddingModel :=
  match embedding_model with
  | BaseEmbeddingObj m =>
      let m := mkBaseEmbedding num_workers (attr_embed_batch_size m)
                               (get_text_embedding_batch m) in
      let m := mkBaseEmbedding (attr_num_workers m) batch_size
                               (get_text_embedding_batch m) in
      (get_text_embedding_batch m (attr_num_workers m) (attr_embed_batch_size m)
                                texts show_progress,
       BaseEmbeddingObj m)
  | OtherModel _ (Some embed_documents) =>
      (embed_documents texts, embedding_model)
  | OtherModel _ None =>
      (Raise (AttributeError "embed_documents"), embedding_model)
  end.

(** ** Dense query embedding *)

(** The [queries] argument of [_embed_query]: one string or a list. *)
Inductive QueriesArg : Type :=
| OneQuery (query : string)
| ManyQueries (queries : list string).

(** [if isinstance(queries, str): queries = [queries]]. *)
Definition as_query_list (queries : QueriesArg) : list string :=
  match queries with
  | OneQuery query => [query]
  | ManyQueries queries => queries
  end.

(** The model object handed to [_embed_query]: an instance of the first
    framework's class, with its [get_query_embedding] method, or any other
    object, with its [embed_query] method if it has one. *)
Inductive QueryModel : Type :=
| BaseEmbeddingQuery (get_query_embedding : string -> result Embedding)
| OtherQuery (embed_query : option (string -> result Embedding)).

(** [_embed_query].  The method is looked up at each turn of the
    comprehension, so an object without it fails at the first query only. *)
Definition _embed_query (queries : QueriesArg) (embedding_model : QueryModel)
    : result (list Embedding) :=
  let queries := as_query_list queries in
  match embedding_model with
  | BaseEmbeddingQuery get_query_embedding =>
      mapM (fun query => get_query_embedding query) queries
  | OtherQuery embed_query =>
      mapM (fun query =>
              match embed_query with
              | Some embed_query => embed_query query
              | None => Raise (AttributeError "embed_query")
              end)
           queries
  end.

(** ** Sparse embedding *)

(** A sparse vector as the module returns it: a dictionary from index to
    weight, in insertion order. *)
Definition SparseVector : Type := list (Z * float).

Fixpoint sparse_find (d : SparseVector) (k : Z) : option float :=
  match d with
  | [] => None
  | (k', v) :: d' => if Z.eqb k' k then Some v else sparse_find d' k
  end.

(** [d[k] = v]. *)
Fixpoint sparse_set (d : SparseVector) (k : Z) (v : float) : SparseVector :=
  match d with
  | [] => [(k, v)]
  | (k', v') :: d' =>
      if Z.eqb k' k then (k', v) :: d' else (k', v') :: sparse_set d' k v
  end.

(** A row of a compressed-sparse-row array: its column indices and the
    values stored there. *)
Record csr_array : Type := mkCsr {
  csr_indices : list Z;
  csr_data : list float
}.

(** [_convert_csr_array_to_dict]:
    [{indice: value for (indice, value) in zip(indices, data)}]. *)
Definition _convert_csr_array_to_dict (csr : csr_array) : SparseVector :=
  fold_left (fun acc iv => sparse_set acc (fst iv) (snd iv))
            (combine (csr_indices csr) (csr_data csr)) [].

(** An embedding object of the first sparse library, with what its
    [as_dict()] returns. *)
Record SparseEmbedding : Type := mkSparseEmbedding {
  as_dict : SparseVector
}.

(** The model object handed to the sparse methods: an instance of the first
    library's class ([embed] takes the documents, the batch size and the
    parallelism), an instance of the second library's class (its methods
    return one row per text), or any other object. *)
Inductive SparseModel : Type :=
| SparseTextEmbeddingObj
    (embed : list string -> Z -> option Z -> result (list SparseEmbedding))
    (query_embed : list string -> result (list SparseEmbedding))
| SpladeEmbeddingFunctionObj
    (encode_documents : list string -> result (list csr_array))
    (encode_queries : list string -> result (list csr_array))
| OtherSparseModel.

(** [_sparse_embed_texts]. *)
Definition _sparse_embed_texts (texts : list string)
    (sparse_embedding_model : SparseModel) (batch_size : Z)
    (parallel : option Z) : result (list SparseVector) :=
  match sparse_embedding_model with
  | SparseTextEmbeddingObj embed _ =>
      sparse_embeddings <- embed texts batch_size parallel ;;
      Ok (map as_dict sparse_embeddings)
  | SpladeEmbeddingFunctionObj encode_documents _ =>
      sparse_embeddings <- encode_documents texts ;;
      Ok (map _convert_csr_array_to_dict sparse_embeddings)
  | OtherSparseModel =>
      Raise (NotImplementedError
               "This version only support FastEmbed SparseTextEmbedding!")
  end.

(** [_sparse_embed_query]. *)
Definition _sparse_embed_query (query : QueriesArg)
    (sparse_embedding_model : SparseModel) : result (list SparseVector) :=
  let query := as_query_list query in
  match sparse_embedding_model with
  | SparseTextEmbeddingObj _ query_embed =>
      sparse_embeddings <- query_embed query ;;
      Ok (map as_dict sparse_embeddings)
  | SpladeEmbeddingFunctionObj _ encode_queries =>
      sparse_embeddings <- encode_queries query ;;
      Ok (map _convert_csr_array_to_dict sparse_embeddings)
  | OtherSparseModel =>
      Raise (NotImplementedError
               "Sparse embedding currently support Milvus/Fastembed!")
  end.

(** ** A concrete setting *)

(** The field names of the two frameworks' classes as the module indexes
    them, simple stand-ins for the collaborators, and an engine that
    describes every collection as holding a 512-dimensional dense field. *)
Module Example.

Definition text_node_fields : list string :=
  [ "id_"; "embedding"; "metadata"; "excluded_embed_metadata_keys";
    "excluded_llm_metadata_keys"; "relationships"; "metadata_template";
    "metadata_separator"; "text"; "mimetype"; "start_char_idx";
    "end_char_idx"; "metadata_seperator"; "text_template" ].

Definition description (dims : value) : value :=
  VDict [ ("collection_name", VStr "milvus_vector_store");
          ("fields",
           VList [ VDict [ ("name", VStr "id_"); ("params", VDict []) ];
                   VDict [ ("name", VStr "embedding");
                           ("params", VDict [ ("dim", dims) ]) ] ]) ].

Definition answer (history : list call) (c : call) : result value :=
  match c with
  | DescribeCollection _ => Ok (description (VInt 512))
  | GetLoadState _ => Ok (VDict [ ("state", VStr "Loaded") ])
  | _ => Ok VNone
  end.

Definition info_dict (i : RelatedNodeInfo) : value :=
  VDict [ ("node_id", VStr (info_node_id i));
          ("metadata", VDict (info_metadata i)) ].

Definition node_dict (n : BaseNode) (infos : addr -> RelatedNodeInfo) : dict :=
  [ ("id_", VStr (node_id_ n));
    ("embedding", node_embedding n);
    ("metadata", VDict (node_metadata n));
    ("relationships",
     VDict (map (fun kr =>
                   (fst kr,
                    match snd kr with
                    | OneRelated r => info_dict (infos r)
                    | ManyRelated rs => VList (map (fun r => info_dict (infos r)) rs)
                    end))
                (node_relationships n)));
    ("text", VStr (node_text n));
    ("class_name", VStr "TextNode") ].

Definition parse_document (d : dict) : result Document :=
  match dict_get d "page_content", dict_get d "metadata" with
  | VStr text, VDict md =>
      Ok (mkDocument (match dict_get d "id" with VStr s => Some s | _ => None end)
                     md text "Document")
  | _, _ => Raise (ValueError "validation error for Document")
  end.

(** A validation of scores that takes floats and [None] as they are and
    refuses everything else (the framework's also converts some values to
    floats). *)
Definition float_or_none (v : value) : result value :=
  match v with
  | VFloat _ | VNone => Ok v
  | _ => Raise (ValueError "validation error for NodeWithScore")
  end.

Definition imports : Imports :=
  {| id_key := "id_";
     embedding_key := "embedding";
     sparse_key := "sparse_embedding";
     type_key := "class_name";
     more_keys := [];
     base_node_fields := text_node_fields;
     document_fields := [ "id"; "metadata"; "page_content"; "type" ];
     uuid4 := fun n => ("uuid-" ++ str_of_Z (Z.of_nat n))%string;
     engine := answer;
     BaseNode_dict := node_dict;
     TextNode := dict;
     TextNode_from_dict := fun d => Ok d;
     Document_parse_obj := parse_document;
     validate_score := float_or_none |}.

Definition store : BaseVectorStore :=
  mkStore "milvus_vector_store" "COSINE" "IVF_FLAT" "FLOAT_VECTOR"
          "http://localhost:19530".

Definition empty_world : world :=
  mkWorld (fun _ => mkNode "" VNone [] [] "")
          (fun _ => mkInfo "" [])
          0 [].

(** A world whose node at address 0 has an empty ["file_path"], a vector
    and one related node, at address 7, with metadata of its own. *)
Definition world_with_empty_path : world :=
  mkWorld (fun _ => mkNode "n1" (VList [ VFloat 1%float ])
                           [ ("file_path", VStr ""); ("page", VInt 3) ]
                           [ ("1", OneRelated 7) ] "text")
          (fun _ => mkInfo "n0" [ ("file_path", VStr "/tmp/a.txt") ])
          0 [].

(** The same world with the path of a file under ["file_path"], and a
    second related node, at address 8. *)
Definition world_with_path : world :=
  mkWorld (fun _ => mkNode "n1" (VList [ VFloat 1%float ])
                           [ ("file_path", VStr "/tmp/b.txt"); ("page", VInt 3) ]
                           [ ("1", OneRelated 7); ("3", OneRelated 8) ] "text")
          (fun _ => mkInfo "n0" [ ("file_path", VStr "/tmp/a.txt") ])
          0 [].

(** The same world again, the nodes having two children as well, at
    addresses 8 and 9, and a next node, at address 10. *)
Definition world_with_children : world :=
  mkWorld (fun _ => mkNode "n1" (VList [ VFloat 1%float ])
                           [ ("file_path", VStr "/tmp/b.txt"); ("page", VInt 3) ]
                           [ ("1", OneRelated 7);
                             ("5", ManyRelated [ 8%nat; 9%nat ]);
                             ("3", OneRelated 10) ]
                           "text")
          (fun _ => mkInfo "n0" [ ("file_path", VStr "/tmp/a.txt") ])
          0 [].

(** A hit whose stored metadata already has a ["score"], as a document has
    that was retrieved once and inserted again. *)
Definition hit_with_score : dict :=
  [ ("entity",
     VDict [ ("id_", VStr "d1");
             ("embedding", VList [ VFloat 1%float ]);
             ("class_name", VStr "Document");
             ("metadata", VDict [ ("score", VFloat 0.25%float) ]);
             ("page_content", VStr "body") ]);
    ("distance", VFloat 0.75%float) ].

(** The same hit with fresh metadata. *)
Definition hit_without_score : dict :=
  [ ("entity",
     VDict [ ("id_", VStr "d1");
             ("embedding", VList [ VFloat 1%float ]);
             ("class_name", VStr "Document");
             ("metadata", VDict [ ("source", VStr "a.txt") ]);
             ("page_content", VStr "body") ]);
    ("distance", VFloat 0.75%float) ].

(** The two hits as a caller holds them, each with a metadata mapping of
    its own. *)
Definition held_hits : list HeldHit :=
  [ mkHeldHit hit_without_score 0; mkHeldHit hit_with_score 1 ].

(** Two hits at different distances that hold the same metadata mapping. *)
Definition hits_sharing_metadata : list HeldHit :=
  [ mkHeldHit hit_without_score 0;
    mkHeldHit (dict_set hit_without_score "distance" (VFloat 0.5%float)) 0 ].

(** An object of neither framework that happens to have an
    [embed_documents] method. *)
Definition stranger : EmbeddingModel :=
  OtherModel false (Some (fun texts => Ok (map (fun _ => [ 0%float ]) texts))).

End Example.

(** * Vocabulary of the properties *)

(** ** Schemas and index plans *)

(** The three floating-point encodings of a dense vector. *)
Definition recognized_datatypes : list string :=
  [ "FLOAT_VECTOR"; "FLOAT16_VECTOR"; "BFLOAT16_VECTOR" ].

(** The message of the [ValueError] of [_get_datatype]. *)
Definition datatype_message (datatype : string) : string :=
  "Dense data type: " ++ datatype ++ " is not compatible with dense vector field!".

(** The schema has a field of the sparse-vector datatype. *)
Definition has_sparse_field (schema : CollectionSchema) : bool :=
  existsb (fun f => DataType_eqb (datatype f) SPARSE_FLOAT_VECTOR) (fields schema).

(** How many fields of the schema have a dense-vector datatype. *)
Definition count_dense_fields (schema : CollectionSchema) : nat :=
  length (filter (fun f => is_dense_datatype (datatype f)) (fields schema)).

(** A result that is not a [ValueError]. *)
Definition no_value_error {A : Type} (r : result A) : Prop :=
  forall msg, r <> Raise (ValueError msg).

(** The sparse tuning parameters in force, the default when none is given. *)
Definition effective_sparse_params (sparse_params : option dict) : dict :=
  match sparse_params with
  | None => [("drop_ratio_build", VFloat 0x1.999999999999ap-3%float)]
  | Some p => p
  end.

(** ** Collection descriptions *)

(** What can be wrong with a collection's description. *)
Inductive defect : Type :=
| NoFields
| NoDenseField
| NoParams
| NoDim
| DimNotInteger.

(** The message of the [ValueError] raised for each defect. *)
Definition defect_message (d : defect) : string :=
  match d with
  | NoFields => "Fields not existed in collection"
  | NoDenseField => "Empty embedding field!"
  | NoParams => "Empty params field!"
  | NoDim => "Empty dim field!"
  | DimNotInteger => "Collection dims must be integer!"
  end.

(** The two kinds of failure of the validation, told apart by the message of
    the [ValueError]. *)
Definition DimensionMismatch (e : exn) : Prop :=
  exists runtime_dims collection_dims,
    e = ValueError (dimension_message runtime_dims collection_dims).

Definition SchemaInconsistency (e : exn) : Prop :=
  exists d, e = ValueError (defect_message d).

Section Description.

Variable env : Imports.

(** A field description whose name is not the dense-vector field's. *)
Definition is_other_field (f : value) : Prop :=
  exists fd, f = VDict fd
             /\ eq_str (dict_get fd "name") (embedding_key env) = false.

Definition is_field (f : value) : Prop := exists fd, f = VDict fd.

(** [dense_field stats field]: the description has a fields list, all of
    whose entries are mappings, and [field] is the first one named after the
    dense-vector field. *)
Inductive dense_field : value -> dict -> Prop :=
| dense_field_intro (d : dict) (before : list value) (field : dict)
                    (rest : list value) :
    dict_find d "fields" = Some (VList (before ++ VDict field :: rest)) ->
    Forall is_other_field before ->
    Forall is_field rest ->
    eq_str (dict_get field "name") (embedding_key env) = true ->
    dense_field (VDict d) field.

(** [declares stats dims]: the description is well-formed and declares
    [dims] as the dimension of its dense-vector field. *)
Inductive declares : value -> value -> Prop :=
| declares_intro (stats : value) (field params : dict) (dims : value) :
    dense_field stats field ->
    dict_find field "params" = Some (VDict params) ->
    dict_find params "dim" = Some dims ->
    declares stats dims.

(** [has_defect stats d]: the description lacks what [d] names. *)
Inductive has_defect : value -> defect -> Prop :=
| defect_fields (d : dict) :
    dict_get d "fields" = VNone ->
    has_defect (VDict d) NoFields
| defect_dense (d : dict) (fs : list value) :
    dict_find d "fields" = Some (VList fs) ->
    Forall is_other_field fs ->
    has_defect (VDict d) NoDenseField
| defect_params (stats : value) (field : dict) :
    dense_field stats field ->
    dict_get field "params" = VNone ->
    has_defect stats NoParams
| defect_dim (stats : value) (field params : dict) :
    dense_field stats field ->
    dict_find field "params" = Some (VDict params) ->
    dict_get params "dim" = VNone ->
    has_defect stats NoDim
| defect_integer (stats dims : value) :
    declares stats dims ->
    dims <> VNone ->
    as_int dims = None ->
    has_defect stats DimNotInteger.

End Description.

(** ** Records made of documents *)

(** The keys of a dictionary, in order. *)
Definition dict_keys (d : dict) : list string := map fst d.

(** The primary-key and document-type fields are named differently from the
    generic ["id"] and ["type"] keys they replace, and from each other. *)
Definition keys_renamed (env : Imports) : Prop :=
  id_key env <> "id" /\ id_key env <> "type"
  /\ type_key env <> "id" /\ type_key env <> "type"
  /\ id_key env <> type_key env.

(** The generator called once more. *)
Definition bump (w : world) : world :=
  mkWorld (nodes w) (infos w) (S (drawn w)) (log w).

(** The record made of a document's dictionary, given its identifier. *)
Definition renamed (env : Imports) (d : dict) (identifier : value) : dict :=
  dict_remove
    (dict_remove
       (dict_set (dict_set d (id_key env) identifier)
                 (type_key env) (dict_get d "type"))
       "id")
    "type".

(** A dictionary with no identifier under ["id"]. *)
Definition lacks_id (d : dict) : bool := is_none (dict_get d "id").

(** How many dictionaries of a batch have no identifier. *)
Definition count_missing (ds : list dict) : nat := length (filter lacks_id ds).

(** The identifier of the [i]-th dictionary of a batch converted when the
    generator has handed out [n] identifiers. *)
Definition identifier_at (env : Imports) (n : nat) (ds : list dict) (i : nat)
    (d : dict) : value :=
  if lacks_id d
  then VStr (uuid4 env (n + count_missing (firstn i ds)))
  else dict_get d "id".

(** The records of a batch of dictionaries converted when the generator has
    handed out [n] identifiers. *)
Fixpoint records_from (env : Imports) (n : nat) (ds : list dict) : list dict :=
  match ds with
  | [] => []
  | d :: ds' =>
      if lacks_id d
      then renamed env d (VStr (uuid4 env n)) :: records_from env (S n) ds'
      else renamed env d (dict_get d "id") :: records_from env n ds'
  end.

(** The dictionary has the generic ["id"] and ["type"] keys. *)
Definition has_generic_keys (d : dict) : Prop :=
  (exists i, dict_find d "id" = Some i) /\ (exists t, dict_find d "type" = Some t).

(** The generic key a dictionary is found to lack: ["id"] is popped
    first. *)
Definition missing_key (d : dict) : string :=
  match dict_find d "id" with
  | None => "id"
  | Some _ => "type"
  end.

(** What the conversion of a batch of [n] objects that are not nodes can
    come to: one record per object, or the error of the step an object does
    not support, its [dict()] method or one of the two generic keys. *)
Definition plain_outcome (n : nat) (r : result (list dict)) : Prop :=
  (exists records, r = Ok records /\ length records = n)
  \/ r = Raise (AttributeError "dict")
  \/ r = Raise (KeyError "id")
  \/ r = Raise (KeyError "type").

(** How many documents of a batch carry no identifier. *)
Definition without_id (docs : list Document) : nat :=
  length (filter (fun d => match doc_id d with None => true | Some _ => false end)
                 docs).

(** ** Nodes after the conversion *)

(** The metadata of a node after the conversion: the entry under
    ["file_path"] goes when its value is truthy. *)
Definition without_file_path (md : dict) : dict :=
  if truthy (dict_get md "file_path") then dict_remove md "file_path" else md.

(** Mappings have one entry per key. *)
Definition well_formed_node (n : BaseNode) : Prop :=
  NoDup (dict_keys (node_metadata n))
  /\ NoDup (map fst (node_relationships n)).

(** Every relationship key of the node holds one related-node object, none
    a list of them. *)
Definition single_relations (n : BaseNode) : Prop :=
  forall key rel, In (key, rel) (node_relationships n) ->
                  exists r, rel = OneRelated r.

(** [r] is a related-node object of one of the nodes at [addrs]. *)
Definition related_to (w : world) (addrs : list addr) (r : addr) : Prop :=
  exists a key,
    In a addrs /\ In (key, OneRelated r) (node_relationships (nodes w a)).

(** The world [w] is [w0] with the nodes at [done] stripped: nothing else
    has changed. *)
Definition stripped (w0 : world) (done : list addr) (w : world) : Prop :=
  drawn w = drawn w0
  /\ log w = log w0
  /\ (forall a, node_id_ (nodes w a) = node_id_ (nodes w0 a)
                /\ node_relationships (nodes w a)
                   = node_relationships (nodes w0 a)
                /\ node_text (nodes w a) = node_text (nodes w0 a))
  /\ (forall a, In a done ->
                node_embedding (nodes w a) = VNone
                /\ node_metadata (nodes w a)
                   = without_file_path (node_metadata (nodes w0 a)))
  /\ (forall a, ~ In a done -> nodes w a = nodes w0 a)
  /\ (forall r, info_node_id (infos w r) = info_node_id (infos w0 r))
  /\ (forall r, related_to w0 done r -> info_metadata (infos w r) = [])
  /\ (forall r, ~ related_to w0 done r -> infos w r = infos w0 r).

(** ** Hits and models *)

(** [e'] is [e] with the two vector fields set to [None] when [remove] is
    set, and [e] itself otherwise. *)
Definition nulled (env : Imports) (remove : bool) (e e' : dict) : Prop :=
  (remove = true ->
   dict_find e' (embedding_key env) = Some VNone
   /\ dict_find e' (sparse_key env) = Some VNone)
  /\ (forall k, (remove = true -> k <> embedding_key env /\ k <> sparse_key env) ->
                dict_find e' k = dict_find e k).

(** [e'] is [e] with [distance] under ["score"] in its metadata, unless the
    metadata had a ["score"] already, which then stays. *)
Definition scored (distance : value) (e e' : dict) : Prop :=
  exists md md',
    (dict_find e "metadata" = Some (VDict md)
     \/ (dict_find e "metadata" = None /\ md = []))
    /\ dict_find e' "metadata" = Some (VDict md')
    /\ dict_find md' "score"
       = Some (match dict_find md "score" with
               | Some old => old
               | None => distance
               end)
    /\ (forall k, k <> "score" -> dict_find md' k = dict_find md k)
    /\ (forall k, k <> "metadata" -> dict_find e' k = dict_find e k).

(** The hits the engine returns: an entity mapping and a distance. *)
Definition well_formed_hit (r : dict) : Prop :=
  exists e d, dict_find r "entity" = Some (VDict e)
              /\ dict_find r "distance" = Some d.

(** The model objects of the two recognized conventions. *)
Definition is_recognized_model (m : EmbeddingModel) : bool :=
  match m with
  | BaseEmbeddingObj _ => true
  | OtherModel is_Embeddings _ => is_Embeddings
  end.

(** ** Further vocabulary: sparse vectors, queries, payloads *)

(** The weight the last pair with index [k] carries, if any. *)
Definition last_weight (pairs : list (Z * float)) (k : Z) : option float :=
  fold_left (fun acc iv => if Z.eqb (fst iv) k then Some (snd iv) else acc)
            pairs None.

(** What the model answers to one query. *)
Definition query_method (m : QueryModel) (query : string) : result Embedding :=
  match m with
  | BaseEmbeddingQuery get_query_embedding => get_query_embedding query
  | OtherQuery (Some embed_query) => embed_query query
  | OtherQuery None => Raise (AttributeError "embed_query")
  end.

(** The primary-key and document-type fields are not named after the two
    payload fields of a document. *)
Definition payload_kept (env : Imports) : Prop :=
  id_key env <> "metadata" /\ id_key env <> "page_content"
  /\ type_key env <> "metadata" /\ type_key env <> "page_content".

(** The two vector fields are not named after a field of a document's
    record. *)
Definition vectors_apart (env : Imports) : Prop :=
  forall k, In k [ "metadata"; "page_content"; id_key env; type_key env ] ->
            k <> embedding_key env /\ k <> sparse_key env.

(** A record as a search hit at the given distance. *)
Definition hit_of (record : dict) (distance : value) : dict :=
  [ ("entity", VDict record); ("distance", distance) ].

(** The world is the same, read pointwise. *)
Definition same_world (w1 w2 : world) : Prop :=
  (forall a, nodes w1 a = nodes w2 a)
  /\ (forall r, infos w1 r = infos w2 r)
  /\ drawn w1 = drawn w2
  /\ log w1 = log w2.

(** The names of the shape-specific fields of a schema, by document type. *)
Definition shape_field_names (env : Imports) (document_type : string)
    : list string :=
  if endswith document_type "Node" then firstn 12 (skipn 2 (base_node_fields env))
  else if String.eqb document_type "Document"
       then firstn 2 (skipn 1 (document_fields env))
       else [].

(** How many framework fields the schema of a document type reads. *)
Definition fields_needed (env : Imports) (document_type : string) : Prop :=
  (endswith document_type "Node" = true ->
   (14 <= length (base_node_fields env))%nat)
  /\ (endswith document_type "Node" = false -> document_type = "Document" ->
      (3 <= length (document_fields env))%nat).

(** A field that is neither the primary key nor a vector. *)
Definition payload_field (f : FieldSchema) : Prop :=
  is_primary f = false
  /\ is_dense_datatype (datatype f) = false
  /\ DataType_eqb (datatype f) SPARSE_FLOAT_VECTOR = false.

(** The dense tuning parameters in force, the default when none is given. *)
Definition effective_dense_params (params : option dict) : dict :=
  match params with
  | None => [("nlist", VInt 128)]
  | Some p => p
  end.

(** The plan has an index named ["sparse_representation"]. *)
Definition has_sparse_index (plan : IndexParams) : bool :=
  existsb (fun i => String.eqb (index_name i) "sparse_representation") plan.

(** The world after the given calls, nothing else having changed. *)
Definition after_calls (w : world) (calls : list call) : world :=
  mkWorld (nodes w) (infos w) (drawn w) (log w ++ calls).

(** What the document conversion does with one hit. *)
Definition convert_hit (env : Imports) (remove_embedding : bool)
    (response : dict) : result Document :=
  entity <- entity_of env response remove_embedding ;;
  entity <- add_score entity (dict_get response "distance") ;;
  Document_parse_obj env entity.

(** What the document conversion of a hit of the given value gives the
    metadata mapping of the hit, if the hit has one. *)
Definition written_by (env : Imports) (remove_embedding : bool)
    (response : dict) : option dict :=
  match entity_of env response remove_embedding with
  | Ok entity =>
      match add_score entity (dict_get response "distance") with
      | Ok entity' =>
          match dict_find entity "metadata", dict_find entity' "metadata" with
          | Some _, Some (VDict md) => Some md
          | _, _ => None
          end
      | Raise _ => None
      end
  | Raise _ => None
  end.

(** The dictionary [e''] handed to the document constructor is made of the
    entity [e]: it has the mapping [md'] under ["metadata"], [None] under
    the two vector fields when [remove] is set, and the entries of [e]
    under every other key. *)
Definition built_from (env : Imports) (remove : bool) (e md' e'' : dict)
    : Prop :=
  dict_find e'' "metadata" = Some (VDict md')
  /\ (remove = true ->
      dict_find e'' (embedding_key env) = Some VNone
      /\ dict_find e'' (sparse_key env) = Some VNone)
  /\ (forall k, k <> "metadata" ->
                (remove = true -> k <> embedding_key env /\ k <> sparse_key env) ->
                dict_find e'' k = dict_find e k).

(** The record of a document under the given identifier. *)
Definition record_of (env : Imports) (doc : Document) (identifier : value)
    : dict :=
  [ ("metadata", VDict (doc_metadata doc));
    ("page_content", VStr (doc_page_content doc));
    (id_key env, identifier);
    (type_key env, VStr (doc_type doc)) ].

(** * Properties *)

(** ** Lists, results and dictionaries *)

Lemma getitem_lt {A : Type} (xs : list A) (i : nat) :
  (i < length xs)%nat -> exists x, getitem xs i = Ok x.
Proof.
  intros H. unfold getitem.
  destruct (nth_error xs i) eqn:E; [eauto |].
  apply nth_error_None in E. lia.
Qed.

Lemma dict_get_find (d : dict) (k : string) (v : value) :
  dict_find d k = Some v -> dict_get d k = v.
Proof. unfold dict_get. intros ->. reflexivity. Qed.

Lemma foldM_app {A B : Type} (f : B -> A -> result B) (xs ys : list A) (acc : B) :
  foldM f (xs ++ ys) acc = bind (foldM f xs acc) (foldM f ys).
Proof.
  revert acc. induction xs as [| x xs IH]; intros acc; cbn.
  - reflexivity.
  - destruct (f acc x); cbn; [apply IH | reflexivity].
Qed.

Lemma foldM_append {A B : Type} (f : A -> result B) (xs : list A) (acc : list B) :
  foldM (fun results x => y <- f x ;; Ok (results ++ [y])) xs acc
  = (ys <- mapM f xs ;; Ok (acc ++ ys)).
Proof.
  revert acc. induction xs as [| x xs IH]; intros acc; cbn.
  - rewrite app_nil_r. reflexivity.
  - destruct (f x) as [y | e]; cbn; [| reflexivity].
    rewrite IH. cbn. destruct (mapM f xs); cbn; [| reflexivity].
    rewrite <- app_assoc. reflexivity.
Qed.

Lemma foldM_ext {A B : Type} (f g : B -> A -> result B) (xs : list A) (acc : B) :
  (forall acc' x, f acc' x = g acc' x) -> foldM f xs acc = foldM g xs acc.
Proof.
  intros H. revert acc. induction xs as [| x xs IH]; intros acc; cbn.
  - reflexivity.
  - rewrite H. destruct (g acc x); cbn; [apply IH | reflexivity].
Qed.

Lemma mapM_all_ok {A B : Type} (f : A -> result B) (xs : list A) :
  (forall x, In x xs -> exists y, f x = Ok y) ->
  exists ys, mapM f xs = Ok ys /\ Forall2 (fun x y => f x = Ok y) xs ys.
Proof.
  induction xs as [| x xs IH]; intros H; cbn.
  - exists []. split; [reflexivity | constructor].
  - destruct (H x (or_introl eq_refl)) as [y Ey].
    destruct IH as [ys [Eys Hys]]; [intros x' Hx'; apply H; right; exact Hx' |].
    exists (y :: ys). rewrite Ey. cbn. rewrite Eys. cbn.
    split; [reflexivity | constructor; assumption].
Qed.

Lemma Forall2_nth_error {A B : Type} (R : A -> B -> Prop) (xs : list A)
    (ys : list B) (i : nat) (x : A) :
  Forall2 R xs ys -> nth_error xs i = Some x ->
  exists y, nth_error ys i = Some y /\ R x y.
Proof.
  intros H. revert i. induction H as [| x0 y0 xs ys Hxy _ IH]; intros i Hi.
  - destruct i; discriminate Hi.
  - destruct i as [| i]; cbn in Hi.
    + injection Hi as ->. exists y0. split; [reflexivity | exact Hxy].
    + apply IH. exact Hi.
Qed.

Lemma NoDup_map_seq_injective {A : Type} (f : nat -> A) (n m a b : nat) :
  NoDup (map f (seq n m)) -> (a < m)%nat -> (b < m)%nat ->
  f (n + a) = f (n + b) -> a = b.
Proof.
  intros Hnd Ha Hb Hf.
  assert (Hlen : length (map f (seq n m)) = m)
    by (rewrite length_map, length_seq; reflexivity).
  assert (Hnth : forall k, (k < m)%nat ->
                           nth k (map f (seq n m)) (f 0) = f (n + k)).
  { intros k Hk.
    rewrite map_nth, seq_nth by lia.
    reflexivity. }
  apply (proj1 (NoDup_nth (map f (seq n m)) (f 0)) Hnd a b); try lia.
  rewrite !Hnth by lia. exact Hf.
Qed.

Lemma dict_assoc_in {A : Type} (k : string) (d : list (string * A)) (v : A) :
  dict_assoc k d = Some v -> In (k, v) d.
Proof.
  induction d as [| [k' v'] d IH]; cbn; [discriminate |].
  destruct (String.eqb_spec k' k) as [-> | _].
  - intros H. injection H as ->. auto.
  - auto.
Qed.

Lemma in_dict_assoc {A : Type} (k : string) (d : list (string * A)) (v : A) :
  NoDup (map fst d) -> In (k, v) d -> dict_assoc k d = Some v.
Proof.
  induction d as [| [k' v'] d IH]; cbn; intros Hnd Hin; [contradiction |].
  inversion Hnd as [| ? ? Hnotin Hnd']; subst.
  destruct Hin as [E | Hin].
  - injection E as -> ->. rewrite String.eqb_refl. reflexivity.
  - destruct (String.eqb_spec k' k) as [-> | _]; [| auto].
    exfalso. apply Hnotin. apply (in_map fst) in Hin. exact Hin.
Qed.

Module DictFacts.

Lemma find_set_same (d : dict) (k : string) (v : value) :
  dict_find (dict_set d k v) k = Some v.
Proof.
  induction d as [| [k' v'] d IH]; cbn.
  - rewrite String.eqb_refl. reflexivity.
  - destruct (String.eqb k' k) eqn:E; cbn; rewrite E; [reflexivity | exact IH].
Qed.

Lemma find_set_other (d : dict) (k k' : string) (v : value) :
  k' <> k -> dict_find (dict_set d k v) k' = dict_find d k'.
Proof.
  intros Hne. induction d as [| [k0 v0] d IH]; cbn.
  - destruct (String.eqb_spec k k'); [congruence | reflexivity].
  - destruct (String.eqb_spec k0 k) as [-> | _]; cbn.
    + destruct (String.eqb_spec k k'); [congruence | reflexivity].
    + rewrite IH. reflexivity.
Qed.

Lemma find_remove_other (d : dict) (k k' : string) :
  k' <> k -> dict_find (dict_remove d k) k' = dict_find d k'.
Proof.
  intros Hne. induction d as [| [k0 v0] d IH]; cbn.
  - reflexivity.
  - destruct (String.eqb_spec k0 k) as [-> | _]; cbn.
    + destruct (String.eqb_spec k k'); [congruence | reflexivity].
    + rewrite IH. reflexivity.
Qed.

Lemma find_not_key (d : dict) (k : string) :
  ~ In k (dict_keys d) -> dict_find d k = None.
Proof.
  induction d as [| [k0 v0] d IH]; cbn; intros H.
  - reflexivity.
  - destruct (String.eqb_spec k0 k) as [-> | _]; [tauto |].
    apply IH. tauto.
Qed.

Lemma find_remove_same (d : dict) (k : string) :
  NoDup (dict_keys d) -> dict_find (dict_remove d k) k = None.
Proof.
  induction d as [| [k0 v0] d IH]; cbn; intros H.
  - reflexivity.
  - inversion H as [| ? ? Hnotin Hnodup]; subst.
    destruct (String.eqb_spec k0 k) as [-> | Hne]; cbn.
    + apply find_not_key. exact Hnotin.
    + destruct (String.eqb_spec k0 k); [contradiction | auto].
Qed.

Lemma keys_remove_incl (d : dict) (k x : string) :
  In x (dict_keys (dict_remove d k)) -> In x (dict_keys d).
Proof.
  induction d as [| [k0 v0] d IH]; cbn; [tauto |].
  destruct (String.eqb k0 k); cbn; tauto.
Qed.

Lemma keys_remove_nodup (d : dict) (k : string) :
  NoDup (dict_keys d) -> NoDup (dict_keys (dict_remove d k)).
Proof.
  induction d as [| [k0 v0] d IH]; cbn; intros H; [constructor |].
  inversion H as [| ? ? Hnotin Hnodup]; subst.
  destruct (String.eqb k0 k); cbn; [exact Hnodup |].
  constructor; [| auto].
  intros Hin. apply Hnotin. eapply keys_remove_incl. exact Hin.
Qed.

Lemma keys_set_incl (d : dict) (k x : string) (v : value) :
  In x (dict_keys (dict_set d k v)) -> x = k \/ In x (dict_keys d).
Proof.
  induction d as [| [k0 v0] d IH]; cbn.
  - intros [<- | []]. auto.
  - destruct (String.eqb k0 k); cbn; tauto.
Qed.

Lemma keys_set_nodup (d : dict) (k : string) (v : value) :
  NoDup (dict_keys d) -> NoDup (dict_keys (dict_set d k v)).
Proof.
  induction d as [| [k0 v0] d IH]; cbn; intros H.
  - constructor; [intros [] | constructor].
  - inversion H as [| ? ? Hnotin Hnodup]; subst.
    destruct (String.eqb_spec k0 k) as [-> | Hne]; cbn.
    + constructor; assumption.
    + constructor; [| auto].
      intros Hin. apply keys_set_incl in Hin. destruct Hin; [congruence | tauto].
Qed.

End DictFacts.

(** ** Schema synthesis *)

Lemma get_datatype_recognized (d : string) :
  In d recognized_datatypes ->
  exists dt, _get_datatype d = Ok dt /\ is_dense_datatype dt = true.
Proof.
  unfold recognized_datatypes; simpl.
  intros [<- | [<- | [<- | []]]]; eexists; split; reflexivity.
Qed.

Lemma get_datatype_unrecognized (d : string) :
  ~ In d recognized_datatypes ->
  _get_datatype d = Raise (ValueError (datatype_message d)).
Proof.
  unfold recognized_datatypes, _get_datatype; simpl; intros H.
  destruct (String.eqb_spec d "FLOAT_VECTOR") as [-> | _]; [tauto |].
  destruct (String.eqb_spec d "FLOAT16_VECTOR") as [-> | _]; [tauto |].
  destruct (String.eqb_spec d "BFLOAT16_VECTOR") as [-> | _]; [tauto |].
  reflexivity.
Qed.

(** The items of [l] at the given indices exist, and the goal reads them. *)
Ltac have_item l i :=
  let x := fresh "f" in
  let E := fresh "E" in
  destruct (@getitem_lt _ l i) as [x E]; [lia | rewrite E; cbn].

Ltac do_items l indices :=
  lazymatch indices with
  | nil => idtac
  | cons ?i ?rest => have_item l i; do_items l rest
  end.

(** Once every field name is known, the schema is there to be read. *)
Ltac read_schema enable_sparse dt Hdense :=
  destruct enable_sparse; cbn;
  eexists; exists dt; (split; [reflexivity |]);
  unfold has_sparse_field, count_dense_fields; cbn;
  destruct dt; try discriminate Hdense; cbn; repeat split; auto; discriminate.

(** C2.  Whatever the document type, the dimension and the sparse flag, for a
    recognized vector datatype [_setup_collection_schema] returns a schema
    whose first field is the string primary key, whose second field is the
    dense-vector field, which has exactly one dense-vector field, and which
    has a sparse-vector field (in third place) exactly when sparse is
    enabled.  The schema is returned as soon as the framework classes have
    the fields the module indexes. *)
Theorem schema_field_order (env : Imports) (document_type : string)
    (vector_dims : Z) (dense_datatype : string) (enable_sparse : bool) :
  In dense_datatype recognized_datatypes ->
  (endswith document_type "Node" = true ->
   (14 <= length (base_node_fields env))%nat) ->
  (document_type = "Document" -> (3 <= length (document_fields env))%nat) ->
  exists schema dt,
    _setup_collection_schema env document_type vector_dims dense_datatype
                             enable_sparse = Ok schema
    /\ _get_datatype dense_datatype = Ok dt
    /\ is_dense_datatype dt = true
    /\ nth_error (fields schema) 0
       = Some (mkField (id_key env) VARCHAR true (Some 64%Z) None None None false)
    /\ nth_error (fields schema) 1
       = Some (mkField (embedding_key env) dt false None (Some vector_dims)
                       None None false)
    /\ has_sparse_field schema = enable_sparse
    /\ (enable_sparse = true ->
        nth_error (fields schema) 2
        = Some (plain_field (sparse_key env) SPARSE_FLOAT_VECTOR))
    /\ count_dense_fields schema = 1%nat.
Proof.
  intros Hdt Hnode Hdoc.
  destruct (get_datatype_recognized Hdt) as [dt [Edt Hdense]].
  unfold _setup_collection_schema. rewrite Edt. cbn.
  destruct (endswith document_type "Node") eqn:Enode.
  - specialize (Hnode eq_refl).
    do_items (base_node_fields env)
             [2; 3; 4; 5; 6; 7; 8; 9; 10; 11; 12; 13]%nat.
    read_schema enable_sparse dt Hdense.
  - destruct (String.eqb_spec document_type "Document") as [Edoc | _].
    + specialize (Hdoc Edoc).
      do_items (document_fields env) [1; 2]%nat.
      read_schema enable_sparse dt Hdense.
    + read_schema enable_sparse dt Hdense.
Qed.

Lemma schema_field_order_witness :
  In "FLOAT_VECTOR" recognized_datatypes
  /\ exists schema,
       _setup_collection_schema Example.imports "TextNode" 512 "FLOAT_VECTOR" true
       = Ok schema
       /\ has_sparse_field schema = true
       /\ count_dense_fields schema = 1%nat.
Proof.
  split; [simpl; auto |].
  destruct (@schema_field_order Example.imports "TextNode" 512 "FLOAT_VECTOR" true)
    as (schema & dt & E & _ & _ & _ & _ & Hs & _ & Hc).
  - simpl; auto.
  - intros _. simpl. lia.
  - intros H. discriminate H.
  - exists schema. auto.
Defined.

Lemma no_value_error_Ok {A : Type} (a : A) : no_value_error (Ok a).
Proof. intros msg H. discriminate H. Qed.

Lemma no_value_error_getitem {A B : Type} (xs : list A) (i : nat)
    (k : A -> result B) :
  (forall x, no_value_error (k x)) ->
  no_value_error (bind (getitem xs i) k).
Proof.
  intros Hk msg. unfold getitem.
  destruct (nth_error xs i); cbn; [apply Hk | discriminate].
Qed.

(** C6.  A vector datatype outside the three recognized encodings makes
    [_get_datatype], and with it [_setup_collection_schema], raise the
    [ValueError] that names the datatype, so no schema is returned; for each
    of the three encodings [_get_datatype] returns the engine's datatype and
    [_setup_collection_schema] raises no [ValueError]. *)
Theorem unrecognized_datatype_rejected (env : Imports) (document_type : string)
    (vector_dims : Z) (dense_datatype : string) (enable_sparse : bool) :
  (~ In dense_datatype recognized_datatypes ->
   _get_datatype dense_datatype
   = Raise (ValueError (datatype_message dense_datatype))
   /\ _setup_collection_schema env document_type vector_dims dense_datatype
                               enable_sparse
      = Raise (ValueError (datatype_message dense_datatype)))
  /\ (In dense_datatype recognized_datatypes ->
      (exists dt, _get_datatype dense_datatype = Ok dt
                  /\ is_dense_datatype dt = true)
      /\ no_value_error
           (_setup_collection_schema env document_type vector_dims
                                     dense_datatype enable_sparse)).
Proof.
  split; intros H.
  - pose proof (get_datatype_unrecognized H) as E.
    split; [exact E |].
    unfold _setup_collection_schema. rewrite E. reflexivity.
  - destruct (get_datatype_recognized H) as [dt [E Hd]].
    split; [eauto |].
    unfold _setup_collection_schema. rewrite E. cbn.
    destruct enable_sparse, (endswith document_type "Node"),
      (String.eqb document_type "Document"); cbn;
      repeat (apply no_value_error_getitem; intros);
      apply no_value_error_Ok.
Qed.

Lemma unrecognized_datatype_rejected_witness :
  _get_datatype "INT8_VECTOR"
  = Raise (ValueError (datatype_message "INT8_VECTOR"))
  /\ no_value_error
       (_setup_collection_schema Example.imports "Document" 512
                                 "BFLOAT16_VECTOR" false).
Proof.
  split.
  - apply (proj1 (unrecognized_datatype_rejected
                    Example.imports "Document" 512 "INT8_VECTOR" false)).
    simpl. intros [H | [H | [H | []]]]; discriminate H.
  - apply (proj2 (unrecognized_datatype_rejected
                    Example.imports "Document" 512 "BFLOAT16_VECTOR" false)).
    simpl. auto.
Defined.

(** ** Index planning *)

(** C3.  With sparse enabled, whatever the index algorithm, the dense metric
    and the tuning parameters, [_setup_collection_index] returns three
    entries: the dense one carries the requested metric, and the third one,
    on the sparse-vector field, carries the metric ["IP"]; no entry named
    ["sparse_representation"] has another metric. *)
Theorem sparse_index_metric (env : Imports) (index_algo dense_search_metric : string)
    (params : option dict) (sparse_index_type : string)
    (sparse_params : option dict) :
  exists plan,
    _setup_collection_index env index_algo dense_search_metric params true
                            sparse_index_type sparse_params = Ok plan
    /\ length plan = 3%nat
    /\ (exists dense, nth_error plan 1 = Some dense
                      /\ index_field dense = embedding_key env
                      /\ metric_type dense = Some dense_search_metric)
    /\ nth_error plan 2
       = Some (mkIndex (sparse_key env) "sparse_representation"
                       (Some sparse_index_type) (Some "IP")
                       (Some (effective_sparse_params sparse_params)))
    /\ (forall i, In i plan -> index_name i = "sparse_representation" ->
                  metric_type i = Some "IP").
Proof.
  unfold _setup_collection_index. cbn.
  eexists. split; [reflexivity |].
  split; [reflexivity |].
  split; [eexists; split; [reflexivity | split; reflexivity] |].
  split; [reflexivity |].
  intros i [<- | [<- | [<- | []]]]; cbn; intros H;
    try discriminate H; reflexivity.
Qed.

(** ** Partitions *)

(** C9.  With an empty partition name [_create_partition] raises the
    [AssertionError] of its guard and leaves the world, the log of engine
    calls included, as it found it.  With a non-empty name it issues the
    create-partition call and then returns what the engine answers to the
    load-state query on the collection; it raises only what the engine
    raises. *)
Theorem create_partition_contract (env : Imports) (self : BaseVectorStore)
    (partition_name : string) (w : world) :
  (partition_name = "" ->
   _create_partition env self partition_name w
   = (Raise (AssertionError "Collection name must be a string"), w))
  /\ (partition_name <> "" ->
      let create := CreatePartition (_collection_name self) partition_name in
      let state := GetLoadState (_collection_name self) in
      _create_partition env self partition_name w
      = match engine env (log w) create with
        | Ok _ =>
            (engine env (log w ++ [create]) state,
             mkWorld (nodes w) (infos w) (drawn w)
                     ((log w ++ [create]) ++ [state]))
        | Raise e =>
            (Raise e,
             mkWorld (nodes w) (infos w) (drawn w) (log w ++ [create]))
        end).
Proof.
  unfold _create_partition. split.
  - intros ->. reflexivity.
  - intros Hne. cbn.
    destruct (String.eqb_spec partition_name "") as [E | _]; [contradiction |].
    cbn. unfold invoke at 1.
    destruct (engine env (log w) _); reflexivity.
Qed.

Lemma create_partition_contract_witness :
  _create_partition Example.imports Example.store "" Example.empty_world
  = (Raise (AssertionError "Collection name must be a string"),
     Example.empty_world)
  /\ fst (_create_partition Example.imports Example.store "docs_2024"
                            Example.empty_world)
     = Ok (VDict [ ("state", VStr "Loaded") ]).
Proof.
  split.
  - apply (proj1 (create_partition_contract Example.imports Example.store ""
                                            Example.empty_world)).
    reflexivity.
  - rewrite (proj2 (create_partition_contract Example.imports Example.store
                                              "docs_2024" Example.empty_world)).
    + reflexivity.
    + intros H. discriminate H.
Defined.

(** ** Dimension validation *)

Section Selection.

Variable env : Imports.

Lemma keep_dense_other (acc : list value) (f : value) :
  is_other_field env f -> keep_dense env acc f = Ok acc.
Proof.
  intros [fd [-> H]]. unfold keep_dense. cbn. rewrite H. reflexivity.
Qed.

Lemma keep_dense_named (acc : list value) (fd : dict) :
  eq_str (dict_get fd "name") (embedding_key env) = true ->
  keep_dense env acc (VDict fd) = Ok (acc ++ [VDict fd]).
Proof.
  intros H. unfold keep_dense. cbn. rewrite H. reflexivity.
Qed.

Lemma keep_dense_field (acc : list value) (f : value) :
  is_field f ->
  keep_dense env acc f = Ok acc \/ keep_dense env acc f = Ok (acc ++ [f]).
Proof.
  intros [fd ->]. unfold keep_dense. cbn.
  destruct (eq_str _ _); auto.
Qed.

Lemma select_others (fs : list value) (acc : list value) :
  Forall (is_other_field env) fs -> foldM (keep_dense env) fs acc = Ok acc.
Proof.
  intros H. revert acc. induction H as [| f fs Hf _ IH]; intros acc; cbn [foldM bind result_monad].
  - reflexivity.
  - rewrite (keep_dense_other acc Hf). apply IH.
Qed.

Lemma select_fields (fs : list value) (acc : list value) :
  Forall is_field fs ->
  exists more, foldM (keep_dense env) fs acc = Ok (acc ++ more).
Proof.
  intros H. revert acc. induction H as [| f fs Hf _ IH]; intros acc; cbn [foldM bind result_monad].
  - exists []. rewrite app_nil_r. reflexivity.
  - destruct (keep_dense_field acc Hf) as [E | E]; rewrite E; cbn [foldM bind result_monad].
    + apply IH.
    + destruct (IH (acc ++ [f])) as [more Hmore].
      exists (f :: more). rewrite Hmore, <- app_assoc. reflexivity.
Qed.

(** The comprehension puts the first field named after the dense-vector
    field in front. *)
Lemma select_dense_field (stats : value) (field : dict) :
  dense_field env stats field ->
  exists d fs more,
    stats = VDict d
    /\ dict_get d "fields" = VList fs
    /\ foldM (keep_dense env) fs [] = Ok (VDict field :: more).
Proof.
  intros [d before fd rest Hfs Hbefore Hrest Hname].
  destruct (select_fields [VDict fd] Hrest) as [more Hmore].
  exists d, (before ++ VDict fd :: rest), more.
  split; [reflexivity |].
  split; [apply dict_get_find; exact Hfs |].
  rewrite foldM_app, (select_others [] Hbefore).
  cbn [foldM bind result_monad].
  rewrite (keep_dense_named [] fd Hname). exact Hmore.
Qed.

Ltac enter_field H :=
  let d := fresh "d" in
  let fs := fresh "fs" in
  let more := fresh "more" in
  let Hget := fresh "Hget" in
  let Hsel := fresh "Hsel" in
  destruct (select_dense_field H) as (d & fs & more & -> & Hget & Hsel);
  unfold check_dimension; cbn; rewrite Hget; cbn; rewrite Hsel; cbn.

Lemma check_dimension_declared (stats dims : value) (n runtime_dims : Z) :
  declares env stats dims ->
  as_int dims = Some n ->
  check_dimension env stats runtime_dims
  = if Z.eqb runtime_dims n then Ok tt
    else Raise (ValueError (dimension_message runtime_dims dims)).
Proof.
  intros [stats' field params dims' Hfield Hparams Hdim] Hint.
  enter_field Hfield.
  rewrite (dict_get_find _ _ Hparams). cbn.
  rewrite (dict_get_find _ _ Hdim).
  destruct dims' as [| b | z | | | |]; cbn in Hint; try discriminate Hint;
    [destruct b |]; injection Hint as <-; cbn -[Z.eqb];
    destruct (Z.eqb runtime_dims _); reflexivity.
Qed.

Lemma check_dimension_defect (stats : value) (d : defect) (runtime_dims : Z) :
  has_defect env stats d ->
  check_dimension env stats runtime_dims = Raise (ValueError (defect_message d)).
Proof.
  intros H. destruct H as
    [ d Hnone | d fs Hfs Hothers | stats field Hfield Hnone
    | stats field params Hfield Hparams Hnone | stats dims Hdecl Hnn Hint ].
  - unfold check_dimension. cbn. rewrite Hnone. reflexivity.
  - unfold check_dimension. cbn. rewrite (dict_get_find _ _ Hfs). cbn.
    rewrite (select_others [] Hothers). reflexivity.
  - enter_field Hfield. rewrite Hnone. reflexivity.
  - enter_field Hfield. rewrite (dict_get_find _ _ Hparams). cbn.
    rewrite Hnone. reflexivity.
  - destruct Hdecl as [stats field params dims Hfield Hparams Hdim].
    enter_field Hfield. rewrite (dict_get_find _ _ Hparams). cbn.
    rewrite (dict_get_find _ _ Hdim).
    destruct dims; try contradiction; try discriminate Hint; try reflexivity.
    destruct b; discriminate Hint.
Qed.

End Selection.

Lemma mismatch_is_not_inconsistency (e : exn) :
  ~ (DimensionMismatch e /\ SchemaInconsistency e).
Proof.
  intros [[r [c ->]] [d H]].
  destruct d; cbn in H; discriminate H.
Qed.

(** C1.  Let the engine answer the describe-collection call with [stats].
    If [stats] is well-formed and declares an integer dimension for the
    dense-vector field, [_verify_collection_dimension] returns normally when
    that dimension equals the runtime one and raises the dimension-mismatch
    [ValueError] when it differs, and it raises a dimension mismatch only
    then.  If [stats] has no fields list, no field named after the
    dense-vector field, no params on that field, no dim entry or a dim that
    is not an integer, it raises the schema-inconsistency [ValueError] of
    that defect.  The two kinds of error never coincide.  (An integer is what
    Python's [isinstance(_, int)] accepts.) *)
Theorem verify_dimension_contract (env : Imports) (self : BaseVectorStore)
    (collection_name : string) (embedding_dimension : Z) (w : world)
    (stats : value) :
  engine env (log w) (DescribeCollection collection_name) = Ok stats ->
  let outcome :=
    fst (_verify_collection_dimension env self collection_name
                                      embedding_dimension w) in
  (forall dims n,
     declares env stats dims -> as_int dims = Some n ->
     (n = embedding_dimension -> outcome = Ok tt)
     /\ (n <> embedding_dimension ->
         outcome
         = Raise (ValueError (dimension_message embedding_dimension dims)))
     /\ ((exists e, outcome = Raise e /\ DimensionMismatch e)
         <-> n <> embedding_dimension))
  /\ (forall d,
        has_defect env stats d ->
        outcome = Raise (ValueError (defect_message d))
        /\ SchemaInconsistency (ValueError (defect_message d)))
  /\ (forall e, ~ (DimensionMismatch e /\ SchemaInconsistency e)).
Proof.
  intros Hengine outcome.
  assert (Hout : outcome = check_dimension env stats embedding_dimension).
  { unfold outcome, _verify_collection_dimension, invoke, lift. cbn.
    rewrite Hengine. reflexivity. }
  split; [| split].
  - intros dims n Hdecl Hint.
    rewrite Hout, (check_dimension_declared embedding_dimension Hdecl Hint).
    destruct (Z.eqb_spec embedding_dimension n) as [E | E].
    + split; [reflexivity |].
      split; [intros H; symmetry in E; contradiction |].
      split; [intros [e [H _]]; discriminate H | intros H; symmetry in E; contradiction].
    + split; [intros H; symmetry in H; contradiction |].
      split; [reflexivity |].
      split; [intros _ H; symmetry in H; contradiction |].
      intros _. eexists. split; [reflexivity |].
      exists embedding_dimension, dims. reflexivity.
  - intros d Hd. rewrite Hout, (check_dimension_defect embedding_dimension Hd).
    split; [reflexivity | exists d; reflexivity].
  - apply mismatch_is_not_inconsistency.
Qed.

Lemma example_declares_512 :
  declares Example.imports (Example.description (VInt 512)) (VInt 512).
Proof.
  apply declares_intro
    with (field := [ ("name", VStr "embedding");
                     ("params", VDict [ ("dim", VInt 512) ]) ])
         (params := [ ("dim", VInt 512) ]);
    [| reflexivity | reflexivity].
  apply dense_field_intro
    with (before := [ VDict [ ("name", VStr "id_"); ("params", VDict []) ] ])
         (rest := []); [reflexivity | | constructor | reflexivity].
  constructor; [| constructor].
  eexists. split; reflexivity.
Defined.

Lemma verify_dimension_contract_witness :
  fst (_verify_collection_dimension Example.imports Example.store
         "milvus_vector_store" 512 Example.empty_world) = Ok tt
  /\ fst (_verify_collection_dimension Example.imports Example.store
            "milvus_vector_store" 768 Example.empty_world)
     = Raise (ValueError
                "Embed dimension (768) is differ with default collection dimension (512)").
Proof.
  split.
  - apply (proj1 (@verify_dimension_contract Example.imports Example.store
                    "milvus_vector_store" 512 Example.empty_world
                    (Example.description (VInt 512)) eq_refl)
                 (VInt 512) 512%Z example_declares_512 eq_refl).
    reflexivity.
  - apply (proj1 (@verify_dimension_contract Example.imports Example.store
                    "milvus_vector_store" 768 Example.empty_world
                    (Example.description (VInt 512)) eq_refl)
                 (VInt 512) 512%Z example_declares_512 eq_refl).
    intros H. discriminate H.
Defined.

(** ** Documents to records *)

Section Renaming.

Variable env : Imports.
Hypothesis Hkeys : keys_renamed env.

Lemma literal_two_keys (v0 t : value) :
  dict_literal [(id_key env, v0); (type_key env, t)]
  = [(id_key env, v0); (type_key env, t)].
Proof.
  destruct Hkeys as (_ & _ & _ & _ & Hne).
  unfold dict_literal, dict_update. cbn.
  destruct (String.eqb_spec (id_key env) (type_key env)); [contradiction |].
  reflexivity.
Qed.

Lemma rename_keys_result (d : dict) (i t : value) (w : world) :
  dict_find d "id" = Some i ->
  dict_find d "type" = Some t ->
  rename_keys env d w
  = if is_none i
    then (Ok (renamed env d (VStr (uuid4 env (drawn w)))), bump w)
    else (Ok (renamed env d i), w).
Proof.
  intros Hid Htype.
  destruct Hkeys as (H1 & H2 & H3 & H4 & H5).
  assert (Hpop : forall v0 w',
             (r <- lift (dict_pop (dict_update d
                            (dict_literal [(id_key env, v0);
                                           (type_key env, dict_get d "type")]))
                          "id") ;;
              r <- lift (dict_pop (snd r) "type") ;;
              ret (snd r)) w'
             = (Ok (renamed env d v0), w')).
  { intros v0 w'. rewrite literal_two_keys.
    unfold dict_update, dict_pop, lift. cbn.
    rewrite !DictFacts.find_set_other, Hid by congruence. cbn.
    rewrite DictFacts.find_remove_other, !DictFacts.find_set_other, Htype
      by congruence.
    reflexivity. }
  unfold rename_keys. rewrite (dict_get_find _ _ Hid).
  destruct (is_none i) eqn:Ei; cbn -[dict_literal dict_update dict_pop];
    apply Hpop.
Qed.

Lemma renamed_identifier (d : dict) (v : value) :
  dict_find (renamed env d v) (id_key env) = Some v.
Proof.
  destruct Hkeys as (H1 & H2 & H3 & H4 & H5). unfold renamed.
  rewrite !DictFacts.find_remove_other by congruence.
  rewrite DictFacts.find_set_other by congruence.
  apply DictFacts.find_set_same.
Qed.

Lemma renamed_type (d : dict) (v : value) :
  dict_find (renamed env d v) (type_key env) = Some (dict_get d "type").
Proof.
  destruct Hkeys as (H1 & H2 & H3 & H4 & H5). unfold renamed.
  rewrite !DictFacts.find_remove_other by congruence.
  apply DictFacts.find_set_same.
Qed.

Lemma renamed_drops_generic (d : dict) (v : value) :
  NoDup (dict_keys d) ->
  dict_find (renamed env d v) "id" = None
  /\ dict_find (renamed env d v) "type" = None.
Proof.
  intros Hnd. unfold renamed. split.
  - rewrite DictFacts.find_remove_other by discriminate.
    apply DictFacts.find_remove_same.
    repeat apply DictFacts.keys_set_nodup. exact Hnd.
  - apply DictFacts.find_remove_same, DictFacts.keys_remove_nodup.
    repeat apply DictFacts.keys_set_nodup. exact Hnd.
Qed.

End Renaming.

Section Batches.

Variable env : Imports.
Hypothesis Hkeys : keys_renamed env.

Lemma rename_batch (ds : list dict) (w : world) :
  Forall has_generic_keys ds ->
  mapM (rename_keys env) ds w
  = (Ok (records_from env (drawn w) ds),
     mkWorld (nodes w) (infos w) (drawn w + count_missing ds) (log w)).
Proof.
  intros H. revert w.
  induction H as [| d ds [[i Hi] [t Ht]] _ IH]; intros w.
  - cbn. rewrite Nat.add_0_r. destruct w; reflexivity.
  - assert (Hl : lacks_id d = is_none i)
      by (unfold lacks_id; rewrite (dict_get_find _ _ Hi); reflexivity).
    cbn [mapM bind M_monad ret].
    rewrite (rename_keys_result Hkeys d w Hi Ht).
    unfold count_missing. cbn [records_from filter].
    rewrite Hl, (dict_get_find _ _ Hi).
    destruct (is_none i); rewrite IH; cbn; rewrite ?Nat.add_succ_r;
      reflexivity.
Qed.

Lemma records_from_length (n : nat) (ds : list dict) :
  length (records_from env n ds) = length ds.
Proof.
  revert n. induction ds as [| d ds IH]; intros n; cbn; [reflexivity |].
  destruct (lacks_id d); cbn; rewrite IH; reflexivity.
Qed.

Lemma records_from_nth (n : nat) (ds : list dict) (i : nat) (d : dict) :
  nth_error ds i = Some d ->
  nth_error (records_from env n ds) i
  = Some (renamed env d (identifier_at env n ds i d)).
Proof.
  revert n i. induction ds as [| d0 ds IH]; intros n i H.
  - destruct i; discriminate H.
  - destruct i as [| i]; cbn in H.
    + injection H as ->. unfold identifier_at, count_missing. cbn.
      rewrite Nat.add_0_r. destruct (lacks_id d); reflexivity.
    + cbn [records_from].
      unfold identifier_at, count_missing. cbn [firstn filter].
      destruct (lacks_id d0); cbn [nth_error length];
        rewrite (IH _ _ H); unfold identifier_at, count_missing;
        rewrite ?Nat.add_succ_r; reflexivity.
Qed.

Lemma count_missing_firstn_lt (ds : list dict) (i j : nat) (d : dict) :
  nth_error ds i = Some d -> lacks_id d = true -> (i < j)%nat ->
  (count_missing (firstn i ds) < count_missing (firstn j ds))%nat.
Proof.
  unfold count_missing. revert i j.
  induction ds as [| d0 ds IH]; intros i j H Hd Hij.
  - destruct i; discriminate H.
  - destruct j as [| j]; [lia |].
    destruct i as [| i]; cbn in H.
    + injection H as ->. cbn. rewrite Hd. cbn. lia.
    + assert (Hlt : (i < j)%nat) by lia.
      specialize (IH i j H Hd Hlt). cbn.
      destruct (lacks_id d0); cbn; lia.
Qed.

Lemma count_missing_firstn_bound (ds : list dict) (i : nat) (d : dict) :
  nth_error ds i = Some d -> lacks_id d = true ->
  (count_missing (firstn i ds) < count_missing ds)%nat.
Proof.
  intros H Hd.
  pose proof (count_missing_firstn_lt ds (j := length ds) H Hd) as Hlt.
  rewrite firstn_all in Hlt. apply Hlt.
  apply nth_error_Some. congruence.
Qed.

End Batches.

Lemma lacks_id_document (doc : Document) :
  lacks_id (Document_dict doc)
  = match doc_id doc with None => true | Some _ => false end.
Proof. unfold lacks_id. cbn. destruct (doc_id doc); reflexivity. Qed.

Lemma count_missing_documents (docs : list Document) :
  count_missing (map Document_dict docs) = without_id docs.
Proof.
  unfold count_missing, without_id.
  induction docs as [| d docs IH]; cbn [map filter]; [reflexivity |].
  rewrite lacks_id_document. destruct (doc_id d); cbn; rewrite ?IH; reflexivity.
Qed.

Lemma document_generic_keys (docs : list Document) :
  Forall has_generic_keys (map Document_dict docs).
Proof.
  induction docs as [| d docs IH]; cbn; constructor; [| exact IH].
  split; eexists; reflexivity.
Qed.

Lemma document_keys_nodup (doc : Document) :
  NoDup (dict_keys (Document_dict doc)).
Proof.
  cbn. repeat constructor; cbn; intuition discriminate.
Qed.

Lemma dicts_of_documents (env : Imports) (docs : list Document) (w : world) :
  mapM (obj_dict env) (map DocumentObj docs) w
  = (Ok (map Document_dict docs), w).
Proof.
  induction docs as [| d docs IH]; cbn; [reflexivity |].
  cbn in IH. rewrite IH. reflexivity.
Qed.

(** C4.  A non-empty batch of documents of the second framework is converted
    to as many records, in order, leaving the caller's objects alone and
    drawing one identifier per document that has none.  Every record holds
    the document's type under the document-type field and has neither the
    generic ["type"] key nor the generic ["id"] key; a document with an
    identifier keeps it under the primary key, a document without one gets an
    identifier drawn during this call, and two documents without identifier
    get different ones as long as the generator does not repeat itself. *)
Theorem plain_documents_to_records (env : Imports) (docs : list Document)
    (w : world) :
  docs <> [] ->
  keys_renamed env ->
  NoDup (map (uuid4 env) (seq (drawn w) (without_id docs))) ->
  exists records,
    _convert_upsert_data env (map DocumentObj docs) w
    = (Ok records,
       mkWorld (nodes w) (infos w) (drawn w + without_id docs) (log w))
    /\ length records = length docs
    /\ (forall i doc r,
          nth_error docs i = Some doc -> nth_error records i = Some r ->
          dict_find r (type_key env) = Some (VStr (doc_type doc))
          /\ dict_find r "type" = None
          /\ dict_find r "id" = None
          /\ match doc_id doc with
             | Some s => dict_find r (id_key env) = Some (VStr s)
             | None =>
                 exists k, (drawn w <= k < drawn w + without_id docs)%nat
                           /\ dict_find r (id_key env)
                              = Some (VStr (uuid4 env k))
             end)
    /\ (forall i j di dj ri rj,
          i <> j ->
          nth_error docs i = Some di -> nth_error docs j = Some dj ->
          doc_id di = None -> doc_id dj = None ->
          nth_error records i = Some ri -> nth_error records j = Some rj ->
          dict_find ri (id_key env) <> dict_find rj (id_key env)).
Proof.
  intros Hne Hkeys Hnd.
  set (ds := map Document_dict docs).
  assert (Hnth : forall i doc r,
             nth_error docs i = Some doc ->
             nth_error (records_from env (drawn w) ds) i = Some r ->
             r = renamed env (Document_dict doc)
                         (identifier_at env (drawn w) ds i (Document_dict doc))).
  { intros i doc r Hdoc Hr.
    assert (Hd : nth_error ds i = Some (Document_dict doc))
      by (unfold ds; rewrite nth_error_map, Hdoc; reflexivity).
    rewrite (records_from_nth env (drawn w) ds i Hd) in Hr. congruence. }
  assert (Hdraw : forall i doc,
             nth_error docs i = Some doc -> doc_id doc = None ->
             lacks_id (Document_dict doc) = true
             /\ (count_missing (firstn i ds) < without_id docs)%nat).
  { intros i doc Hdoc Hid.
    assert (Hl : lacks_id (Document_dict doc) = true)
      by (rewrite lacks_id_document, Hid; reflexivity).
    split; [exact Hl |].
    rewrite <- count_missing_documents.
    apply count_missing_firstn_bound with (d := Document_dict doc); [| exact Hl].
    unfold ds. rewrite nth_error_map, Hdoc. reflexivity. }
  exists (records_from env (drawn w) ds).
  split; [| split; [| split]].
  - unfold _convert_upsert_data.
    destruct docs as [| d0 docs']; [contradiction |].
    cbn [map getitem nth_error lift bind M_monad is_BaseNode].
    change (DocumentObj d0 :: map DocumentObj docs')
      with (map DocumentObj (d0 :: docs')).
    rewrite dicts_of_documents.
    rewrite (rename_batch Hkeys w (document_generic_keys (d0 :: docs'))).
    rewrite count_missing_documents. reflexivity.
  - rewrite records_from_length. unfold ds. apply length_map.
  - intros i doc r Hdoc Hr. rewrite (Hnth i doc r Hdoc Hr).
    rewrite (renamed_type Hkeys).
    destruct (renamed_drops_generic env (Document_dict doc)
                (identifier_at env (drawn w) ds i (Document_dict doc))
                (document_keys_nodup doc)) as [Hid Htype].
    rewrite Hid, Htype, (renamed_identifier Hkeys).
    repeat split.
    unfold identifier_at. rewrite lacks_id_document.
    destruct (doc_id doc) as [s |] eqn:Eid;
      [unfold dict_get; cbn; rewrite Eid; reflexivity |].
    destruct (Hdraw i doc Hdoc Eid) as [_ Hlt].
    eexists. split; [| reflexivity]. lia.
  - intros i j di dj ri rj Hij Hi Hj Hidi Hidj Hri Hrj.
    rewrite (Hnth i di ri Hi Hri), (Hnth j dj rj Hj Hrj).
    rewrite !(renamed_identifier Hkeys).
    destruct (Hdraw i di Hi Hidi) as [Hli Hlti].
    destruct (Hdraw j dj Hj Hidj) as [Hlj Hltj].
    unfold identifier_at. rewrite Hli, Hlj.
    intros Heq. injection Heq as Heq.
    apply (NoDup_map_seq_injective (uuid4 env) (drawn w) Hnd Hlti Hltj) in Heq.
    assert (Hdi : nth_error ds i = Some (Document_dict di))
      by (unfold ds; rewrite nth_error_map, Hi; reflexivity).
    assert (Hdj : nth_error ds j = Some (Document_dict dj))
      by (unfold ds; rewrite nth_error_map, Hj; reflexivity).
    destruct (Nat.lt_total i j) as [Hlt | [Heqij | Hgt]]; [| contradiction |].
    + pose proof (count_missing_firstn_lt ds Hdi Hli Hlt). lia.
    + pose proof (count_missing_firstn_lt ds Hdj Hlj Hgt). lia.
Qed.

Lemma example_keys_renamed : keys_renamed Example.imports.
Proof. unfold keys_renamed. cbn. repeat split; discriminate. Defined.

Lemma plain_documents_to_records_witness :
  exists records,
    fst (_convert_upsert_data Example.imports
           (map DocumentObj
                [ mkDocument None [] "first" "Document";
                  mkDocument (Some "a1") [] "second" "Document";
                  mkDocument None [] "third" "Document" ])
           Example.empty_world)
    = Ok records
    /\ length records = 3%nat.
Proof.
  destruct (@plain_documents_to_records Example.imports
              [ mkDocument None [] "first" "Document";
                mkDocument (Some "a1") [] "second" "Document";
                mkDocument None [] "third" "Document" ]
              Example.empty_world)
    as (records & E & Hlen & _).
  - discriminate.
  - exact example_keys_renamed.
  - cbn. repeat constructor; cbn; intuition discriminate.
  - exists records. rewrite E. split; [reflexivity | exact Hlen].
Defined.

(** ** Batches and document types of no recognized shape *)

Lemma rename_keys_missing (env : Imports) (d : dict) (w : world) :
  keys_renamed env ->
  (dict_find d "id" = None ->
   rename_keys env d w = (Raise (KeyError "id"), bump w))
  /\ (forall i,
        dict_find d "id" = Some i -> dict_find d "type" = None ->
        rename_keys env d w
        = (Raise (KeyError "type"), if is_none i then bump w else w)).
Proof.
  intros Hkeys.
  pose proof (literal_two_keys Hkeys) as Hlit.
  destruct Hkeys as (H1 & H2 & H3 & H4 & H5).
  unfold rename_keys. split.
  - intros Hid. unfold dict_get at 1. rewrite Hid.
    cbn [is_none negb default_keys getitem nth_error lift str_uuid4 bind
         M_monad ret].
    rewrite Hlit. unfold dict_update, dict_pop. cbn [fold_left fst snd].
    rewrite !DictFacts.find_set_other, Hid by congruence. reflexivity.
  - intros i Hid Htype. unfold dict_get at 1. rewrite Hid.
    destruct (is_none i);
      cbn [negb default_keys getitem nth_error lift str_uuid4 bind M_monad ret];
      rewrite Hlit; unfold dict_update, dict_pop; cbn [fold_left fst snd];
      rewrite !DictFacts.find_set_other, Hid by congruence;
      cbn [bind M_monad snd];
      rewrite DictFacts.find_remove_other, !DictFacts.find_set_other, Htype
        by congruence;
      reflexivity.
Qed.

Lemma rename_keys_missing_key (env : Imports) (d : dict) (w : world) :
  keys_renamed env ->
  ~ has_generic_keys d ->
  fst (rename_keys env d w) = Raise (KeyError (missing_key d)).
Proof.
  intros Hkeys Hnot. unfold missing_key.
  destruct (dict_find d "id") as [i |] eqn:Ei.
  - destruct (dict_find d "type") as [t |] eqn:Et.
    + exfalso. apply Hnot. split; eexists; [exact Ei | exact Et].
    + rewrite (proj2 (rename_keys_missing d w Hkeys) i Ei Et). reflexivity.
  - rewrite (proj1 (rename_keys_missing d w Hkeys) Ei). reflexivity.
Qed.

Lemma rename_batch_failure (env : Imports) (pre : list dict) (d : dict)
    (rest : list dict) (w : world) :
  keys_renamed env ->
  Forall has_generic_keys pre ->
  ~ has_generic_keys d ->
  fst (mapM (rename_keys env) (pre ++ d :: rest) w)
  = Raise (KeyError (missing_key d)).
Proof.
  intros Hkeys Hpre Hnot. revert w.
  induction Hpre as [| d0 pre [[i Hi] [t Ht]] _ IH]; intros w.
  - cbn [app mapM bind M_monad].
    pose proof (rename_keys_missing_key w Hkeys Hnot) as E.
    destruct (rename_keys env d w) as [[x | e] w']; cbn in E;
      [discriminate E | injection E as ->; reflexivity].
  - cbn [app mapM bind M_monad].
    rewrite (rename_keys_result Hkeys d0 w Hi Ht).
    destruct (is_none i).
    + specialize (IH (bump w)).
      destruct (mapM (rename_keys env) (pre ++ d :: rest) (bump w))
        as [[x | e] w']; cbn in IH; [discriminate IH | injection IH as ->].
      reflexivity.
    + specialize (IH w).
      destruct (mapM (rename_keys env) (pre ++ d :: rest) w)
        as [[x | e] w']; cbn in IH; [discriminate IH | injection IH as ->].
      reflexivity.
Qed.

Lemma rename_keys_outcome (env : Imports) (d : dict) (w : world) :
  (exists record, fst (rename_keys env d w) = Ok record)
  \/ fst (rename_keys env d w) = Raise (KeyError "id")
  \/ fst (rename_keys env d w) = Raise (KeyError "type").
Proof.
  unfold rename_keys.
  cbn [default_keys getitem nth_error lift bind M_monad].
  set (d1 := fun v0 => dict_update d
                (dict_literal [(id_key env, v0);
                               (type_key env, dict_get d "type")])).
  assert (Hpop : forall v0 w',
             (exists record,
                fst ((r <- lift (dict_pop (d1 v0) "id") ;;
                      r <- lift (dict_pop (snd r) "type") ;;
                      ret (snd r)) w') = Ok record)
             \/ fst ((r <- lift (dict_pop (d1 v0) "id") ;;
                      r <- lift (dict_pop (snd r) "type") ;;
                      ret (snd r)) w') = Raise (KeyError "id")
             \/ fst ((r <- lift (dict_pop (d1 v0) "id") ;;
                      r <- lift (dict_pop (snd r) "type") ;;
                      ret (snd r)) w') = Raise (KeyError "type")).
  { intros v0 w'. unfold dict_pop, lift. cbn [bind M_monad].
    destruct (dict_find (d1 v0) "id") as [x |]; [| right; left; reflexivity].
    cbn [snd].
    destruct (dict_find (dict_remove (d1 v0) "id") "type") as [y |];
      [left; eexists; reflexivity | right; right; reflexivity]. }
  destruct (negb (is_none (dict_get d "id")));
    cbn [str_uuid4 bind M_monad ret]; apply Hpop.
Qed.

Lemma rename_batch_outcome (env : Imports) (ds : list dict) (w : world) :
  (exists records,
     fst (mapM (rename_keys env) ds w) = Ok records
     /\ length records = length ds)
  \/ fst (mapM (rename_keys env) ds w) = Raise (KeyError "id")
  \/ fst (mapM (rename_keys env) ds w) = Raise (KeyError "type").
Proof.
  revert w. induction ds as [| d ds IH]; intros w.
  - left. exists []. split; reflexivity.
  - cbn [mapM bind M_monad].
    destruct (rename_keys_outcome env d w) as [[record E] | [E | E]];
      destruct (rename_keys env d w) as [[x | e] w1]; cbn [fst] in E;
      try discriminate E.
    + destruct (IH w1) as [[records [E1 Hlen]] | [E1 | E1]];
        destruct (mapM (rename_keys env) ds w1) as [[xs | e] w2];
        cbn [fst] in E1; try discriminate E1.
      * injection E1 as ->. left. exists (x :: records).
        split; [reflexivity | cbn; rewrite Hlen; reflexivity].
      * injection E1 as ->. right. left. reflexivity.
      * injection E1 as ->. right. right. reflexivity.
    + injection E as ->. right. left. reflexivity.
    + injection E as ->. right. right. reflexivity.
Qed.

Lemma obj_dicts_outcome (env : Imports) (objs : list pyobj) (w : world) :
  (exists ds, mapM (obj_dict env) objs w = (Ok ds, w)
              /\ length ds = length objs
              /\ ~ In (OtherObject None) objs)
  \/ (mapM (obj_dict env) objs w = (Raise (AttributeError "dict"), w)
      /\ In (OtherObject None) objs).
Proof.
  induction objs as [| o objs IH].
  - left. exists []. repeat split. intros [].
  - cbn [mapM bind M_monad].
    assert (Ho : (exists d, obj_dict env o w = (Ok d, w)
                            /\ o <> OtherObject None)
                 \/ (obj_dict env o w = (Raise (AttributeError "dict"), w)
                     /\ o = OtherObject None)).
    { destruct o as [a | doc | [d |]];
        [left; eexists; split; [reflexivity | discriminate] ..
        | right; split; reflexivity]. }
    destruct Ho as [[d [Ed Hne]] | [Ed ->]]; rewrite Ed.
    + destruct IH as [[ds [Eds [Hlen Hnot]]] | [Eds Hin]]; rewrite Eds.
      * left. exists (d :: ds). split; [reflexivity |].
        split; [cbn; rewrite Hlen; reflexivity |].
        intros [H | H]; [exact (Hne H) | exact (Hnot H)].
      * right. split; [reflexivity | right; exact Hin].
    + right. split; [reflexivity | left; reflexivity].
Qed.

(** C7, as the code has it.  No operation raises an unsupported-shape error.
    For a document type that neither ends in ["Node"] nor is ["Document"],
    [_setup_collection_schema] returns the schema of the shared fields alone:
    primary key, dense vector, sparse vector if enabled, document type.
    Every batch whose first object is not a node takes the path of the
    second framework's documents, whatever its objects are: the call comes
    to one record per object, or to the error of the step an object does
    not support, [AttributeError] for its [dict()] or [KeyError] for ["id"]
    or ["type"], and to nothing else.  Which one is told by the objects: an
    object without [dict()] fails the call before anything is drawn; all
    having one, the first dictionary that lacks a generic key fails it with
    the [KeyError] of that key; and when every dictionary has both keys the
    records are those of the second framework's conversion. *)
Theorem unrecognized_shape_falls_through (env : Imports) :
  (forall document_type vector_dims dense_datatype enable_sparse,
     In dense_datatype recognized_datatypes ->
     endswith document_type "Node" = false ->
     document_type <> "Document" ->
     exists dt,
       _get_datatype dense_datatype = Ok dt
       /\ _setup_collection_schema env document_type vector_dims
                                   dense_datatype enable_sparse
          = Ok (mkSchema false
                  ([ mkField (id_key env) VARCHAR true (Some 64%Z) None None
                             None false;
                     mkField (embedding_key env) dt false None
                             (Some vector_dims) None None false ]
                   ++ (if enable_sparse
                       then [ plain_field (sparse_key env) SPARSE_FLOAT_VECTOR ]
                       else [])
                   ++ [ mkField (type_key env) VARCHAR false (Some 16%Z) None
                                None None false ])))
  /\ (forall (ds : list dict) (w : world),
        ds <> [] ->
        keys_renamed env ->
        Forall has_generic_keys ds ->
        _convert_upsert_data env (map (fun d => OtherObject (Some d)) ds) w
        = (Ok (records_from env (drawn w) ds),
           mkWorld (nodes w) (infos w) (drawn w + count_missing ds) (log w)))
  /\ (forall (first : pyobj) (others : list pyobj) (w : world),
        is_BaseNode first = false ->
        plain_outcome (length (first :: others))
                      (fst (_convert_upsert_data env (first :: others) w)))
  /\ (forall (first : pyobj) (others : list pyobj) (w : world),
        is_BaseNode first = false ->
        In (OtherObject None) (first :: others) ->
        _convert_upsert_data env (first :: others) w
        = (Raise (AttributeError "dict"), w))
  /\ (forall (pre : list dict) (d : dict) (rest : list dict) (w : world),
        keys_renamed env ->
        Forall has_generic_keys pre ->
        ~ has_generic_keys d ->
        fst (_convert_upsert_data env
               (map (fun d => OtherObject (Some d)) (pre ++ d :: rest)) w)
        = Raise (KeyError (missing_key d))).
Proof.
  assert (Hdicts : forall l w',
             mapM (obj_dict env) (map (fun d => OtherObject (Some d)) l) w'
             = (Ok l, w')).
  { induction l as [| d l IH]; intros w'; cbn; [reflexivity |].
    cbn in IH. rewrite IH. reflexivity. }
  split; [| split; [| split; [| split]]].
  - intros document_type vector_dims dense_datatype enable_sparse Hdt Hnode Hdoc.
    destruct (get_datatype_recognized Hdt) as [dt [Edt _]].
    exists dt. split; [exact Edt |].
    unfold _setup_collection_schema. rewrite Edt, Hnode. cbn.
    destruct (String.eqb_spec document_type "Document"); [contradiction |].
    destruct enable_sparse; reflexivity.
  - intros ds w Hne Hkeys Hgen.
    unfold _convert_upsert_data.
    destruct ds as [| d0 ds']; [contradiction |].
    cbn [map getitem nth_error lift bind M_monad is_BaseNode].
    change (OtherObject (Some d0) :: map (fun d => OtherObject (Some d)) ds')
      with (map (fun d => OtherObject (Some d)) (d0 :: ds')).
    rewrite Hdicts. apply (rename_batch Hkeys w Hgen).
  - intros first others w Hfirst.
    unfold _convert_upsert_data.
    cbn [getitem nth_error lift bind M_monad]. rewrite Hfirst.
    cbn [bind M_monad].
    destruct (obj_dicts_outcome env (first :: others) w)
      as [[ds [Eds [Hlen _]]] | [Eds _]]; rewrite Eds.
    + destruct (rename_batch_outcome env ds w) as [[records [E Hr]] | [E | E]].
      * left. exists records. split; [exact E | congruence].
      * right. right. left. exact E.
      * right. right. right. exact E.
    + right. left. reflexivity.
  - intros first others w Hfirst Hin.
    unfold _convert_upsert_data.
    cbn [getitem nth_error lift bind M_monad]. rewrite Hfirst.
    cbn [bind M_monad].
    destruct (obj_dicts_outcome env (first :: others) w)
      as [[ds [_ [_ Hnot]]] | [Eds _]]; [contradiction | rewrite Eds].
    reflexivity.
  - intros pre d rest w Hkeys Hpre Hnot.
    unfold _convert_upsert_data.
    assert (Hfirst : exists d0 l, pre ++ d :: rest = d0 :: l)
      by (destruct pre; eexists; eexists; reflexivity).
    destruct Hfirst as [d0 [l El]].
    rewrite El.
    cbn [map getitem nth_error lift bind M_monad is_BaseNode].
    change (OtherObject (Some d0) :: map (fun d => OtherObject (Some d)) l)
      with (map (fun d => OtherObject (Some d)) (d0 :: l)).
    rewrite <- El, Hdicts. apply rename_batch_failure; assumption.
Qed.

Lemma unrecognized_shape_falls_through_witness :
  (exists schema,
     _setup_collection_schema Example.imports "Image" 512 "FLOAT_VECTOR" false
     = Ok schema /\ length (fields schema) = 3%nat)
  /\ fst (_convert_upsert_data Example.imports
            [ OtherObject (Some [ ("id", VStr "x1"); ("type", VStr "Image") ]) ]
            Example.empty_world)
     = Ok [ [ ("id_", VStr "x1"); ("class_name", VStr "Image") ] ]
  /\ plain_outcome 2
       (fst (_convert_upsert_data Example.imports
               [ DocumentObj (mkDocument None [] "text" "Document");
                 NodeRef 0 ]
               Example.empty_world))
  /\ _convert_upsert_data Example.imports
       [ OtherObject (Some [ ("type", VStr "Image") ]); OtherObject None ]
       Example.empty_world
     = (Raise (AttributeError "dict"), Example.empty_world)
  /\ fst (_convert_upsert_data Example.imports
            [ OtherObject (Some [ ("id", VStr "x1"); ("type", VStr "Image") ]);
              OtherObject (Some [ ("id", VStr "x2") ]);
              OtherObject (Some []) ]
            Example.empty_world)
     = Raise (KeyError "type").
Proof.
  pose proof (unrecognized_shape_falls_through Example.imports)
    as (Hschema & Hok & Hany & Hdict & Hkey).
  split; [| split; [| split; [| split]]].
  - destruct (Hschema "Image" 512%Z "FLOAT_VECTOR" false) as [dt [Edt E]];
      [cbn; auto | reflexivity | discriminate |].
    eexists. split; [exact E | reflexivity].
  - refine (f_equal fst
              (Hok [ [ ("id", VStr "x1"); ("type", VStr "Image") ] ]
                   Example.empty_world _ example_keys_renamed _)).
    + discriminate.
    + repeat constructor; eexists; reflexivity.
  - apply (Hany (DocumentObj (mkDocument None [] "text" "Document"))
                [ NodeRef 0%nat ] Example.empty_world).
    reflexivity.
  - apply (Hdict (OtherObject (Some [ ("type", VStr "Image") ]))
                 [ OtherObject None ] Example.empty_world).
    + reflexivity.
    + right. left. reflexivity.
  - apply (Hkey [ [ ("id", VStr "x1"); ("type", VStr "Image") ] ]
                [ ("id", VStr "x2") ] [ [] ] Example.empty_world
                example_keys_renamed).
    + repeat constructor; eexists; reflexivity.
    + intros [_ [t Ht]]. discriminate Ht.
Defined.

(** C7 as stated fails: a document type of no recognized shape gets a schema
    with the three shared fields and no shape-specific one, and a batch of
    objects of another class is converted like documents of the second
    framework; neither call raises. *)
Lemma unsupported_shape_counterexample :
  endswith "Image" "Node" = false
  /\ String.eqb "Image" "Document" = false
  /\ _setup_collection_schema Example.imports "Image" 512 "FLOAT_VECTOR" false
     = Ok (mkSchema false
             [ mkField "id_" VARCHAR true (Some 64%Z) None None None false;
               mkField "embedding" FLOAT_VECTOR false None (Some 512%Z) None
                       None false;
               mkField "class_name" VARCHAR false (Some 16%Z) None None None
                       false ])
  /\ fst (_convert_upsert_data Example.imports
            [ OtherObject (Some [ ("id", VStr "x1"); ("type", VStr "Image");
                                  ("pixels", VList []) ]) ]
            Example.empty_world)
     = Ok [ [ ("pixels", VList []); ("id_", VStr "x1");
              ("class_name", VStr "Image") ] ].
Proof. repeat split. Qed.

(** ** Nodes to records: what happens to the caller's objects *)

Lemma without_file_path_falsy (md : dict) :
  NoDup (dict_keys md) ->
  truthy (dict_get (without_file_path md) "file_path") = false.
Proof.
  intros Hnd. unfold without_file_path.
  destruct (truthy (dict_get md "file_path")) eqn:E; [| exact E].
  unfold dict_get.
  rewrite (DictFacts.find_remove_same md "file_path" Hnd). reflexivity.
Qed.

Lemma without_file_path_idempotent (md : dict) :
  NoDup (dict_keys md) ->
  without_file_path (without_file_path md) = without_file_path md.
Proof.
  intros Hnd. unfold without_file_path at 1.
  rewrite (without_file_path_falsy md Hnd). reflexivity.
Qed.

Lemma assoc_among_dec (r : addr) (ks : list string)
    (rels : list (string * RelatedNodeType)) :
  (exists k, In k ks /\ dict_assoc k rels = Some (OneRelated r))
  \/ ~ (exists k, In k ks /\ dict_assoc k rels = Some (OneRelated r)).
Proof.
  induction ks as [| k ks IH].
  - right. intros [k [[] _]].
  - destruct IH as [[k' [Hin Hk']] | Hnot].
    + left. exists k'. split; [right; exact Hin | exact Hk'].
    + destruct (dict_assoc k rels) as [[r' | rs] |] eqn:E.
      * destruct (Nat.eq_dec r' r) as [-> | Hne].
        -- left. exists k. split; [left; reflexivity | exact E].
        -- right. intros [k' [[<- | Hin] Hk']]; [congruence |].
           apply Hnot. eauto.
      * right. intros [k' [[<- | Hin] Hk']]; [congruence |].
        apply Hnot. eauto.
      * right. intros [k' [[<- | Hin] Hk']]; [congruence |].
        apply Hnot. eauto.
Qed.

Lemma assoc_of_key {A : Type} (k : string) (rels : list (string * A)) :
  In k (map fst rels) -> exists rel, dict_assoc k rels = Some rel.
Proof.
  induction rels as [| [k0 r0] rels IH]; [intros [] |].
  cbn. intros [E | Hin].
  - subst k0. rewrite String.eqb_refl. eauto.
  - destruct (String.eqb k0 k); [eauto | apply IH; exact Hin].
Qed.

(** The loop over the relationship keys of one node. *)
Lemma clear_related_loop (rels : list (string * RelatedNodeType))
    (ks : list string) (w : world) :
  (forall k, In k ks -> exists r, dict_assoc k rels = Some (OneRelated r)) ->
  exists w',
    forM_ (clear_related rels) ks w = (Ok tt, w')
    /\ nodes w' = nodes w /\ drawn w' = drawn w /\ log w' = log w
    /\ (forall r, info_node_id (infos w' r) = info_node_id (infos w r))
    /\ (forall r, (exists k, In k ks /\ dict_assoc k rels = Some (OneRelated r)) ->
                  info_metadata (infos w' r) = [])
    /\ (forall r, ~ (exists k, In k ks /\ dict_assoc k rels = Some (OneRelated r)) ->
                  infos w' r = infos w r).
Proof.
  revert w. induction ks as [| k ks IH]; intros w Hincl.
  - exists w. cbn. repeat split; auto.
    intros r [k [[] _]].
  - destruct (Hincl k (or_introl eq_refl)) as [r Hr].
    destruct (IH (mkWorld (nodes w)
                          (fun a' => if Nat.eqb a' r
                                     then mkInfo (info_node_id (infos w r)) []
                                     else infos w a')
                          (drawn w) (log w)))
      as (w' & Erun & Hnodes & Hdrawn & Hlog & Hids & Hclear & Hkeep).
    { intros x Hx. apply Hincl. right. exact Hx. }
    exists w'. split.
    + cbn [forM_ bind M_monad]. unfold clear_related at 1.
      rewrite Hr. cbn. exact Erun.
    + cbn in Hnodes, Hdrawn, Hlog, Hids, Hclear, Hkeep.
      repeat split; auto.
      * intros r'. rewrite Hids. destruct (Nat.eqb_spec r' r) as [-> | _]; reflexivity.
      * intros r' [k' [[<- | Hin] Hr']].
        -- assert (r' = r) by congruence. subst r'.
           destruct (assoc_among_dec r ks rels) as [Hagain | Hnot].
           ++ apply Hclear. exact Hagain.
           ++ rewrite (Hkeep _ Hnot), Nat.eqb_refl. reflexivity.
        -- apply Hclear. eauto.
      * intros r' Hnot.
        rewrite Hkeep
          by (intros [k' [Hin Hr']]; apply Hnot; exists k';
              split; [right; exact Hin | exact Hr']).
        destruct (Nat.eqb_spec r' r) as [-> | _]; [| reflexivity].
        exfalso. apply Hnot. exists k. split; [left; reflexivity | exact Hr].
Qed.

Lemma strip_finish (w0 w w1 : world) (done : list addr) (a : addr) :
  stripped w0 done w ->
  well_formed_node (nodes w0 a) ->
  single_relations (nodes w0 a) ->
  drawn w1 = drawn w -> log w1 = log w -> infos w1 = infos w ->
  (forall a',
     nodes w1 a'
     = if Nat.eqb a' a
       then mkNode (node_id_ (nodes w a)) VNone
                   (without_file_path (node_metadata (nodes w a)))
                   (node_relationships (nodes w a)) (node_text (nodes w a))
       else nodes w a') ->
  exists w',
    forM_ (clear_related (node_relationships (nodes w1 a)))
          (map fst (node_relationships (nodes w1 a))) w1
    = (Ok tt, w')
    /\ stripped w0 (a :: done) w'.
Proof.
  intros (Hdrawn & Hlog & Hsame & Hdone & Hrest & Hids & Hclear & Hkeep)
         [Hmd Hrels] Hsingle Hdrawn1 Hlog1 Hinfos1 Hnodes1.
  assert (Erels : node_relationships (nodes w1 a)
                  = node_relationships (nodes w0 a)).
  { rewrite Hnodes1, Nat.eqb_refl. cbn. apply Hsame. }
  assert (Emd : without_file_path (node_metadata (nodes w a))
                = without_file_path (node_metadata (nodes w0 a))).
  { destruct (in_dec Nat.eq_dec a done) as [Hin | Hnot].
    - rewrite (proj2 (Hdone a Hin)).
      apply without_file_path_idempotent. exact Hmd.
    - rewrite (Hrest a Hnot). reflexivity. }
  rewrite Erels.
  destruct (@clear_related_loop (node_relationships (nodes w0 a))
              (map fst (node_relationships (nodes w0 a))) w1)
    as (w' & Erun & Hn & Hd & Hl & Hi & Hc & Hk).
  { intros k Hin. destruct (assoc_of_key k _ Hin) as [rel Hrel].
    destruct (Hsingle k rel (dict_assoc_in _ _ Hrel)) as [r ->].
    exists r. exact Hrel. }
  exists w'. split; [exact Erun |].
  unfold stripped. rewrite Hn, Hd, Hl, Hdrawn1, Hlog1.
  split; [exact Hdrawn |]. split; [exact Hlog |].
  split; [| split; [| split; [| split; [| split]]]].
  - intros a'. rewrite Hnodes1.
    destruct (Nat.eqb_spec a' a) as [-> | _]; cbn; apply Hsame.
  - intros a' Hin. rewrite Hnodes1.
    destruct (Nat.eqb_spec a' a) as [-> | Hne]; cbn.
    + split; [reflexivity | exact Emd].
    + destruct Hin as [E | Hin]; [congruence | apply Hdone; exact Hin].
  - intros a' Hnot. rewrite Hnodes1.
    destruct (Nat.eqb_spec a' a) as [-> | Hne].
    + exfalso. apply Hnot. left. reflexivity.
    + apply Hrest. intros Hin. apply Hnot. right. exact Hin.
  - intros r. rewrite Hi, Hinfos1. apply Hids.
  - intros r Hr.
    destruct (assoc_among_dec r (map fst (node_relationships (nodes w0 a)))
                (node_relationships (nodes w0 a))) as [Hyes | Hno].
    + apply Hc. exact Hyes.
    + rewrite (Hk r Hno), Hinfos1.
      destruct Hr as (a' & key & [<- | Hin] & Hkey).
      * exfalso. apply Hno. exists key. split.
        -- apply (in_map fst) in Hkey. exact Hkey.
        -- apply in_dict_assoc; assumption.
      * apply Hclear. exists a', key. auto.
  - intros r Hnot.
    rewrite Hk, Hinfos1.
    + apply Hkeep. intros (a' & key & Hin & Hkey).
      apply Hnot. exists a', key. split; [right; exact Hin | exact Hkey].
    + intros (k & _ & Hk'). apply Hnot. exists a, k.
      split; [left; reflexivity | apply dict_assoc_in; exact Hk'].
Qed.

Lemma strip_node_step (w0 w : world) (done : list addr) (a : addr) :
  stripped w0 done w ->
  well_formed_node (nodes w0 a) ->
  single_relations (nodes w0 a) ->
  exists w',
    strip_node (NodeRef a) w = (Ok tt, w')
    /\ stripped w0 (a :: done) w'.
Proof.
  intros Hinv Hwf Hsingle.
  unfold strip_node, get_node, set_node, lift.
  cbn [bind M_monad ret nodes infos drawn log].
  rewrite !Nat.eqb_refl.
  cbn [node_id_ node_embedding node_metadata node_relationships node_text].
  destruct (truthy (dict_get (node_metadata (nodes w a)) "file_path")) eqn:Et.
  - unfold dict_pop.
    destruct (dict_find (node_metadata (nodes w a)) "file_path") as [v |] eqn:Ef;
      [| unfold dict_get in Et; rewrite Ef in Et; discriminate Et].
    cbn [snd].
    eapply strip_finish;
      [exact Hinv | exact Hwf | exact Hsingle
      | reflexivity | reflexivity | reflexivity |].
    intros a'. cbn. unfold without_file_path. rewrite Et.
    destruct (Nat.eqb a' a); reflexivity.
  - eapply strip_finish;
      [exact Hinv | exact Hwf | exact Hsingle
      | reflexivity | reflexivity | reflexivity |].
    intros a'. cbn. unfold without_file_path. rewrite Et. reflexivity.
Qed.

Lemma stripped_start (w : world) : stripped w [] w.
Proof.
  unfold stripped.
  split; [reflexivity |]. split; [reflexivity |].
  split; [intros a; auto |].
  split; [intros a [] |].
  split; [reflexivity |].
  split; [reflexivity |].
  split; [intros r (a & key & [] & _) | reflexivity].
Qed.

Lemma stripped_same_members (w0 w : world) (l1 l2 : list addr) :
  (forall a, In a l1 <-> In a l2) ->
  stripped w0 l1 w -> stripped w0 l2 w.
Proof.
  intros Hmem (Hdrawn & Hlog & Hsame & Hdone & Hrest & Hids & Hclear & Hkeep).
  assert (Hrel : forall r, related_to w0 l1 r <-> related_to w0 l2 r).
  { intros r. split; intros (a & key & Hin & Hkey); exists a, key;
      (split; [apply Hmem; exact Hin | exact Hkey]). }
  unfold stripped.
  split; [exact Hdrawn |]. split; [exact Hlog |]. split; [exact Hsame |].
  split; [intros a Hin; apply Hdone, Hmem; exact Hin |].
  split; [intros a Hnot; apply Hrest; intros Hin; apply Hnot, Hmem; exact Hin |].
  split; [exact Hids |].
  split; [intros r Hr; apply Hclear, Hrel; exact Hr |].
  intros r Hnot. apply Hkeep. intros Hr. apply Hnot, Hrel. exact Hr.
Qed.

Lemma strip_batch (w0 : world) (addrs done : list addr) (w : world) :
  stripped w0 done w ->
  (forall a, In a addrs -> well_formed_node (nodes w0 a)) ->
  (forall a, In a addrs -> single_relations (nodes w0 a)) ->
  exists w',
    forM_ strip_node (map NodeRef addrs) w = (Ok tt, w')
    /\ stripped w0 (addrs ++ done) w'.
Proof.
  revert done w.
  induction addrs as [| a addrs IH]; intros done w Hinv Hwf Hsingle.
  - exists w. split; [reflexivity | exact Hinv].
  - destruct (strip_node_step a Hinv (Hwf a (or_introl eq_refl))
                (Hsingle a (or_introl eq_refl)))
      as (w1 & E1 & Hinv1).
    destruct (IH (a :: done) w1 Hinv1) as (w' & E & Hinv').
    { intros a' Hin. apply Hwf. right. exact Hin. }
    { intros a' Hin. apply Hsingle. right. exact Hin. }
    exists w'. split.
    + cbn [map forM_ bind M_monad]. rewrite E1. exact E.
    + apply stripped_same_members with (l1 := addrs ++ a :: done); [| exact Hinv'].
      intros x. cbn. rewrite !in_app_iff. cbn. tauto.
Qed.

Lemma dicts_of_nodes (env : Imports) (addrs : list addr) (w : world) :
  mapM (obj_dict env) (map NodeRef addrs) w
  = (Ok (map (fun a => BaseNode_dict env (nodes w a) (infos w)) addrs), w).
Proof.
  induction addrs as [| a addrs IH]; cbn; [reflexivity |].
  cbn in IH. rewrite IH. reflexivity.
Qed.

(** C10, as the code has it.  On a non-empty batch of nodes whose
    relationship keys each hold one related-node object, the conversion
    writes to the caller's own objects: afterwards every node of the batch
    has no embedding, its metadata is what it was without the entry under
    ["file_path"] when that entry's value was truthy (so no truthy
    ["file_path"] is left, and a falsy one stays), and every related-node
    object it points to has empty metadata; nothing else in the world has
    changed, and the records returned are the serialisations of the nodes
    as they now are.  A node may occur several times in the batch and
    related-node objects may be shared. *)
Theorem node_batch_stripped_in_place (env : Imports) (addrs : list addr)
    (w : world) :
  addrs <> [] ->
  (forall a, In a addrs -> well_formed_node (nodes w a)) ->
  (forall a, In a addrs -> single_relations (nodes w a)) ->
  exists w',
    _convert_upsert_data env (map NodeRef addrs) w
    = (Ok (map (fun a => BaseNode_dict env (nodes w' a) (infos w')) addrs), w')
    /\ stripped w addrs w'
    /\ (forall a,
          In a addrs ->
          node_embedding (nodes w' a) = VNone
          /\ node_metadata (nodes w' a)
             = without_file_path (node_metadata (nodes w a))
          /\ truthy (dict_get (node_metadata (nodes w' a)) "file_path") = false
          /\ (truthy (dict_get (node_metadata (nodes w a)) "file_path") = true ->
              dict_find (node_metadata (nodes w' a)) "file_path" = None)
          /\ (truthy (dict_get (node_metadata (nodes w a)) "file_path") = false ->
              node_metadata (nodes w' a) = node_metadata (nodes w a))
          /\ node_relationships (nodes w' a) = node_relationships (nodes w a)
          /\ (forall key r,
                In (key, OneRelated r) (node_relationships (nodes w' a)) ->
                info_metadata (infos w' r) = [])).
Proof.
  intros Hne Hwf Hsingle.
  destruct (strip_batch addrs (stripped_start w) Hwf Hsingle)
    as (w' & Erun & Hinv).
  rewrite app_nil_r in Hinv.
  exists w'. split; [| split; [exact Hinv |]].
  - unfold _convert_upsert_data.
    destruct addrs as [| a0 addrs']; [contradiction |].
    cbn [map getitem nth_error lift bind M_monad is_BaseNode].
    change (NodeRef a0 :: map NodeRef addrs') with (map NodeRef (a0 :: addrs')).
    rewrite Erun. apply dicts_of_nodes.
  - destruct Hinv as (_ & _ & Hsame & Hdone & _ & _ & Hclear & _).
    intros a Hin. destruct (Hdone a Hin) as [Hemb Hmd].
    split; [exact Hemb |]. split; [exact Hmd |].
    split; [| split; [| split; [| split]]].
    + rewrite Hmd. apply without_file_path_falsy. apply (Hwf a Hin).
    + intros Ht. rewrite Hmd. unfold without_file_path. rewrite Ht.
      apply DictFacts.find_remove_same. apply (Hwf a Hin).
    + intros Hf. rewrite Hmd. unfold without_file_path. rewrite Hf.
      reflexivity.
    + apply Hsame.
    + intros key r Hkey. apply Hclear. exists a, key.
      split; [exact Hin |].
      rewrite <- (proj1 (proj2 (Hsame a))). exact Hkey.
Qed.

Lemma node_batch_stripped_in_place_witness :
  let w' := snd (_convert_upsert_data Example.imports
                   (map NodeRef [0%nat; 1%nat; 0%nat])
                   Example.world_with_path) in
  node_embedding (nodes w' 0%nat) = VNone
  /\ node_metadata (nodes w' 1%nat) = [ ("page", VInt 3) ]
  /\ info_metadata (infos w' 7%nat) = []
  /\ info_metadata (infos w' 8%nat) = []
  /\ infos w' 9%nat = infos Example.world_with_path 9%nat
  /\ nodes w' 2%nat = nodes Example.world_with_path 2%nat.
Proof.
  destruct (@node_batch_stripped_in_place Example.imports
              [0%nat; 1%nat; 0%nat] Example.world_with_path)
    as (w' & E & Hinv & H).
  - discriminate.
  - intros a _. split; cbn; repeat constructor; cbn; intuition discriminate.
  - intros a _ key rel Hin. cbn in Hin.
    destruct Hin as [Hin | [Hin | []]]; injection Hin as _ <-; eauto.
  - cbv zeta. rewrite E. cbn [snd].
    destruct (H 0%nat (or_introl eq_refl)) as (Hemb & _).
    destruct (H 1%nat (or_intror (or_introl eq_refl)))
      as (_ & Hmd & _ & _ & _ & Hrels & Hclear).
    destruct Hinv as (_ & _ & _ & _ & Hrest & _ & _ & Hkeep).
    split; [exact Hemb |]. split; [exact Hmd |].
    split; [apply (Hclear "1"); rewrite Hrels; left; reflexivity |].
    split; [apply (Hclear "3"); rewrite Hrels; right; left; reflexivity |].
    split.
    + apply Hkeep. intros (a & key & _ & Hin). cbn in Hin.
      destruct Hin as [Hin | [Hin | []]]; discriminate Hin.
    + apply Hrest. cbn. intuition discriminate.
Defined.

(** C10 as stated fails: a node whose metadata has an empty ["file_path"]
    still has that key after the conversion. *)
Lemma file_path_kept_counterexample :
  dict_find (node_metadata (nodes Example.world_with_empty_path 0%nat))
            "file_path"
  = Some (VStr "")
  /\ is_ok (fst (_convert_upsert_data Example.imports [ NodeRef 0%nat ]
                                      Example.world_with_empty_path))
     = true
  /\ dict_find
       (node_metadata
          (nodes (snd (_convert_upsert_data Example.imports [ NodeRef 0%nat ]
                                            Example.world_with_empty_path))
                 0%nat))
       "file_path"
     = Some (VStr "").
Proof. repeat split. Qed.

(** ** Search hits to typed documents *)

Section Hits.

Variable env : Imports.

Lemma entity_of_nulled (response e : dict) (remove : bool) :
  dict_find response "entity" = Some (VDict e) ->
  exists e', entity_of env response remove = Ok e' /\ nulled env remove e e'.
Proof.
  intros He. unfold entity_of, dict_getitem. rewrite He. cbn.
  destruct remove.
  - eexists. split; [reflexivity |]. unfold nulled, dict_literal, dict_update.
    split.
    + intros _. cbn.
      destruct (String.eqb_spec (embedding_key env) (sparse_key env)) as [E | Hne];
        cbn.
      * rewrite <- E. split; apply DictFacts.find_set_same.
      * split; [| apply DictFacts.find_set_same].
        rewrite DictFacts.find_set_other by exact Hne.
        apply DictFacts.find_set_same.
    + intros k Hk. destruct (Hk eq_refl) as [Hk1 Hk2]. cbn.
      destruct (String.eqb (embedding_key env) (sparse_key env)); cbn;
        rewrite ?DictFacts.find_set_other by assumption; reflexivity.
  - exists e. split; [reflexivity |]. split; [discriminate | reflexivity].
Qed.

Lemma add_score_scored (e : dict) (distance : value) :
  (forall v, dict_find e "metadata" = Some v -> exists md, v = VDict md) ->
  exists e', add_score e distance = Ok e' /\ scored distance e e'.
Proof.
  intros Hmd. unfold add_score, dict_setdefault.
  destruct (dict_find e "metadata") as [v |] eqn:Ev.
  - destruct (Hmd v eq_refl) as [md ->].
    destruct (dict_find md "score") as [old |] eqn:Eold.
    + eexists. split; [reflexivity |].
      exists md, md. split; [left; exact Ev |].
      split; [apply DictFacts.find_set_same |].
      split; [rewrite Eold; reflexivity |].
      split; [reflexivity |].
      intros k Hk. apply DictFacts.find_set_other. exact Hk.
    + eexists. split; [reflexivity |].
      exists md, (dict_set md "score" distance). split; [left; exact Ev |].
      split; [apply DictFacts.find_set_same |].
      split; [rewrite Eold; apply DictFacts.find_set_same |].
      split; [intros k Hk; apply DictFacts.find_set_other; exact Hk |].
      intros k Hk. apply DictFacts.find_set_other. exact Hk.
  - eexists. split; [reflexivity |].
    exists [], [("score", distance)]. split; [right; split; [exact Ev | reflexivity] |].
    split; [apply DictFacts.find_set_same |].
    split; [reflexivity |].
    split.
    + intros k Hk. exact (@DictFacts.find_set_other [] "score" k distance Hk).
    + intros k Hk. rewrite !DictFacts.find_set_other by exact Hk. reflexivity.
Qed.

End Hits.

Section Pairing.

Variable env : Imports.

(** The last comprehension of the node conversion pairs the [i]-th node with
    the [i]-th hit's distance. *)
Lemma pair_by_index (rs : list dict) :
  forall (ns pn : list (TextNode env)) (pr : list dict),
    length pn = length pr ->
    length ns = length rs ->
    (forall r, In r rs -> exists d s, dict_find r "distance" = Some d
                                      /\ validate_score env d = Ok s) ->
    exists out,
      mapM (fun i =>
              n <- getitem (pn ++ ns) i ;;
              r <- getitem (pr ++ rs) i ;;
              s <- dict_getitem r "distance" ;;
              NodeWithScore_new env n s)
           (seq (length pr) (length rs))
      = Ok out
      /\ Forall2 (fun r o => exists d, dict_find r "distance" = Some d
                                       /\ validate_score env d = Ok (score o))
                 rs out
      /\ map (@node env) out = ns.
Proof.
  induction rs as [| r rs IH]; intros ns pn pr Hp Hlen Hd.
  - destruct ns; [| discriminate Hlen].
    exists []. cbn. repeat split. constructor.
  - destruct ns as [| n ns]; [discriminate Hlen |].
    destruct (Hd r (or_introl eq_refl)) as (d & sc & Ed & Esc).
    destruct (IH ns (pn ++ [n]) (pr ++ [r])) as (out & Eout & Hout & Hnodes).
    + rewrite !length_app, Hp. reflexivity.
    + cbn in Hlen. lia.
    + intros r' Hr'. apply Hd. right. exact Hr'.
    + exists (mkNodeWithScore env n sc :: out).
      split; [| split; [constructor; [exists d; split; assumption | exact Hout] |
                        cbn; rewrite Hnodes; reflexivity]].
      cbn [length seq mapM bind result_monad ret].
      unfold getitem at 1 2.
      rewrite <- Hp at 1.
      rewrite !nth_error_app2, Hp, Nat.sub_diag by lia.
      cbn [nth_error]. unfold dict_getitem at 1. rewrite Ed.
      cbn [bind result_monad]. unfold NodeWithScore_new at 1. rewrite Esc.
      cbn [bind result_monad].
      rewrite length_app, Nat.add_1_r in Eout.
      rewrite <- !app_assoc in Eout. cbn [app bind result_monad ret] in Eout.
      rewrite Eout. reflexivity.
Qed.

End Pairing.

Section Conversions.

Variable env : Imports.

Lemma node_hits_converted (responses : list dict) (remove_embedding : bool) :
  (forall r, In r responses -> well_formed_hit r) ->
  (forall r e', In r responses ->
                entity_of env r remove_embedding = Ok e' ->
                exists n, TextNode_from_dict env e' = Ok n) ->
  (forall r d, In r responses ->
               dict_find r "distance" = Some d ->
               exists s, validate_score env d = Ok s) ->
  exists out,
    _convert_response_to_node_with_score env responses remove_embedding = Ok out
    /\ length out = length responses
    /\ (forall i r,
          nth_error responses i = Some r ->
          exists o e e' d,
            nth_error out i = Some o
            /\ dict_find r "entity" = Some (VDict e)
            /\ nulled env remove_embedding e e'
            /\ TextNode_from_dict env e' = Ok (node o)
            /\ dict_find r "distance" = Some d
            /\ validate_score env d = Ok (score o)).
Proof.
  intros Hwf Haccept Hscore.
  destruct (mapM_all_ok (fun r => entity_of env r remove_embedding) responses)
    as (es & Ees & Hes).
  { intros r Hr. destruct (Hwf r Hr) as (e & d & He & _).
    destruct (entity_of_nulled env r remove_embedding He) as (e' & E & _). eauto. }
  destruct (mapM_all_ok (TextNode_from_dict env) es) as (ns & Ens & Hns).
  { intros e' He'. apply In_nth_error in He'. destruct He' as [i Hi].
    assert (Hlen : length responses = length es) by (eapply Forall2_length; eauto).
    destruct (nth_error responses i) as [r |] eqn:Er.
    - destruct (Forall2_nth_error i Hes Er) as (e'' & Hi' & E).
      assert (e'' = e') by congruence. subst e''.
      apply (Haccept r e'); [eapply nth_error_In; eauto | exact E].
    - apply nth_error_None in Er.
      assert (i < length es)%nat by (apply nth_error_Some; congruence). lia. }
  destruct (@pair_by_index env responses ns [] []) as (out & Eout & Hout & Hnodes).
  { reflexivity. }
  { rewrite <- (Forall2_length Hns). symmetry. eapply Forall2_length; eauto. }
  { intros r Hr. destruct (Hwf r Hr) as (e & d & _ & Hd).
    destruct (Hscore r d Hr Hd) as [sc Esc]. eauto. }
  exists out. split; [| split].
  - unfold _convert_response_to_node_with_score.
    rewrite foldM_append, Ees. cbn [bind result_monad app].
    rewrite Ens. cbn [bind result_monad]. exact Eout.
  - symmetry. eapply Forall2_length; eauto.
  - intros i r Hr.
    destruct (Forall2_nth_error i Hout Hr) as (o & Ho & d & Hd & Hsc).
    destruct (Forall2_nth_error i Hes Hr) as (e' & He' & Eent).
    destruct (Forall2_nth_error i Hns He') as (n & Hn & Enode).
    assert (Hno : n = node o).
    { rewrite <- Hnodes, nth_error_map, Ho in Hn. cbn in Hn. congruence. }
    destruct (Hwf r (nth_error_In _ _ Hr)) as (e & d0 & He & _).
    destruct (entity_of_nulled env r remove_embedding He) as (e2 & E2 & Hnulled).
    assert (e2 = e') by congruence. subst e2 n.
    exists o, e, e', d. repeat (split; [assumption |]). assumption.
Qed.

(** What the document conversion makes of one hit that has an entity
    mapping, stage by stage. *)
Lemma hit_stages (r e : dict) (remove_embedding : bool) :
  dict_find r "entity" = Some (VDict e) ->
  (remove_embedding = true ->
   "metadata" <> embedding_key env /\ "metadata" <> sparse_key env) ->
  (forall v, dict_find e "metadata" = Some v -> exists md, v = VDict md) ->
  exists e' e'',
    entity_of env r remove_embedding = Ok e'
    /\ add_score e' (dict_get r "distance") = Ok e''
    /\ nulled env remove_embedding e e'
    /\ scored (dict_get r "distance") e' e''
    /\ dict_find e' "metadata" = dict_find e "metadata".
Proof.
  intros He Hnames Hmd.
  destruct (entity_of_nulled env r remove_embedding He) as (e' & E' & Hnulled).
  assert (Hsame : dict_find e' "metadata" = dict_find e "metadata")
    by (apply (proj2 Hnulled); exact Hnames).
  assert (Hmd' : forall v, dict_find e' "metadata" = Some v ->
                           exists md, v = VDict md).
  { intros v Hv. rewrite Hsame in Hv. apply Hmd. exact Hv. }
  destruct (add_score_scored e' (dict_get r "distance") Hmd')
    as (e'' & E'' & Hscored).
  exists e', e''. repeat (split; [assumption |]). exact Hsame.
Qed.

End Conversions.

Lemma document_conversion_per_hit (env : Imports) (responses : list dict)
    (remove_embedding : bool) :
  _convert_response_to_document env responses remove_embedding
  = mapM (convert_hit env remove_embedding) responses.
Proof.
  unfold _convert_response_to_document.
  transitivity (foldM (fun results x =>
                         y <- convert_hit env remove_embedding x ;;
                         Ok (results ++ [y]))
                      responses []).
  - apply foldM_ext. intros acc r. unfold convert_hit.
    destruct (entity_of env r remove_embedding) as [e' |]; cbn;
      [| reflexivity].
    destruct (add_score e' (dict_get r "distance")); reflexivity.
  - rewrite foldM_append.
    destruct (mapM (convert_hit env remove_embedding) responses); reflexivity.
Qed.

(** ** The document conversion and the caller's hits *)

Lemma foldM_append_writes {A B : Type} (f : A -> W B) (xs : list A)
    (acc : list B) (ws : writes) :
  foldM (fun acc x => y <- f x ;; ret (acc ++ [y])) xs acc ws
  = match mapM f xs ws with
    | (Ok ys, ws') => (Ok (acc ++ ys), ws')
    | (Raise e, ws') => (Raise e, ws')
    end.
Proof.
  set (g := fun acc x => y <- f x ;; ret (acc ++ [y])).
  revert acc ws. induction xs as [| x xs IH]; intros acc ws.
  - cbn. rewrite app_nil_r. reflexivity.
  - cbn [foldM mapM]. unfold g at 1. cbn [bind W_monad ret].
    destruct (f x ws) as [[y | e] ws1]; [| reflexivity].
    rewrite IH. destruct (mapM f xs ws1) as [[ys | e] ws2]; [| reflexivity].
    rewrite <- app_assoc. reflexivity.
Qed.

Section Held.

Variable env : Imports.
Variable remove_embedding : bool.

Lemma hit_now_fresh (ws : writes) (h : HeldHit) :
  ws (held_metadata h) = None -> hit_now ws h = held_value h.
Proof.
  intros H. unfold hit_now. rewrite H.
  destruct (dict_find (held_value h) "entity") as [[] |]; try reflexivity.
  destruct (dict_find entries "metadata") as [[] |]; reflexivity.
Qed.

(** The conversion of a hit whose metadata mapping has not been written to
    returns what the conversion of its value does, and writes to that
    mapping alone. *)
Lemma convert_held_fresh (ws : writes) (h : HeldHit) :
  ws (held_metadata h) = None ->
  exists ws',
    convert_held env remove_embedding h ws
    = (convert_hit env remove_embedding (held_value h), ws')
    /\ (forall a, a <> held_metadata h -> ws' a = ws a)
    /\ ws' (held_metadata h) = written_by env remove_embedding (held_value h).
Proof.
  intros Hfresh.
  unfold convert_held, read_hit, liftW. cbn [bind W_monad].
  rewrite (hit_now_fresh ws h Hfresh).
  unfold convert_hit, written_by.
  destruct (entity_of env (held_value h) remove_embedding) as [e' | err];
    cbn [bind result_monad W_monad];
    [| exists ws; split; [reflexivity | split; [reflexivity | exact Hfresh]]].
  unfold add_score_in_place, liftW. cbn [bind W_monad].
  destruct (add_score e' (dict_get (held_value h) "distance")) as [e'' | err];
    cbn [bind result_monad W_monad];
    [| exists ws; split; [reflexivity | split; [reflexivity | exact Hfresh]]].
  destruct (dict_find e' "metadata") as [v |];
    [| exists ws; split; [reflexivity | split; [reflexivity | exact Hfresh]]].
  destruct (dict_find e'' "metadata") as [[] |];
    try (exists ws; split; [reflexivity | split; [reflexivity | exact Hfresh]]).
  unfold write_metadata. cbn [bind W_monad ret].
  eexists. split; [reflexivity |]. split.
  - intros a Hne. apply Nat.eqb_neq in Hne. rewrite Hne. reflexivity.
  - rewrite Nat.eqb_refl. reflexivity.
Qed.

(** Hits that hold different metadata mappings are converted as their
    values are, each writing to its own mapping. *)
Lemma held_batch (hs : list HeldHit) (ws : writes) :
  NoDup (map held_metadata hs) ->
  (forall h, In h hs -> ws (held_metadata h) = None) ->
  exists ws',
    mapM (convert_held env remove_embedding) hs ws
    = (mapM (convert_hit env remove_embedding) (map held_value hs), ws')
    /\ (forall a, ~ In a (map held_metadata hs) -> ws' a = ws a)
    /\ (is_ok (mapM (convert_hit env remove_embedding) (map held_value hs))
        = true ->
        forall h, In h hs ->
                  ws' (held_metadata h)
                  = written_by env remove_embedding (held_value h)).
Proof.
  revert ws. induction hs as [| h hs IH]; intros ws Hnd Hfresh.
  - exists ws. split; [reflexivity |]. split; [reflexivity |].
    intros _ h [].
  - cbn [map] in Hnd. apply NoDup_cons_iff in Hnd. destruct Hnd as [Hnot Hnd].
    destruct (convert_held_fresh ws h (Hfresh h (or_introl eq_refl)))
      as (ws1 & E1 & Hother1 & Hown1).
    cbn [mapM map bind W_monad result_monad]. rewrite E1.
    destruct (convert_hit env remove_embedding (held_value h)) as [doc | e].
    + destruct (IH ws1 Hnd) as (ws2 & E2 & Hother2 & Hown2).
      { intros h' Hin. rewrite Hother1; [apply Hfresh; right; exact Hin |].
        intros E. apply Hnot. rewrite <- E. apply in_map. exact Hin. }
      rewrite E2. exists ws2.
      split; [| split].
      * destruct (mapM (convert_hit env remove_embedding) (map held_value hs));
          reflexivity.
      * intros a Ha. rewrite Hother2 by (intros Hin; apply Ha; right; exact Hin).
        apply Hother1. intros E. apply Ha. left. symmetry. exact E.
      * intros Hok h' [<- | Hin].
        -- rewrite (Hother2 _ Hnot). exact Hown1.
        -- apply Hown2; [| exact Hin].
           destruct (mapM (convert_hit env remove_embedding) (map held_value hs));
             [reflexivity | discriminate Hok].
    + exists ws1. split; [reflexivity |]. split.
      * intros a Ha. apply Hother1. intros E. apply Ha. left. symmetry. exact E.
      * intros Hok. discriminate Hok.
Qed.

(** For hits that hold different metadata mappings, what the method returns
    is a function of the values of the hits. *)
Lemma in_place_returns (hs : list HeldHit) :
  NoDup (map held_metadata hs) ->
  fst (_convert_response_to_document_in_place env hs remove_embedding)
  = _convert_response_to_document env (map held_value hs) remove_embedding.
Proof.
  intros Hnd. unfold _convert_response_to_document_in_place.
  rewrite foldM_append_writes, document_conversion_per_hit.
  destruct (@held_batch hs no_writes Hnd) as (ws' & E & _); [reflexivity |].
  rewrite E.
  destruct (mapM (convert_hit env remove_embedding) (map held_value hs));
    reflexivity.
Qed.

(** The conversion of hits that have an entity mapping and hold different
    metadata mappings: the documents, and what the mappings are given. *)
Lemma held_hits_converted (hs : list HeldHit) :
  (forall h, In h hs ->
             exists e, dict_find (held_value h) "entity" = Some (VDict e)) ->
  NoDup (map held_metadata hs) ->
  (remove_embedding = true ->
   "metadata" <> embedding_key env /\ "metadata" <> sparse_key env) ->
  (forall h e v, In h hs ->
                 dict_find (held_value h) "entity" = Some (VDict e) ->
                 dict_find e "metadata" = Some v -> exists md, v = VDict md) ->
  (forall h e' e'', In h hs ->
                    entity_of env (held_value h) remove_embedding = Ok e' ->
                    add_score e' (dict_get (held_value h) "distance") = Ok e'' ->
                    exists doc, Document_parse_obj env e'' = Ok doc) ->
  exists out ws',
    _convert_response_to_document_in_place env hs remove_embedding
    = (Ok out, ws')
    /\ length out = length hs
    /\ (forall i h,
          nth_error hs i = Some h ->
          exists doc e e' e'',
            nth_error out i = Some doc
            /\ dict_find (held_value h) "entity" = Some (VDict e)
            /\ nulled env remove_embedding e e'
            /\ scored (dict_get (held_value h) "distance") e' e''
            /\ Document_parse_obj env e'' = Ok doc
            /\ (forall md,
                  dict_find e "metadata" = Some (VDict md) ->
                  exists md',
                    dict_find e'' "metadata" = Some (VDict md')
                    /\ ws' (held_metadata h) = Some md')
            /\ (dict_find e "metadata" = None ->
                ws' (held_metadata h) = None))
    /\ (forall a, ~ In a (map held_metadata hs) -> ws' a = None).
Proof.
  intros Hent Hnd Hnames Hmd Haccept.
  assert (Hone : forall h, In h hs ->
             exists doc e e' e'',
               convert_hit env remove_embedding (held_value h) = Ok doc
               /\ dict_find (held_value h) "entity" = Some (VDict e)
               /\ entity_of env (held_value h) remove_embedding = Ok e'
               /\ add_score e' (dict_get (held_value h) "distance") = Ok e''
               /\ nulled env remove_embedding e e'
               /\ scored (dict_get (held_value h) "distance") e' e''
               /\ dict_find e' "metadata" = dict_find e "metadata"
               /\ Document_parse_obj env e'' = Ok doc).
  { intros h Hin. destruct (Hent h Hin) as [e He].
    destruct (@hit_stages env (held_value h) e remove_embedding He Hnames)
      as (e' & e'' & E' & E'' & Hn & Hs & Hsame).
    { intros v Hv. apply (Hmd h e v Hin He Hv). }
    destruct (Haccept h e' e'' Hin E' E'') as [doc Edoc].
    assert (Ehit : convert_hit env remove_embedding (held_value h) = Ok doc).
    { unfold convert_hit. rewrite E'. cbn [bind result_monad].
      rewrite E''. exact Edoc. }
    exists doc, e, e', e''.
    repeat (split; [assumption |]). exact Edoc. }
  destruct (mapM_all_ok (convert_hit env remove_embedding) (map held_value hs))
    as (out & Eout & Hout).
  { intros r Hr. apply in_map_iff in Hr. destruct Hr as (h & <- & Hin).
    destruct (Hone h Hin) as (doc & _ & _ & _ & E & _). eauto. }
  destruct (@held_batch hs no_writes Hnd) as (ws' & E & Hother & Hown);
    [reflexivity |].
  rewrite Eout in E, Hown. specialize (Hown eq_refl).
  exists out, ws'. split; [| split; [| split]].
  - unfold _convert_response_to_document_in_place.
    rewrite foldM_append_writes, E. reflexivity.
  - rewrite <- (Forall2_length Hout). apply length_map.
  - intros i h Hi.
    assert (Hin : In h hs) by (eapply nth_error_In; exact Hi).
    destruct (Hone h Hin)
      as (doc & e & e' & e'' & Edoc & He & E' & E'' & Hn & Hs & Hsame & Hp).
    assert (Hv : nth_error (map held_value hs) i = Some (held_value h))
      by (rewrite nth_error_map, Hi; reflexivity).
    destruct (Forall2_nth_error i Hout Hv) as (doc' & Hdoc & Edoc').
    assert (doc' = doc) by congruence. subst doc'.
    exists doc, e, e', e''.
    repeat (split; [assumption |]).
    pose proof (Hown h Hin) as Hw. unfold written_by in Hw.
    rewrite E', E'', Hsame in Hw.
    split.
    + intros md Emd. rewrite Emd in Hw.
      destruct Hs as (md0 & md' & _ & Emd' & _).
      exists md'. split; [exact Emd' |]. rewrite Emd' in Hw. exact Hw.
    + intros Emd. rewrite Emd in Hw. exact Hw.
  - intros a Ha. apply Hother. exact Ha.
Qed.

End Held.

(** C5, as the code has it.  For hits that have an entity mapping and a
    distance, and as long as the frameworks' constructors accept what they
    are handed, each conversion returns one typed document per hit, in the
    order of the hits, built from the hit's entity with the two vector
    fields set to [None] when [remove_embedding] is set.  The node
    conversion hands the hit's distance to the wrapper, whose score is that
    distance as the wrapper validates it.  The document conversion, the hits
    holding different metadata mappings, puts the distance under ["score"]
    in the entity's metadata (created if missing) unless the metadata has a
    ["score"] already, which is then kept; what it sets, it sets in the
    mapping the caller's hit holds, which is afterwards the metadata of the
    document; it needs the metadata, when present, to be a mapping, and the
    vector fields not to be named ["metadata"]. *)
Theorem search_hits_to_documents (env : Imports) (remove_embedding : bool) :
  (forall responses : list dict,
     (forall r, In r responses -> well_formed_hit r) ->
     (forall r e', In r responses ->
                   entity_of env r remove_embedding = Ok e' ->
                   exists n, TextNode_from_dict env e' = Ok n) ->
     (forall r d, In r responses ->
                  dict_find r "distance" = Some d ->
                  exists s, validate_score env d = Ok s) ->
     exists out,
       _convert_response_to_node_with_score env responses remove_embedding
       = Ok out
       /\ length out = length responses
       /\ (forall i r,
             nth_error responses i = Some r ->
             exists o e e' d,
               nth_error out i = Some o
               /\ dict_find r "entity" = Some (VDict e)
               /\ nulled env remove_embedding e e'
               /\ TextNode_from_dict env e' = Ok (node o)
               /\ dict_find r "distance" = Some d
               /\ validate_score env d = Ok (score o)))
  /\ (forall responses : list HeldHit,
        (forall h, In h responses -> well_formed_hit (held_value h)) ->
        NoDup (map held_metadata responses) ->
        (remove_embedding = true ->
         "metadata" <> embedding_key env /\ "metadata" <> sparse_key env) ->
        (forall h e v, In h responses ->
                       dict_find (held_value h) "entity" = Some (VDict e) ->
                       dict_find e "metadata" = Some v ->
                       exists md, v = VDict md) ->
        (forall h e' e'',
           In h responses ->
           entity_of env (held_value h) remove_embedding = Ok e' ->
           add_score e' (dict_get (held_value h) "distance") = Ok e'' ->
           exists doc, Document_parse_obj env e'' = Ok doc) ->
        exists out ws',
          _convert_response_to_document_in_place env responses remove_embedding
          = (Ok out, ws')
          /\ length out = length responses
          /\ (forall i h,
                nth_error responses i = Some h ->
                exists doc e e' e'' d,
                  nth_error out i = Some doc
                  /\ dict_find (held_value h) "entity" = Some (VDict e)
                  /\ dict_find (held_value h) "distance" = Some d
                  /\ nulled env remove_embedding e e'
                  /\ scored d e' e''
                  /\ Document_parse_obj env e'' = Ok doc
                  /\ (forall md,
                        dict_find e "metadata" = Some (VDict md) ->
                        exists md',
                          dict_find e'' "metadata" = Some (VDict md')
                          /\ ws' (held_metadata h) = Some md')
                  /\ (dict_find e "metadata" = None ->
                      ws' (held_metadata h) = None))
          /\ (forall a, ~ In a (map held_metadata responses) -> ws' a = None)).
Proof.
  split.
  - intros responses. apply node_hits_converted.
  - intros responses Hwf Hnd Hnames Hmd Haccept.
    destruct (@held_hits_converted env remove_embedding responses)
      as (out & ws' & E & Hlen & Hhits & Hrest); try assumption.
    { intros h Hin. destruct (Hwf h Hin) as (e & d & He & _). eauto. }
    exists out, ws'. split; [exact E |]. split; [exact Hlen |].
    split; [| exact Hrest].
    intros i h Hi.
    destruct (Hhits i h Hi) as (doc & e & e' & e'' & Hdoc & He & Hn & Hs & Hrest').
    destruct (Hwf h (nth_error_In _ _ Hi)) as (e0 & d & _ & Hd).
    exists doc, e, e', e'', d.
    rewrite (dict_get_find _ _ Hd) in Hs.
    repeat (split; [assumption |]). exact Hrest'.
Qed.

Lemma search_hits_to_documents_witness :
  (exists out,
     _convert_response_to_node_with_score Example.imports
       [ Example.hit_without_score; Example.hit_with_score ] true = Ok out
     /\ length out = 2%nat)
  /\ (exists out ws',
        _convert_response_to_document_in_place Example.imports
          Example.held_hits true = (Ok out, ws')
        /\ length out = 2%nat
        /\ ws' 2%nat = None).
Proof.
  destruct (@search_hits_to_documents Example.imports true) as [Hnode Hdoc].
  split.
  - destruct (Hnode [ Example.hit_without_score; Example.hit_with_score ])
      as (out & E & Hlen & _).
    + intros r [<- | [<- | []]]; eexists; eexists; split; reflexivity.
    + intros r e' _ _. exists e'. reflexivity.
    + intros r d [<- | [<- | []]] Hd; injection Hd as <-; eexists; reflexivity.
    + exists out. split; assumption.
  - destruct (Hdoc Example.held_hits) as (out & ws' & E & Hlen & _ & Hrest).
    + intros h [<- | [<- | []]]; eexists; eexists; split; reflexivity.
    + repeat constructor; cbn; intuition discriminate.
    + intros _. split; discriminate.
    + intros h e v [<- | [<- | []]] He Hv;
        injection He as <-; injection Hv as <-; eexists; reflexivity.
    + intros h e' e'' [<- | [<- | []]] E1 E2;
        injection E1 as <-; injection E2 as <-; eexists; reflexivity.
    + exists out, ws'. split; [exact E |]. split; [exact Hlen |].
      apply Hrest. cbn. intuition discriminate.
Defined.

(** C5 as stated fails for the document shape: a hit whose stored metadata
    already has a ["score"] keeps it, and the hit's distance goes nowhere. *)
Lemma stale_score_counterexample :
  dict_find Example.hit_with_score "distance" = Some (VFloat 0.75%float)
  /\ fst (_convert_response_to_document_in_place Example.imports
            [ mkHeldHit Example.hit_with_score 0 ] true)
     = Ok [ mkDocument None [ ("score", VFloat 0.25%float) ] "body" "Document" ]
  /\ VFloat 0.25%float <> VFloat 0.75%float.
Proof.
  split; [reflexivity |]. split; [reflexivity |].
  intros H.
  apply (f_equal (fun v => match v with
                           | VFloat f => PrimFloat.eqb f 0.25%float
                           | _ => false
                           end)) in H.
  cbv in H. discriminate H.
Qed.

(** ** Dense embedding backends *)

(** C8, as the code has it.  [_embed_texts] tests for the first framework's
    class only.  Any other model object, whether of the second framework or
    not, is called through [embed_documents]: the call's result is
    returned and the object is left as it was, and an object without that
    method fails with the attribute error of the call.  An instance of the
    first framework gets both attributes set and is called through its batch
    method. *)
Theorem embed_texts_dispatch (texts : list string) (batch_size num_workers : Z)
    (show_progress : bool) :
  (forall is_Embeddings embed_documents,
     _embed_texts texts (OtherModel is_Embeddings (Some embed_documents))
                  batch_size num_workers show_progress
     = (embed_documents texts, OtherModel is_Embeddings (Some embed_documents)))
  /\ (forall is_Embeddings,
        _embed_texts texts (OtherModel is_Embeddings None)
                     batch_size num_workers show_progress
        = (Raise (AttributeError "embed_documents"),
           OtherModel is_Embeddings None))
  /\ (forall m,
        _embed_texts texts (BaseEmbeddingObj m) batch_size num_workers
                     show_progress
        = (get_text_embedding_batch m num_workers batch_size texts
                                    show_progress,
           BaseEmbeddingObj
             (mkBaseEmbedding num_workers batch_size
                              (get_text_embedding_batch m)))).
Proof. repeat split. Qed.

(** C8 as stated fails: an object of neither framework that has an
    [embed_documents] method is called, and its vectors are returned. *)
Lemma unsupported_backend_counterexample :
  is_recognized_model Example.stranger = false
  /\ fst (_embed_texts [ "a"; "b" ] Example.stranger 8 2 true)
     = Ok [ [ 0%float ]; [ 0%float ] ].
Proof. split; reflexivity. Qed.

(** * Further properties *)

(** ** Sparse rows to dictionaries *)

Lemma sparse_find_set_same (d : SparseVector) (k : Z) (v : float) :
  sparse_find (sparse_set d k v) k = Some v.
Proof.
  induction d as [| [k' v'] d IH]; cbn.
  - rewrite Z.eqb_refl. reflexivity.
  - destruct (Z.eqb k' k) eqn:E; cbn; rewrite E; [reflexivity | exact IH].
Qed.

Lemma sparse_find_set_other (d : SparseVector) (k k' : Z) (v : float) :
  k' <> k -> sparse_find (sparse_set d k v) k' = sparse_find d k'.
Proof.
  intros Hne. induction d as [| [k0 v0] d IH]; cbn.
  - destruct (Z.eqb_spec k k'); [congruence | reflexivity].
  - destruct (Z.eqb_spec k0 k) as [-> | _]; cbn.
    + destruct (Z.eqb_spec k k'); [congruence | reflexivity].
    + rewrite IH. reflexivity.
Qed.

Lemma sparse_set_fresh (d : SparseVector) (k : Z) (v : float) :
  ~ In k (map fst d) -> sparse_set d k v = d ++ [(k, v)].
Proof.
  induction d as [| [k' v'] d IH]; cbn; intros H; [reflexivity |].
  destruct (Z.eqb_spec k' k) as [E | _]; [tauto |].
  rewrite IH by tauto. reflexivity.
Qed.

Lemma sparse_set_keys (d : SparseVector) (k x : Z) (v : float) :
  In x (map fst (sparse_set d k v)) -> x = k \/ In x (map fst d).
Proof.
  induction d as [| [k' v'] d IH]; cbn.
  - intros [<- | []]. auto.
  - destruct (Z.eqb k' k); cbn; tauto.
Qed.

Lemma sparse_set_nodup (d : SparseVector) (k : Z) (v : float) :
  NoDup (map fst d) -> NoDup (map fst (sparse_set d k v)).
Proof.
  induction d as [| [k' v'] d IH]; cbn; intros H.
  - constructor; [intros [] | constructor].
  - inversion H as [| ? ? Hnotin Hnodup]; subst.
    destruct (Z.eqb_spec k' k) as [-> | Hne]; cbn.
    + constructor; assumption.
    + constructor; [| auto].
      intros Hin. apply sparse_set_keys in Hin. destruct Hin; [congruence | tauto].
Qed.

Lemma fill_fresh (pairs : list (Z * float)) (acc : SparseVector) :
  NoDup (map fst acc ++ map fst pairs) ->
  fold_left (fun acc iv => sparse_set acc (fst iv) (snd iv)) pairs acc
  = acc ++ pairs.
Proof.
  revert acc. induction pairs as [| [k v] pairs IH]; intros acc H; cbn.
  - rewrite app_nil_r. reflexivity.
  - cbn in H. rewrite sparse_set_fresh.
    + rewrite IH.
      * rewrite <- app_assoc. reflexivity.
      * rewrite map_app. cbn. rewrite <- app_assoc. exact H.
    + apply NoDup_remove_2 in H. intros Hin. apply H.
      apply in_or_app. left. exact Hin.
Qed.

Lemma fill_lookup (pairs : list (Z * float)) (acc : SparseVector) (k : Z) :
  sparse_find
    (fold_left (fun acc iv => sparse_set acc (fst iv) (snd iv)) pairs acc) k
  = fold_left (fun found iv => if Z.eqb (fst iv) k then Some (snd iv) else found)
              pairs (sparse_find acc k).
Proof.
  revert acc. induction pairs as [| [k' v] pairs IH]; intros acc; cbn.
  - reflexivity.
  - rewrite IH. f_equal.
    destruct (Z.eqb_spec k' k) as [-> | Hne].
    + apply sparse_find_set_same.
    + apply sparse_find_set_other. congruence.
Qed.

Lemma fill_nodup (pairs : list (Z * float)) (acc : SparseVector) :
  NoDup (map fst acc) ->
  NoDup (map fst (fold_left (fun acc iv => sparse_set acc (fst iv) (snd iv))
                            pairs acc)).
Proof.
  revert acc. induction pairs as [| [k v] pairs IH]; intros acc H; cbn.
  - exact H.
  - apply IH, sparse_set_nodup, H.
Qed.

(** X1.  A row whose column indices are distinct is converted to exactly the
    pairs of its indices and values, in the order of the row; a pair beyond
    the shorter of the two arrays is dropped, and nothing else is (a stored
    zero stays). *)
Theorem csr_row_to_pairs (csr : csr_array) :
  NoDup (csr_indices csr) ->
  _convert_csr_array_to_dict csr = combine (csr_indices csr) (csr_data csr).
Proof.
  intros H. unfold _convert_csr_array_to_dict.
  rewrite fill_fresh; [reflexivity |]. cbn.
  revert H. generalize (csr_data csr).
  induction (csr_indices csr) as [| i rest IH]; intros ds H; cbn; [constructor |].
  destruct ds as [| d ds]; cbn; [constructor |].
  inversion H as [| ? ? Hnotin Hnodup]; subst.
  constructor; [| apply IH; exact Hnodup].
  intros Hin. apply Hnotin.
  apply in_map_iff in Hin. destruct Hin as [[i' d'] [E Hin]]. cbn in E. subst i'.
  apply in_combine_l in Hin. exact Hin.
Qed.

Lemma csr_row_to_pairs_witness :
  _convert_csr_array_to_dict
    (mkCsr [ 2%Z; 5%Z ] [ 0.25%float; 0.75%float ])
  = [ (2%Z, 0.25%float); (5%Z, 0.75%float) ].
Proof.
  apply (csr_row_to_pairs (mkCsr [ 2%Z; 5%Z ] [ 0.25%float; 0.75%float ])).
  cbn. repeat constructor; cbn; intuition discriminate.
Defined.

(** X2.  Whatever the row, the dictionary made of it has one entry per
    index, and the weight under an index is the one of the last pair of the
    row that carries that index: a repeated index overwrites, it does not
    add up. *)
Theorem csr_row_last_wins (csr : csr_array) :
  NoDup (map fst (_convert_csr_array_to_dict csr))
  /\ (forall k,
        sparse_find (_convert_csr_array_to_dict csr) k
        = last_weight (combine (csr_indices csr) (csr_data csr)) k).
Proof.
  unfold _convert_csr_array_to_dict, last_weight. split.
  - apply fill_nodup. constructor.
  - intros k. apply fill_lookup.
Qed.

(** ** Queries and sparse backends *)

Lemma mapM_ok_inv {A B : Type} (f : A -> result B) (xs : list A) (ys : list B) :
  mapM f xs = Ok ys -> Forall2 (fun x y => f x = Ok y) xs ys.
Proof.
  revert ys. induction xs as [| x xs IH]; intros ys H; cbn in H.
  - injection H as <-. constructor.
  - destruct (f x) as [y | e] eqn:Ey; cbn in H; [| discriminate H].
    destruct (mapM f xs) as [ys' | e]; cbn in H; [| discriminate H].
    injection H as <-. constructor; [exact Ey | apply IH; reflexivity].
Qed.

Lemma mapM_first_failure {A B : Type} (f : A -> result B) (pre : list A)
    (x : A) (rest : list A) (e : exn) :
  Forall (fun x' => exists y, f x' = Ok y) pre ->
  f x = Raise e ->
  mapM f (pre ++ x :: rest) = Raise e.
Proof.
  intros Hpre Hx. induction Hpre as [| x' pre [y Ey] _ IH]; cbn.
  - rewrite Hx. reflexivity.
  - rewrite Ey. cbn. rewrite IH. reflexivity.
Qed.

Lemma mapM_answers {A B : Type} (f : A -> result B) (xs : list A) (ys : list B) :
  Forall2 (fun x y => f x = Ok y) xs ys -> mapM f xs = Ok ys.
Proof.
  induction 1 as [| x y xs ys Ey _ IH]; cbn; [reflexivity |].
  rewrite Ey. cbn. rewrite IH. reflexivity.
Qed.

Lemma embed_query_per_query (queries : QueriesArg) (m : QueryModel) :
  _embed_query queries m = mapM (query_method m) (as_query_list queries).
Proof.
  unfold _embed_query. destruct m as [get | [embed |]]; reflexivity.
Qed.

(** X3.  [_embed_query] returns as soon as the model answers every query:
    its result is then the list of the answers, one vector per query, in
    the order of the queries, a lone string counting as a list of one.
    Conversely a result it returns is made of the model's answers; the
    exception of the first query that fails is the call's; and with no
    query at all it returns the empty list, even for an object that has no
    query method. *)
Theorem embed_query_aligned (queries : QueriesArg) (m : QueryModel) :
  (forall vs,
     Forall2 (fun query v => query_method m query = Ok v)
             (as_query_list queries) vs ->
     _embed_query queries m = Ok vs
     /\ length vs = length (as_query_list queries))
  /\ (forall out,
        _embed_query queries m = Ok out ->
        length out = length (as_query_list queries)
        /\ Forall2 (fun query v => query_method m query = Ok v)
                   (as_query_list queries) out)
  /\ (forall pre query rest e,
        as_query_list queries = pre ++ query :: rest ->
        Forall (fun q => exists v, query_method m q = Ok v) pre ->
        query_method m query = Raise e ->
        _embed_query queries m = Raise e)
  /\ (as_query_list queries = [] -> _embed_query queries m = Ok []).
Proof.
  rewrite embed_query_per_query. split; [| split; [| split]].
  - intros vs H. split; [apply mapM_answers; exact H |].
    symmetry. eapply Forall2_length. exact H.
  - intros out H. apply mapM_ok_inv in H.
    split; [symmetry; eapply Forall2_length; exact H | exact H].
  - intros pre query rest e -> Hpre Hq. apply mapM_first_failure; assumption.
  - intros ->. reflexivity.
Qed.

Lemma embed_query_aligned_witness :
  (_embed_query (ManyQueries [ "a"; "b" ])
                (OtherQuery (Some (fun q => Ok [ if String.eqb q "a"
                                                 then 1%float else 2%float ])))
   = Ok [ [ 1%float ]; [ 2%float ] ]
   /\ length [ [ 1%float ]; [ 2%float ] ]
      = length (as_query_list (ManyQueries [ "a"; "b" ])))
  /\ length [ [ 1%float ] ] = length (as_query_list (OneQuery "q"))
  /\ _embed_query (ManyQueries [ "a"; "b" ])
                  (BaseEmbeddingQuery
                     (fun q => if String.eqb q "b"
                               then Raise (ValueError "b") else Ok []))
     = Raise (ValueError "b")
  /\ _embed_query (ManyQueries []) (OtherQuery None) = Ok [].
Proof.
  split; [| split; [| split]].
  - apply (proj1 (embed_query_aligned (ManyQueries [ "a"; "b" ]) _)).
    repeat constructor.
  - apply (proj1 (proj2 (embed_query_aligned (OneQuery "q")
                           (OtherQuery (Some (fun _ => Ok [ 1%float ])))))).
    reflexivity.
  - apply (proj1 (proj2 (proj2 (embed_query_aligned (ManyQueries [ "a"; "b" ]) _)))
             [ "a" ] "b" []).
    + reflexivity.
    + constructor; [eexists; reflexivity | constructor].
    + reflexivity.
  - apply (proj2 (proj2 (proj2 (embed_query_aligned (ManyQueries [])
                                  (OtherQuery None))))).
    reflexivity.
Defined.

Lemma rows_to_vectors (rows : list csr_array) (i : nat) (row : csr_array) :
  nth_error rows i = Some row ->
  exists v,
    nth_error (map _convert_csr_array_to_dict rows) i = Some v
    /\ NoDup (map fst v)
    /\ (forall k, sparse_find v k
                  = last_weight (combine (csr_indices row) (csr_data row)) k).
Proof.
  intros H. exists (_convert_csr_array_to_dict row).
  split; [rewrite nth_error_map, H; reflexivity |].
  unfold _convert_csr_array_to_dict, last_weight. split.
  - apply fill_nodup. constructor.
  - intros k. apply fill_lookup.
Qed.

(** X4.  With a model of the second sparse library, both sparse methods
    return whenever the model returns its rows: one dictionary per row, in
    order, each with distinct indices and, under each index, the last weight
    its row has there; an exception of the model is the call's; a lone query
    string reaches the model as a list of one; and the batch size and the
    parallelism have no effect on the result. *)
Theorem splade_rows_converted
    (encode_documents encode_queries : list string -> result (list csr_array)) :
  let model := SpladeEmbeddingFunctionObj encode_documents encode_queries in
  (forall texts batch_size parallel rows,
     encode_documents texts = Ok rows ->
     exists out,
       _sparse_embed_texts texts model batch_size parallel = Ok out
       /\ length out = length rows
       /\ (forall i row,
             nth_error rows i = Some row ->
             exists v,
               nth_error out i = Some v
               /\ NoDup (map fst v)
               /\ (forall k, sparse_find v k
                             = last_weight (combine (csr_indices row)
                                                    (csr_data row)) k)))
  /\ (forall texts batch_size parallel e,
        encode_documents texts = Raise e ->
        _sparse_embed_texts texts model batch_size parallel = Raise e)
  /\ (forall query rows,
        encode_queries (as_query_list query) = Ok rows ->
        exists out,
          _sparse_embed_query query model = Ok out
          /\ length out = length rows
          /\ (forall i row,
                nth_error rows i = Some row ->
                exists v,
                  nth_error out i = Some v
                  /\ NoDup (map fst v)
                  /\ (forall k, sparse_find v k
                                = last_weight (combine (csr_indices row)
                                                       (csr_data row)) k)))
  /\ (forall query e,
        encode_queries (as_query_list query) = Raise e ->
        _sparse_embed_query query model = Raise e)
  /\ (forall texts batch_size parallel batch_size' parallel',
        _sparse_embed_texts texts model batch_size parallel
        = _sparse_embed_texts texts model batch_size' parallel').
Proof.
  cbn. split; [| split; [| split; [| split]]].
  - intros texts batch_size parallel rows ->. cbn.
    exists (map _convert_csr_array_to_dict rows). split; [reflexivity |].
    split; [apply length_map | intros i row; apply rows_to_vectors].
  - intros texts batch_size parallel e ->. reflexivity.
  - intros query rows ->. cbn.
    exists (map _convert_csr_array_to_dict rows). split; [reflexivity |].
    split; [apply length_map | intros i row; apply rows_to_vectors].
  - intros query e ->. reflexivity.
  - reflexivity.
Qed.

Lemma splade_rows_converted_witness :
  (exists out,
     _sparse_embed_texts [ "text" ]
       (SpladeEmbeddingFunctionObj
          (fun _ => Ok [ mkCsr [ 3%Z; 3%Z ] [ 0.5%float; 0.25%float ] ])
          (fun _ => Raise (ValueError "no query")))
       32%Z None
     = Ok out
     /\ length out = 1%nat)
  /\ _sparse_embed_query (OneQuery "q")
       (SpladeEmbeddingFunctionObj
          (fun _ => Ok [ mkCsr [ 3%Z; 3%Z ] [ 0.5%float; 0.25%float ] ])
          (fun _ => Raise (ValueError "no query")))
     = Raise (ValueError "no query").
Proof.
  split.
  - destruct (proj1 (@splade_rows_converted
                       (fun _ => Ok [ mkCsr [ 3%Z; 3%Z ] [ 0.5%float; 0.25%float ] ])
                       (fun _ => Raise (ValueError "no query")))
                    [ "text" ] 32%Z None
                    [ mkCsr [ 3%Z; 3%Z ] [ 0.5%float; 0.25%float ] ] eq_refl)
      as (out & E & Hlen & _).
    exists out. split; assumption.
  - apply (proj1 (proj2 (proj2 (proj2 (@splade_rows_converted
                       (fun _ => Ok [ mkCsr [ 3%Z; 3%Z ] [ 0.5%float; 0.25%float ] ])
                       (fun _ => Raise (ValueError "no query")))))) (OneQuery "q")).
    reflexivity.
Defined.

(** X5.  An object of neither sparse library is refused by both sparse
    methods with [NotImplementedError], before anything is asked of it and
    also when there is no text to embed; the dense query method, given an
    object without a query method, fails only once there is a query. *)
Theorem sparse_backend_refused (texts : list string) (batch_size : Z)
    (parallel : option Z) (query : QueriesArg) :
  _sparse_embed_texts texts OtherSparseModel batch_size parallel
  = Raise (NotImplementedError
             "This version only support FastEmbed SparseTextEmbedding!")
  /\ _sparse_embed_query query OtherSparseModel
     = Raise (NotImplementedError
                "Sparse embedding currently support Milvus/Fastembed!")
  /\ _embed_query query (OtherQuery None)
     = match as_query_list query with
       | [] => Ok []
       | _ :: _ => Raise (AttributeError "embed_query")
       end.
Proof.
  split; [reflexivity |]. split; [reflexivity |].
  unfold _embed_query. destruct (as_query_list query); reflexivity.
Qed.

(** ** The whole schema *)

Lemma get_datatype_ok_recognized (d : string) (dt : DataType) :
  _get_datatype d = Ok dt ->
  In d recognized_datatypes /\ is_dense_datatype dt = true.
Proof.
  intros H.
  destruct (in_dec string_dec d recognized_datatypes) as [Hin | Hnot].
  - split; [exact Hin |].
    destruct (get_datatype_recognized Hin) as [dt' [E Hd]]. congruence.
  - rewrite (get_datatype_unrecognized Hnot) in H. discriminate H.
Qed.

Ltac short_list l H :=
  destruct l as [| ? l]; [cbn in H; discriminate H |].

(** What a returned schema is made of. *)
Lemma schema_known (env : Imports) (document_type : string) (vector_dims : Z)
    (dense_datatype : string) (enable_sparse : bool) (schema : CollectionSchema) :
  _setup_collection_schema env document_type vector_dims dense_datatype
                           enable_sparse = Ok schema ->
  exists dt specific,
    _get_datatype dense_datatype = Ok dt
    /\ schema
       = mkSchema false
           ([ mkField (id_key env) VARCHAR true (Some 64%Z) None None None false;
              mkField (embedding_key env) dt false None (Some vector_dims)
                      None None false ]
            ++ (if enable_sparse
                then [ plain_field (sparse_key env) SPARSE_FLOAT_VECTOR ]
                else [])
            ++ [ mkField (type_key env) VARCHAR false (Some 16%Z) None None
                         None false ]
            ++ specific)
    /\ map field_name specific = shape_field_names env document_type
    /\ Forall payload_field specific
    /\ fields_needed env document_type.
Proof.
  unfold _setup_collection_schema, shape_field_names, fields_needed.
  intros H.
  destruct (_get_datatype dense_datatype) as [dt | e] eqn:Edt;
    [| discriminate H].
  exists dt. cbn in H.
  destruct (endswith document_type "Node") eqn:Enode.
  - remember (base_node_fields env) as l eqn:El. clear El.
    destruct enable_sparse; cbn in H;
      do 14 (short_list l H); cbn in H; injection H as <-;
      eexists; (split; [reflexivity |]); (split; [reflexivity |]);
      (split; [reflexivity |]);
      (split; [repeat constructor |]);
      (split; [intros _; cbn; lia | intros E; discriminate E]).
  - destruct (String.eqb_spec document_type "Document") as [Edoc | Hne].
    + remember (document_fields env) as l eqn:El. clear El.
      destruct enable_sparse; cbn in H;
        do 3 (short_list l H); cbn in H; injection H as <-;
        eexists; (split; [reflexivity |]); (split; [reflexivity |]);
        (split; [reflexivity |]);
        (split; [repeat constructor |]);
        (split; [intros E; discriminate E | intros _ _; cbn; lia]).
    + destruct enable_sparse; cbn in H; injection H as <-;
        exists []; (split; [reflexivity |]); (split; [reflexivity |]);
        (split; [reflexivity |]);
        (split; [constructor |]);
        (split; [intros E; discriminate E | intros _ E; contradiction]).
Qed.

Lemma filter_payload {f : FieldSchema -> bool} (fs : list FieldSchema) :
  Forall (fun x => f x = false) fs -> filter f fs = [].
Proof.
  induction 1 as [| x fs Hx _ IH]; cbn; [reflexivity |].
  rewrite Hx. exact IH.
Qed.

(** X6.  Every schema [_setup_collection_schema] returns has identifiers
    supplied by the caller ([auto_id] off) and exactly one primary-key
    field, the string field of 64 characters named after the primary key:
    no shape-specific field is a primary key or a vector. *)
Theorem schema_single_primary_key (env : Imports) (document_type : string)
    (vector_dims : Z) (dense_datatype : string) (enable_sparse : bool)
    (schema : CollectionSchema) :
  _setup_collection_schema env document_type vector_dims dense_datatype
                           enable_sparse = Ok schema ->
  auto_id schema = false
  /\ filter is_primary (fields schema)
     = [ mkField (id_key env) VARCHAR true (Some 64%Z) None None None false ]
  /\ length (filter (fun f => is_dense_datatype (datatype f)
                              || DataType_eqb (datatype f) SPARSE_FLOAT_VECTOR)
                    (fields schema))
     = (if enable_sparse then 2 else 1)%nat.
Proof.
  intros H.
  destruct (schema_known _ _ _ _ _ H) as (dt & specific & Edt & -> & _ & Hpay & _).
  destruct (get_datatype_ok_recognized _ Edt) as [_ Hdense].
  assert (Hprim : filter is_primary specific = []).
  { apply filter_payload. eapply Forall_impl; [| exact Hpay].
    intros f (Hp & _ & _). exact Hp. }
  assert (Hvec : filter (fun f => is_dense_datatype (datatype f)
                                  || DataType_eqb (datatype f) SPARSE_FLOAT_VECTOR)
                        specific = []).
  { apply filter_payload. eapply Forall_impl; [| exact Hpay].
    intros f (_ & Hd & Hs). rewrite Hd, Hs. reflexivity. }
  split; [reflexivity |].
  destruct enable_sparse; cbn; rewrite Hprim, Hvec, Hdense; cbn;
    split; reflexivity.
Qed.

Lemma schema_single_primary_key_witness :
  exists schema,
    _setup_collection_schema Example.imports "TextNode" 512 "FLOAT_VECTOR" true
    = Ok schema
    /\ length (filter is_primary (fields schema)) = 1%nat.
Proof.
  eexists. split; [reflexivity |].
  rewrite (proj1 (proj2 (@schema_single_primary_key Example.imports "TextNode"
                           512 "FLOAT_VECTOR" true _ eq_refl))).
  reflexivity.
Defined.

(** X7.  The fields of a returned schema are, in this order: the primary
    key, the dense vector, the sparse vector if enabled, the document type,
    then for a node type the twelve fields of the node class from the third
    on, for ["Document"] the second and third fields of the document class,
    and nothing for any other type. *)
Theorem schema_field_names (env : Imports) (document_type : string)
    (vector_dims : Z) (dense_datatype : string) (enable_sparse : bool)
    (schema : CollectionSchema) :
  _setup_collection_schema env document_type vector_dims dense_datatype
                           enable_sparse = Ok schema ->
  map field_name (fields schema)
  = [ id_key env; embedding_key env ]
    ++ (if enable_sparse then [ sparse_key env ] else [])
    ++ [ type_key env ]
    ++ shape_field_names env document_type.
Proof.
  intros H.
  destruct (schema_known _ _ _ _ _ H) as (dt & specific & _ & -> & Hnames & _).
  rewrite <- Hnames. destruct enable_sparse; reflexivity.
Qed.

Lemma schema_field_names_witness :
  exists schema,
    _setup_collection_schema Example.imports "Document" 512 "FLOAT_VECTOR" true
    = Ok schema
    /\ map field_name (fields schema)
       = [ "id_"; "embedding"; "sparse_embedding"; "class_name"; "metadata";
           "page_content" ].
Proof.
  eexists. split; [reflexivity |].
  apply (@schema_field_names Example.imports "Document" 512 "FLOAT_VECTOR" true).
  reflexivity.
Defined.

Ltac short_or_raise l :=
  destruct l as [| ? l]; [cbn in *; first [reflexivity | lia] |].

Lemma schema_returns (env : Imports) (document_type : string)
    (vector_dims : Z) (dense_datatype : string) (enable_sparse : bool) :
  In dense_datatype recognized_datatypes ->
  fields_needed env document_type ->
  exists schema,
    _setup_collection_schema env document_type vector_dims dense_datatype
                             enable_sparse = Ok schema.
Proof.
  intros Hdt [Hnode Hdoc].
  destruct (get_datatype_recognized Hdt) as [dt [Edt _]].
  unfold _setup_collection_schema. rewrite Edt. cbn.
  destruct (endswith document_type "Node") eqn:Enode; [| destruct
    (String.eqb_spec document_type "Document") as [Edoc | Hne]].
  - specialize (Hnode eq_refl).
    do_items (base_node_fields env)
             [2; 3; 4; 5; 6; 7; 8; 9; 10; 11; 12; 13]%nat.
    destruct enable_sparse; eexists; reflexivity.
  - specialize (Hdoc eq_refl Edoc).
    do_items (document_fields env) [1; 2]%nat.
    destruct enable_sparse; eexists; reflexivity.
  - destruct enable_sparse; eexists; reflexivity.
Qed.

(** X8.  For a recognized vector datatype, [_setup_collection_schema]
    returns a schema exactly when the framework class of the document type
    has the fields the module indexes (fourteen for a node type, three for
    ["Document"], none for another type); with fewer it raises [IndexError]
    and returns nothing. *)
Theorem schema_needs_framework_fields (env : Imports) (document_type : string)
    (vector_dims : Z) (dense_datatype : string) (enable_sparse : bool) :
  In dense_datatype recognized_datatypes ->
  (fields_needed env document_type ->
   exists schema,
     _setup_collection_schema env document_type vector_dims dense_datatype
                              enable_sparse = Ok schema)
  /\ (~ fields_needed env document_type ->
      _setup_collection_schema env document_type vector_dims dense_datatype
                               enable_sparse = Raise IndexError).
Proof.
  intros Hdt. split; [apply schema_returns; exact Hdt |].
  destruct (get_datatype_recognized Hdt) as [dt [Edt _]].
  unfold fields_needed, _setup_collection_schema. rewrite Edt. cbn.
  intros Hnot.
  destruct (endswith document_type "Node") eqn:Enode; [| destruct
    (String.eqb_spec document_type "Document") as [Edoc | Hne]].
  - assert (Hshort : (length (base_node_fields env) < 14)%nat).
    { destruct (Nat.lt_ge_cases (length (base_node_fields env)) 14)
        as [Hlt | Hge]; [exact Hlt |].
      exfalso. apply Hnot.
      split; [intros _; exact Hge | intros E; discriminate E]. }
    remember (base_node_fields env) as l eqn:El. clear El Hnot.
    destruct enable_sparse; cbn;
      do 14 (short_or_raise l); cbn in Hshort; lia.
  - assert (Hshort : (length (document_fields env) < 3)%nat).
    { destruct (Nat.lt_ge_cases (length (document_fields env)) 3)
        as [Hlt | Hge]; [exact Hlt |].
      exfalso. apply Hnot.
      split; [intros E; discriminate E | intros _ _; exact Hge]. }
    remember (document_fields env) as l eqn:El. clear El Hnot.
    destruct enable_sparse; cbn;
      do 3 (short_or_raise l); cbn in Hshort; lia.
  - exfalso. apply Hnot.
    split; [intros E; discriminate E | intros _ E; contradiction].
Qed.

Lemma schema_needs_framework_fields_witness :
  (exists schema,
     _setup_collection_schema Example.imports "TextNode" 512 "FLOAT_VECTOR"
                              false = Ok schema)
  /\ _setup_collection_schema
       (mkImports "id_" "embedding" "sparse_embedding" "class_name" []
                  [ "id_"; "embedding"; "metadata" ] []
                  (uuid4 Example.imports) (engine Example.imports)
                  (BaseNode_dict Example.imports)
                  (TextNode_from_dict Example.imports)
                  (Document_parse_obj Example.imports)
                  (validate_score Example.imports))
       "TextNode" 512 "FLOAT_VECTOR" false
     = Raise IndexError.
Proof.
  split.
  - apply (proj1 (@schema_needs_framework_fields Example.imports "TextNode" 512
                    "FLOAT_VECTOR" false (or_introl eq_refl))).
    split; [intros _; cbn; lia | intros E; discriminate E].
  - apply (proj2 (@schema_needs_framework_fields _ "TextNode" 512
                    "FLOAT_VECTOR" false (or_introl eq_refl))).
    intros [H _]. specialize (H eq_refl). cbn in H. lia.
Defined.

(** ** Index plans and collection creation *)

Lemma index_plan_total (env : Imports) (index_algo dense_search_metric : string)
    (params : option dict) (enable_sparse : bool) (sparse_index_type : string)
    (sparse_params : option dict) :
  exists plan,
    _setup_collection_index env index_algo dense_search_metric params
                            enable_sparse sparse_index_type sparse_params
    = Ok plan
    /\ has_sparse_index plan = enable_sparse.
Proof.
  unfold _setup_collection_index. cbn.
  destruct enable_sparse; cbn; eexists; split; reflexivity.
Qed.

(** X9.  [_setup_collection_index] never fails.  Its plan starts with the
    index ["unique_id"] on the primary key, which has no type, metric or
    parameters, followed by the dense index with the requested algorithm
    and metric and the caller's parameters, or [{"nlist": 128}] when none
    is given; with sparse disabled that is all, and no index is named
    ["sparse_representation"]. *)
Theorem index_plan_shape (env : Imports) (index_algo dense_search_metric : string)
    (params : option dict) (enable_sparse : bool) (sparse_index_type : string)
    (sparse_params : option dict) :
  exists plan,
    _setup_collection_index env index_algo dense_search_metric params
                            enable_sparse sparse_index_type sparse_params
    = Ok plan
    /\ firstn 2 plan
       = [ mkIndex (id_key env) "unique_id" None None None;
           mkIndex (embedding_key env) "dense_representation" (Some index_algo)
                   (Some dense_search_metric)
                   (Some (effective_dense_params params)) ]
    /\ length plan = (if enable_sparse then 3 else 2)%nat
    /\ has_sparse_index plan = enable_sparse.
Proof.
  unfold _setup_collection_index. cbn.
  destruct enable_sparse; cbn; eexists; repeat split.
Qed.

Lemma create_collection_run (env : Imports) (self : BaseVectorStore)
    (document_type : string) (dimension_nums : Z) (enable_sparse : bool)
    (w : world) (schema : CollectionSchema) (plan : IndexParams) :
  _setup_collection_schema env document_type dimension_nums
                           (_dense_datatype self) enable_sparse = Ok schema ->
  _setup_collection_index env (_index_algo self) (_dense_search_metrics self)
                          None enable_sparse "SPARSE_INVERTED_INDEX" None
  = Ok plan ->
  let create := CreateCollection (_collection_name self) schema plan in
  let state := GetLoadState (_collection_name self) in
  _create_collection env self document_type dimension_nums enable_sparse w
  = match engine env (log w) create with
    | Ok _ => (engine env (log w ++ [create]) state,
               after_calls w [create; state])
    | Raise e => (Raise e, after_calls w [create])
    end.
Proof.
  intros Hs Hp. unfold _create_collection, lift.
  cbn [bind M_monad]. rewrite Hs, Hp. cbn [bind M_monad].
  unfold invoke at 1, after_calls. cbn.
  destruct (engine env (log w) _); cbn; [| reflexivity].
  rewrite <- app_assoc. cbn.
  destruct (engine env _ _); reflexivity.
Qed.

(** X10.  When the instance's dense datatype is not one of the three
    recognized encodings, [_create_collection] raises the [ValueError] of
    [_get_datatype] and leaves the world as it found it: no call reaches the
    engine. *)
Theorem create_collection_bad_datatype (env : Imports) (self : BaseVectorStore)
    (document_type : string) (dimension_nums : Z) (enable_sparse : bool)
    (w : world) :
  ~ In (_dense_datatype self) recognized_datatypes ->
  _create_collection env self document_type dimension_nums enable_sparse w
  = (Raise (ValueError (datatype_message (_dense_datatype self))), w).
Proof.
  intros H. unfold _create_collection, _setup_collection_schema, lift.
  rewrite (get_datatype_unrecognized H). reflexivity.
Qed.

Lemma create_collection_bad_datatype_witness :
  _create_collection Example.imports
    (mkStore "c" "COSINE" "IVF_FLAT" "INT8_VECTOR" "http://localhost:19530")
    "Document" 512 false Example.empty_world
  = (Raise (ValueError
              "Dense data type: INT8_VECTOR is not compatible with dense vector field!"),
     Example.empty_world).
Proof.
  apply (@create_collection_bad_datatype Example.imports
           (mkStore "c" "COSINE" "IVF_FLAT" "INT8_VECTOR" "http://localhost:19530")
           "Document" 512 false Example.empty_world).
  cbn. intros [H | [H | [H | []]]]; discriminate H.
Defined.

(** X11.  When the schema can be built, [_create_collection] issues one
    create-collection call for the instance's collection, with a schema and
    an index plan that agree on the sparse field (both have it or neither
    does), then one load-state query whose answer it returns; if the engine
    refuses the creation, its error is the call's and no load state is
    queried. *)
Theorem create_collection_calls (env : Imports) (self : BaseVectorStore)
    (document_type : string) (dimension_nums : Z) (enable_sparse : bool)
    (w : world) :
  In (_dense_datatype self) recognized_datatypes ->
  fields_needed env document_type ->
  exists schema plan,
    has_sparse_field schema = enable_sparse
    /\ has_sparse_index plan = enable_sparse
    /\ (let create := CreateCollection (_collection_name self) schema plan in
        let state := GetLoadState (_collection_name self) in
        _create_collection env self document_type dimension_nums enable_sparse w
        = match engine env (log w) create with
          | Ok _ => (engine env (log w ++ [create]) state,
                     after_calls w [create; state])
          | Raise e => (Raise e, after_calls w [create])
          end).
Proof.
  intros Hdt Hfields.
  destruct (@schema_returns env document_type dimension_nums
              (_dense_datatype self) enable_sparse Hdt Hfields)
    as [schema Hs].
  destruct (index_plan_total env (_index_algo self) (_dense_search_metrics self)
              None enable_sparse "SPARSE_INVERTED_INDEX" None)
    as (plan & Hp & Hsparse).
  exists schema, plan.
  split; [| split; [exact Hsparse | apply create_collection_run; assumption]].
  destruct (schema_known _ _ _ _ _ Hs) as (dt & specific & Edt & -> & _ & Hpay & _).
  destruct (get_datatype_ok_recognized _ Edt) as [_ Hdense].
  unfold has_sparse_field. cbn [fields].
  assert (Hspec : existsb (fun f => DataType_eqb (datatype f) SPARSE_FLOAT_VECTOR)
                          specific = false).
  { clear - Hpay. induction Hpay as [| f fs (_ & _ & Hf) _ IH]; cbn;
      [reflexivity | rewrite Hf; exact IH]. }
  destruct enable_sparse; rewrite !existsb_app, Hspec;
    destruct dt; try discriminate Hdense; reflexivity.
Qed.

Lemma create_collection_calls_witness :
  fst (_create_collection Example.imports Example.store "Document" 512 true
                          Example.empty_world)
  = Ok (VDict [ ("state", VStr "Loaded") ]).
Proof.
  destruct (@create_collection_calls Example.imports Example.store "Document"
              512 true Example.empty_world)
    as (schema & plan & _ & _ & E).
  - cbn. auto.
  - split; [intros E; discriminate E | intros _ _; cbn; lia].
  - cbn zeta in E. rewrite E. reflexivity.
Defined.

(** ** Records and their way back *)

Lemma eqb_false (a b : string) : a <> b -> String.eqb a b = false.
Proof. intros H. apply String.eqb_neq. exact H. Qed.

(** The record of a document, entry by entry. *)
Lemma renamed_document (env : Imports) (doc : Document) (v : value) :
  keys_renamed env -> payload_kept env ->
  renamed env (Document_dict doc) v = record_of env doc v.
Proof.
  intros (H1 & H2 & H3 & H4 & H5) (H6 & H7 & H8 & H9).
  unfold renamed, record_of, Document_dict, dict_get.
  cbn [dict_set dict_remove dict_find].
  rewrite !(@eqb_false _ (id_key env)) by congruence.
  cbn [dict_set dict_remove dict_find].
  rewrite !(@eqb_false _ (type_key env)) by congruence.
  cbn [dict_set dict_remove dict_find].
  reflexivity.
Qed.

Lemma plain_batch_run (env : Imports) (docs : list Document) (w : world) :
  docs <> [] ->
  keys_renamed env ->
  _convert_upsert_data env (map DocumentObj docs) w
  = (Ok (records_from env (drawn w) (map Document_dict docs)),
     mkWorld (nodes w) (infos w) (drawn w + without_id docs) (log w)).
Proof.
  intros Hne Hkeys. unfold _convert_upsert_data.
  destruct docs as [| d0 docs']; [contradiction |].
  cbn [map getitem nth_error lift bind M_monad is_BaseNode].
  change (DocumentObj d0 :: map DocumentObj docs')
    with (map DocumentObj (d0 :: docs')).
  rewrite dicts_of_documents.
  rewrite (rename_batch Hkeys w (document_generic_keys (d0 :: docs'))).
  rewrite count_missing_documents. reflexivity.
Qed.

Lemma plain_record_at (env : Imports) (docs : list Document) (n i : nat)
    (doc : Document) :
  keys_renamed env -> payload_kept env ->
  nth_error docs i = Some doc ->
  nth_error (records_from env n (map Document_dict docs)) i
  = Some (record_of env doc
            (identifier_at env n (map Document_dict docs) i (Document_dict doc))).
Proof.
  intros Hkeys Hpay Hdoc.
  rewrite (records_from_nth env n (map Document_dict docs) i
             (d := Document_dict doc))
    by (rewrite nth_error_map, Hdoc; reflexivity).
  rewrite renamed_document by assumption. reflexivity.
Qed.

(** X12.  The record of a document of the second framework has exactly four
    entries, in this order: its metadata, its page content, the identifier
    under the primary key and its type under the document-type field; the
    identifier is the document's own when it has one. *)
Theorem plain_record_content (env : Imports) (docs : list Document) (w : world) :
  docs <> [] ->
  keys_renamed env ->
  payload_kept env ->
  exists records,
    fst (_convert_upsert_data env (map DocumentObj docs) w) = Ok records
    /\ (forall i doc,
          nth_error docs i = Some doc ->
          exists identifier,
            nth_error records i = Some (record_of env doc identifier)
            /\ (forall s, doc_id doc = Some s -> identifier = VStr s)).
Proof.
  intros Hne Hkeys Hpay.
  exists (records_from env (drawn w) (map Document_dict docs)).
  rewrite (plain_batch_run w Hne Hkeys). split; [reflexivity |].
  intros i doc Hdoc. eexists. split.
  - apply plain_record_at; assumption.
  - intros s Hs. unfold identifier_at.
    rewrite lacks_id_document, Hs. unfold dict_get. cbn. rewrite Hs. reflexivity.
Qed.

Lemma example_payload_kept : payload_kept Example.imports.
Proof. unfold payload_kept. cbn. repeat split; discriminate. Defined.

Lemma plain_record_content_witness :
  exists records,
    fst (_convert_upsert_data Example.imports
           (map DocumentObj [ mkDocument (Some "a1") [] "body" "Document" ])
           Example.empty_world)
    = Ok records.
Proof.
  destruct (@plain_record_content Example.imports
              [ mkDocument (Some "a1") [] "body" "Document" ]
              Example.empty_world)
    as (records & E & _).
  - discriminate.
  - exact example_keys_renamed.
  - exact example_payload_kept.
  - exists records. exact E.
Defined.

Lemma entity_of_ok_inv (env : Imports) (response e' : dict) (remove : bool) :
  entity_of env response remove = Ok e' ->
  exists e, dict_find response "entity" = Some (VDict e)
            /\ nulled env remove e e'.
Proof.
  intros H. unfold entity_of, dict_getitem in H.
  destruct (dict_find response "entity") as [v |] eqn:Ev; [| discriminate H].
  destruct v; try discriminate H.
  exists entries. split; [reflexivity |].
  destruct (entity_of_nulled env response remove Ev) as (e2 & E2 & Hn).
  unfold entity_of, dict_getitem in E2. rewrite Ev in E2.
  assert (e2 = e') by congruence. subst e2. exact Hn.
Qed.

Lemma add_score_ok_scored (e e' : dict) (distance : value) :
  add_score e distance = Ok e' -> scored distance e e'.
Proof.
  intros H.
  assert (Hmd : forall v, dict_find e "metadata" = Some v ->
                          exists md, v = VDict md).
  { intros v Hv. unfold add_score, dict_setdefault in H. rewrite Hv in H.
    destruct v; try discriminate H. eauto. }
  destruct (add_score_scored e distance Hmd) as (e2 & E2 & Hs).
  assert (e2 = e') by congruence. subst e2. exact Hs.
Qed.

Lemma convert_hit_inv (env : Imports) (remove : bool) (r : dict) (doc : Document) :
  convert_hit env remove r = Ok doc ->
  exists e e' e'',
    dict_find r "entity" = Some (VDict e)
    /\ nulled env remove e e'
    /\ scored (dict_get r "distance") e' e''
    /\ Document_parse_obj env e'' = Ok doc.
Proof.
  unfold convert_hit. intros H.
  destruct (entity_of env r remove) as [e' |] eqn:E1; [| discriminate H].
  cbn in H.
  destruct (add_score e' (dict_get r "distance")) as [e'' |] eqn:E2;
    [| discriminate H].
  cbn in H.
  destruct (entity_of_ok_inv _ _ _ E1) as (e & He & Hn).
  exists e, e', e''.
  split; [exact He |]. split; [exact Hn |].
  split; [apply add_score_ok_scored; exact E2 | exact H].
Qed.

Lemma nth_error_combine {A B : Type} (xs : list A) (ys : list B) (i : nat)
    (x : A) (y : B) :
  nth_error xs i = Some x -> nth_error ys i = Some y ->
  nth_error (combine xs ys) i = Some (x, y).
Proof.
  revert ys i. induction xs as [| x0 xs IH]; intros ys i Hx Hy.
  - destruct i; discriminate Hx.
  - destruct ys as [| y0 ys]; [destruct i; discriminate Hy |].
    destruct i as [| i]; cbn in *.
    + congruence.
    + apply IH; assumption.
Qed.

(** X13.  Round trip.  Convert a batch of documents of the second framework
    to records, take the records as search hits at some distances, and
    convert them back: when the conversion returns, it returns as many
    documents as went in, in order, and each was built from a dictionary
    holding the original page content and the original metadata, to which
    the hit's distance was added under ["score"] unless the metadata had a
    ["score"] already. *)
Theorem documents_round_trip (env : Imports) (docs : list Document) (w : world)
    (records : list dict) (distances : list value) (remove_embedding : bool)
    (out : list Document) :
  docs <> [] ->
  keys_renamed env -> payload_kept env -> vectors_apart env ->
  fst (_convert_upsert_data env (map DocumentObj docs) w) = Ok records ->
  length distances = length records ->
  _convert_response_to_document env
    (map (fun rd => hit_of (fst rd) (snd rd)) (combine records distances))
    remove_embedding
  = Ok out ->
  length out = length docs
  /\ (forall i doc,
        nth_error docs i = Some doc ->
        exists d handed o md,
          nth_error distances i = Some d
          /\ nth_error out i = Some o
          /\ Document_parse_obj env handed = Ok o
          /\ dict_find handed "page_content"
             = Some (VStr (doc_page_content doc))
          /\ dict_find handed "metadata" = Some (VDict md)
          /\ (forall k, k <> "score" ->
                        dict_find md k = dict_find (doc_metadata doc) k)
          /\ dict_find md "score"
             = Some (match dict_find (doc_metadata doc) "score" with
                     | Some old => old
                     | None => d
                     end)).
Proof.
  intros Hne Hkeys Hpay Hvec Hrec Hlen Hout.
  rewrite (plain_batch_run w Hne Hkeys) in Hrec. cbn [fst] in Hrec.
  injection Hrec as <-.
  rewrite document_conversion_per_hit in Hout. apply mapM_ok_inv in Hout.
  rewrite records_from_length, length_map in Hlen.
  split.
  - rewrite <- (Forall2_length Hout), length_map, length_combine,
      records_from_length, length_map, Hlen. apply Nat.min_id.
  - intros i doc Hdoc.
    assert (Hd : exists d, nth_error distances i = Some d).
    { destruct (nth_error distances i) as [d |] eqn:E; [eauto |].
      apply nth_error_None in E.
      assert (i < length docs)%nat by (apply nth_error_Some; congruence). lia. }
    destruct Hd as [d Hd].
    pose proof (@plain_record_at env docs (drawn w) i doc Hkeys Hpay Hdoc) as Hr.
    set (identifier := identifier_at env (drawn w) (map Document_dict docs) i
                                     (Document_dict doc)) in Hr.
    assert (Hhit : nth_error
                     (map (fun rd => hit_of (fst rd) (snd rd))
                          (combine (records_from env (drawn w)
                                      (map Document_dict docs)) distances)) i
                   = Some (hit_of (record_of env doc identifier) d)).
    { rewrite nth_error_map, (nth_error_combine _ _ i Hr Hd). reflexivity. }
    destruct (Forall2_nth_error i Hout Hhit) as (o & Ho & Eo).
    destruct (convert_hit_inv _ _ _ Eo) as (e & e' & e'' & He & Hn & Hs & Hp).
    cbn in He. injection He as <-.
    change (dict_get (hit_of (record_of env doc identifier) d) "distance")
      with d in Hs.
    destruct Hn as [_ Hsame].
    assert (Hk : forall k, In k [ "metadata"; "page_content" ] ->
                           dict_find e' k
                           = dict_find (record_of env doc identifier) k).
    { intros k Hin. apply Hsame. intros _. apply Hvec.
      cbn in *. tauto. }
    destruct Hs as (md & md' & Hmd & Hmd' & Hscore & Hothers & Hrest).
    rewrite (Hk "metadata") in Hmd by (cbn; auto).
    assert (md = doc_metadata doc).
    { cbn in Hmd. destruct Hmd as [E | [E _]]; [congruence | discriminate E]. }
    subst md.
    exists d, e'', o, md'.
    split; [exact Hd |]. split; [exact Ho |]. split; [exact Hp |].
    split; [| split; [exact Hmd' | split; [exact Hothers | exact Hscore]]].
    rewrite Hrest by discriminate. rewrite (Hk "page_content") by (cbn; auto).
    reflexivity.
Qed.

Lemma example_vectors_apart : vectors_apart Example.imports.
Proof.
  intros k Hin. cbn in Hin.
  destruct Hin as [<- | [<- | [<- | [<- | []]]]]; split; discriminate.
Defined.

Lemma documents_round_trip_witness :
  length [ mkDocument None [ ("score", VFloat 0.75%float) ] "body" "Document" ]
  = length [ mkDocument (Some "a1") [] "body" "Document" ].
Proof.
  apply (@documents_round_trip Example.imports
           [ mkDocument (Some "a1") [] "body" "Document" ]
           Example.empty_world
           [ [ ("metadata", VDict []); ("page_content", VStr "body");
               ("id_", VStr "a1"); ("class_name", VStr "Document") ] ]
           [ VFloat 0.75%float ] true).
  - discriminate.
  - exact example_keys_renamed.
  - exact example_payload_kept.
  - exact example_vectors_apart.
  - reflexivity.
  - reflexivity.
  - reflexivity.
Defined.

(** ** Hits that lack a key *)

(** X14.  The document conversion does not refuse a hit without a
    ["distance"] key.  For hits that have an entity mapping and hold
    different metadata mappings, the constructor accepting what it is
    handed, the call returns one document per hit, and the document of a
    hit without a distance has [None] under ["score"] in its metadata,
    unless the metadata had a ["score"] already. *)
Theorem document_hits_without_distance (env : Imports)
    (responses : list HeldHit) (remove_embedding : bool) :
  (forall h, In h responses ->
             exists e, dict_find (held_value h) "entity" = Some (VDict e)) ->
  NoDup (map held_metadata responses) ->
  (remove_embedding = true ->
   "metadata" <> embedding_key env /\ "metadata" <> sparse_key env) ->
  (forall h e v, In h responses ->
                 dict_find (held_value h) "entity" = Some (VDict e) ->
                 dict_find e "metadata" = Some v -> exists md, v = VDict md) ->
  (forall h e' e'', In h responses ->
                    entity_of env (held_value h) remove_embedding = Ok e' ->
                    add_score e' (dict_get (held_value h) "distance") = Ok e'' ->
                    exists doc, Document_parse_obj env e'' = Ok doc) ->
  exists out ws',
    _convert_response_to_document_in_place env responses remove_embedding
    = (Ok out, ws')
    /\ length out = length responses
    /\ (forall i h,
          nth_error responses i = Some h ->
          dict_find (held_value h) "distance" = None ->
          exists doc e e' e'',
            nth_error out i = Some doc
            /\ dict_find (held_value h) "entity" = Some (VDict e)
            /\ nulled env remove_embedding e e'
            /\ scored VNone e' e''
            /\ Document_parse_obj env e'' = Ok doc).
Proof.
  intros Hent Hnd Hnames Hmd Haccept.
  destruct (@held_hits_converted env remove_embedding responses
              Hent Hnd Hnames Hmd Haccept)
    as (out & ws' & E & Hlen & Hhits & _).
  exists out, ws'. split; [exact E |]. split; [exact Hlen |].
  intros i h Hi Hnone.
  destruct (Hhits i h Hi) as (doc & e & e' & e'' & Hdoc & He & Hn & Hs & Hp & _).
  exists doc, e, e', e''.
  unfold dict_get in Hs. rewrite Hnone in Hs.
  repeat (split; [assumption |]). exact Hp.
Qed.

Lemma document_hits_without_distance_witness :
  exists out ws',
    _convert_response_to_document_in_place Example.imports
      [ mkHeldHit [ ("entity", VDict [ ("page_content", VStr "body") ]) ] 0 ]
      true
    = (Ok out, ws')
    /\ length out = 1%nat.
Proof.
  destruct (@document_hits_without_distance Example.imports
              [ mkHeldHit [ ("entity", VDict [ ("page_content", VStr "body") ]) ]
                          0 ]
              true)
    as (out & ws' & E & Hlen & _).
  - intros h [<- | []]. eexists. reflexivity.
  - repeat constructor. intros [].
  - intros _. split; discriminate.
  - intros h e v [<- | []] He Hv. injection He as <-. discriminate Hv.
  - intros h e' e'' [<- | []] E1 E2.
    injection E1 as <-. injection E2 as <-. eexists. reflexivity.
  - exists out, ws'. split; assumption.
Defined.

Lemma node_conversion_stages (env : Imports) (responses : list dict)
    (remove_embedding : bool) :
  _convert_response_to_node_with_score env responses remove_embedding
  = (results <- mapM (fun r => entity_of env r remove_embedding) responses ;;
     text_nodes <- mapM (TextNode_from_dict env) results ;;
     mapM (fun i =>
             n <- getitem text_nodes i ;;
             r <- getitem responses i ;;
             s <- dict_getitem r "distance" ;;
             NodeWithScore_new env n s)
          (seq 0 (length responses))).
Proof.
  unfold _convert_response_to_node_with_score. rewrite foldM_append.
  destruct (mapM (fun r => entity_of env r remove_embedding) responses);
    reflexivity.
Qed.

(** X15.  The node conversion reads the entity of every hit before it
    builds any node: a hit without an ["entity"] key, all hits before it
    having an entity mapping, makes the call raise [KeyError] for that key,
    whatever the framework's constructor would have done with the earlier
    hits. *)
Theorem node_hit_without_entity (env : Imports) (pre : list dict) (r : dict)
    (rest : list dict) (remove_embedding : bool) :
  Forall (fun r' => exists e, dict_find r' "entity" = Some (VDict e)) pre ->
  dict_find r "entity" = None ->
  _convert_response_to_node_with_score env (pre ++ r :: rest) remove_embedding
  = Raise (KeyError "entity").
Proof.
  intros Hpre Hr. rewrite node_conversion_stages.
  rewrite (@mapM_first_failure _ _ (fun r => entity_of env r remove_embedding)
             pre r rest (KeyError "entity")).
  - reflexivity.
  - eapply Forall_impl; [| exact Hpre].
    intros r' [e He].
    destruct (entity_of_nulled env r' remove_embedding He) as (e' & E & _).
    eauto.
  - unfold entity_of, dict_getitem. rewrite Hr. reflexivity.
Qed.

Lemma node_hit_without_entity_witness :
  _convert_response_to_node_with_score Example.imports
    ([ Example.hit_without_score ] ++ [ ("distance", VFloat 0.5%float) ] :: [])
    true
  = Raise (KeyError "entity").
Proof.
  apply (@node_hit_without_entity Example.imports
           [ Example.hit_without_score ] [ ("distance", VFloat 0.5%float) ] []
           true).
  - constructor; [eexists; reflexivity | constructor].
  - reflexivity.
Defined.

(** The wrapping stage of the node conversion fails at the first hit whose
    distance is missing or refused by the wrapper. *)
Lemma node_wrapping_fails (env : Imports) (pre : list dict) (r : dict)
    (rest : list dict) (remove_embedding : bool) (failure : exn) :
  (forall r', In r' (pre ++ r :: rest) ->
              exists e, dict_find r' "entity" = Some (VDict e)) ->
  (forall r' e', In r' (pre ++ r :: rest) ->
                 entity_of env r' remove_embedding = Ok e' ->
                 exists n, TextNode_from_dict env e' = Ok n) ->
  Forall (fun r' => exists d s, dict_find r' "distance" = Some d
                                /\ validate_score env d = Ok s) pre ->
  (d <- dict_getitem r "distance" ;; validate_score env d) = Raise failure ->
  _convert_response_to_node_with_score env (pre ++ r :: rest) remove_embedding
  = Raise failure.
Proof.
  intros Hent Haccept Hpre Hr.
  set (responses := pre ++ r :: rest) in *.
  destruct (mapM_all_ok (fun r => entity_of env r remove_embedding) responses)
    as (es & Ees & Hes).
  { intros r' Hr'. destruct (Hent r' Hr') as [e He].
    destruct (entity_of_nulled env r' remove_embedding He) as (e' & E & _). eauto. }
  destruct (mapM_all_ok (TextNode_from_dict env) es) as (ns & Ens & Hns).
  { intros e' He'. apply In_nth_error in He'. destruct He' as [i Hi].
    destruct (nth_error responses i) as [r' |] eqn:Er.
    - destruct (Forall2_nth_error i Hes Er) as (e'' & Hi' & E).
      assert (e'' = e') by congruence. subst e''.
      apply (Haccept r' e'); [eapply nth_error_In; eauto | exact E].
    - apply nth_error_None in Er.
      assert (i < length es)%nat by (apply nth_error_Some; congruence).
      rewrite (Forall2_length Hes) in Er. lia. }
  assert (Hlen : length ns = length responses).
  { rewrite <- (Forall2_length Hns). symmetry. eapply Forall2_length; eauto. }
  rewrite node_conversion_stages, Ees. cbn [bind result_monad].
  rewrite Ens. cbn [bind result_monad].
  assert (Hseq : seq 0 (length responses)
                 = seq 0 (length pre) ++ length pre
                   :: seq (S (length pre)) (length rest)).
  { unfold responses. rewrite length_app. cbn [length].
    rewrite seq_app. reflexivity. }
  rewrite Hseq. apply mapM_first_failure.
  - apply Forall_forall. intros i Hi. apply in_seq in Hi.
    assert (Hin : (i < length ns)%nat)
      by (rewrite Hlen; unfold responses; rewrite length_app; lia).
    destruct (nth_error ns i) as [n |] eqn:En;
      [| apply nth_error_None in En; lia].
    destruct (nth_error pre i) as [r' |] eqn:Er;
      [| apply nth_error_None in Er; lia].
    assert (Hd : exists d sc, dict_find r' "distance" = Some d
                              /\ validate_score env d = Ok sc).
    { rewrite Forall_forall in Hpre. apply Hpre. eapply nth_error_In; eauto. }
    destruct Hd as (d & sc & Hd & Hsc).
    exists (mkNodeWithScore env n sc).
    unfold getitem, dict_getitem, responses.
    rewrite En, nth_error_app1, Er by lia. cbn. rewrite Hd.
    unfold NodeWithScore_new. rewrite Hsc. reflexivity.
  - assert (Hin : (length pre < length ns)%nat)
      by (rewrite Hlen; unfold responses; rewrite length_app; cbn; lia).
    destruct (nth_error ns (length pre)) as [n |] eqn:En;
      [| apply nth_error_None in En; lia].
    unfold getitem, responses.
    rewrite En, nth_error_app2, Nat.sub_diag by lia.
    cbn [nth_error bind result_monad].
    destruct (dict_getitem r "distance") as [d | err];
      cbn [bind result_monad] in Hr |- *;
      [| injection Hr as ->; reflexivity].
    unfold NodeWithScore_new. rewrite Hr. reflexivity.
Qed.


(** X16.  In the node conversion a hit without a ["distance"] key makes the
    call raise [KeyError] for that key, but only after every entity has
    been read, every node built and the hits before it wrapped: the hits
    all having an entity mapping that the node constructor accepts, the
    hits before the faulty one having a distance that the wrapper
    accepts. *)
Theorem node_hit_without_distance (env : Imports) (pre : list dict) (r : dict)
    (rest : list dict) (remove_embedding : bool) :
  (forall r', In r' (pre ++ r :: rest) ->
              exists e, dict_find r' "entity" = Some (VDict e)) ->
  (forall r' e', In r' (pre ++ r :: rest) ->
                 entity_of env r' remove_embedding = Ok e' ->
                 exists n, TextNode_from_dict env e' = Ok n) ->
  Forall (fun r' => exists d s, dict_find r' "distance" = Some d
                                /\ validate_score env d = Ok s) pre ->
  dict_find r "distance" = None ->
  _convert_response_to_node_with_score env (pre ++ r :: rest) remove_embedding
  = Raise (KeyError "distance").
Proof.
  intros Hent Haccept Hpre Hr.
  apply node_wrapping_fails; try assumption.
  unfold dict_getitem. rewrite Hr. reflexivity.
Qed.

Lemma node_hit_without_distance_witness :
  _convert_response_to_node_with_score Example.imports
    ([ Example.hit_without_score ]
     ++ [ ("entity", VDict [ ("text", VStr "t") ]) ] :: [])
    true
  = Raise (KeyError "distance").
Proof.
  apply (@node_hit_without_distance Example.imports
           [ Example.hit_without_score ]
           [ ("entity", VDict [ ("text", VStr "t") ]) ] [] true).
  - intros r' [<- | [<- | []]]; eexists; reflexivity.
  - intros r' e' _ _. exists e'. reflexivity.
  - constructor; [eexists; eexists; split; reflexivity | constructor].
  - reflexivity.
Defined.

(** ** Dimension validation, further *)

(** X17.  Whatever the engine answers, [_verify_collection_dimension]
    issues exactly one call, the description of the named collection, and
    changes nothing else; when the engine raises, its exception is the
    call's; otherwise the outcome depends on the description and the
    runtime dimension alone. *)
Theorem verify_dimension_one_call (env : Imports) (self : BaseVectorStore)
    (collection_name : string) (embedding_dimension : Z) (w : world) :
  snd (_verify_collection_dimension env self collection_name
                                    embedding_dimension w)
  = after_calls w [ DescribeCollection collection_name ]
  /\ fst (_verify_collection_dimension env self collection_name
                                       embedding_dimension w)
     = match engine env (log w) (DescribeCollection collection_name) with
       | Ok stats => check_dimension env stats embedding_dimension
       | Raise e => Raise e
       end.
Proof.
  unfold _verify_collection_dimension, invoke, lift, after_calls. cbn.
  destruct (engine env (log w) (DescribeCollection collection_name));
    split; reflexivity.
Qed.

(** X18.  A description whose dense field declares a boolean under ["dim"]
    is not refused as non-integer: [True] counts as 1 and [False] as 0, so
    the validation passes for a runtime dimension of that value, and for
    any other it raises the mismatch error, which prints the boolean. *)
Theorem boolean_dimension_accepted (env : Imports) (self : BaseVectorStore)
    (collection_name : string) (embedding_dimension : Z) (w : world)
    (stats : value) (b : bool) :
  engine env (log w) (DescribeCollection collection_name) = Ok stats ->
  declares env stats (VBool b) ->
  fst (_verify_collection_dimension env self collection_name
                                    embedding_dimension w)
  = if Z.eqb embedding_dimension (if b then 1 else 0)
    then Ok tt
    else Raise (ValueError
                  ("Embed dimension (" ++ str_of_Z embedding_dimension
                   ++ ") is differ with default collection dimension ("
                   ++ (if b then "True" else "False") ++ ")")).
Proof.
  intros Hengine Hdecl.
  transitivity (check_dimension env stats embedding_dimension).
  - unfold _verify_collection_dimension, invoke, lift. cbn.
    rewrite Hengine. reflexivity.
  - rewrite (check_dimension_declared (n := if b then 1%Z else 0%Z)
               embedding_dimension Hdecl)
      by (destruct b; reflexivity).
    destruct b; reflexivity.
Qed.

Lemma boolean_dimension_accepted_witness :
  fst (_verify_collection_dimension
         (mkImports "id_" "embedding" "sparse_embedding" "class_name" [] [] []
                    (uuid4 Example.imports)
                    (fun _ _ => Ok (Example.description (VBool true)))
                    (BaseNode_dict Example.imports)
                    (TextNode_from_dict Example.imports)
                    (Document_parse_obj Example.imports)
                    (validate_score Example.imports))
         Example.store "c" 1 Example.empty_world)
  = Ok tt.
Proof.
  apply (@boolean_dimension_accepted
           (mkImports "id_" "embedding" "sparse_embedding" "class_name" [] [] []
                      (uuid4 Example.imports)
                      (fun _ _ => Ok (Example.description (VBool true)))
                      (BaseNode_dict Example.imports)
                      (TextNode_from_dict Example.imports)
                      (Document_parse_obj Example.imports)
                      (validate_score Example.imports))
           Example.store "c" 1 Example.empty_world
           (Example.description (VBool true)) true eq_refl).
  apply declares_intro
    with (field := [ ("name", VStr "embedding");
                     ("params", VDict [ ("dim", VBool true) ]) ])
         (params := [ ("dim", VBool true) ]);
    [| reflexivity | reflexivity].
  apply dense_field_intro
    with (before := [ VDict [ ("name", VStr "id_"); ("params", VDict []) ] ])
         (rest := []); [reflexivity | | constructor | reflexivity].
  constructor; [| constructor].
  eexists. split; reflexivity.
Defined.

(** ** Batches that cannot be converted *)

(** X19.  An empty batch of documents is refused with [IndexError], the
    world untouched, whereas an empty list of hits is converted to the empty
    list by both conversions. *)
Theorem empty_inputs (env : Imports) (w : world) (remove_embedding : bool) :
  _convert_upsert_data env [] w = (Raise IndexError, w)
  /\ _convert_response_to_node_with_score env [] remove_embedding = Ok []
  /\ _convert_response_to_document env [] remove_embedding = Ok [].
Proof. repeat split. Qed.

(** X20.  An object that is not a node and whose [dict()] has no ["id"] key
    gets an identifier drawn for it and then makes the conversion raise
    [KeyError] for ["id"]; with an ["id"] but no ["type"] key the error is
    for ["type"], and an identifier has been drawn if the ["id"] was
    [None]. *)
Theorem missing_generic_key (env : Imports) (d : dict) (w : world) :
  keys_renamed env ->
  (dict_find d "id" = None ->
   _convert_upsert_data env [ OtherObject (Some d) ] w
   = (Raise (KeyError "id"), bump w))
  /\ (forall i,
        dict_find d "id" = Some i -> dict_find d "type" = None ->
        _convert_upsert_data env [ OtherObject (Some d) ] w
        = (Raise (KeyError "type"), if is_none i then bump w else w)).
Proof.
  intros Hkeys.
  pose proof (literal_two_keys Hkeys) as Hlit.
  destruct Hkeys as (H1 & H2 & H3 & H4 & H5).
  unfold _convert_upsert_data, rename_keys. split.
  - intros Hid.
    cbn [getitem nth_error lift bind M_monad is_BaseNode mapM obj_dict ret].
    unfold dict_get at 1. rewrite Hid.
    cbn [is_none negb default_keys getitem nth_error str_uuid4 bind M_monad ret].
    rewrite Hlit. unfold dict_update, dict_pop. cbn [fold_left fst snd].
    rewrite !DictFacts.find_set_other, Hid by congruence. reflexivity.
  - intros i Hid Htype.
    cbn [getitem nth_error lift bind M_monad is_BaseNode mapM obj_dict ret].
    unfold dict_get at 1. rewrite Hid.
    destruct (is_none i);
      cbn [negb default_keys getitem nth_error str_uuid4 bind M_monad ret];
      rewrite Hlit; unfold dict_update, dict_pop; cbn [fold_left fst snd];
      rewrite !DictFacts.find_set_other, Hid by congruence;
      cbn [bind M_monad snd];
      rewrite DictFacts.find_remove_other, !DictFacts.find_set_other, Htype
        by congruence;
      reflexivity.
Qed.

Lemma missing_generic_key_witness :
  fst (_convert_upsert_data Example.imports
         [ OtherObject (Some [ ("type", VStr "Image") ]) ] Example.empty_world)
  = Raise (KeyError "id").
Proof.
  exact (f_equal fst
           (proj1 (@missing_generic_key Example.imports
                     [ ("type", VStr "Image") ] Example.empty_world
                     example_keys_renamed) eq_refl)).
Defined.

(** ** Converting the same nodes again *)

Lemma node_batch_run (env : Imports) (addrs : list addr) (w : world) :
  addrs <> [] ->
  (forall a, In a addrs -> well_formed_node (nodes w a)) ->
  (forall a, In a addrs -> single_relations (nodes w a)) ->
  exists w',
    _convert_upsert_data env (map NodeRef addrs) w
    = (Ok (map (fun a => BaseNode_dict env (nodes w' a) (infos w')) addrs), w')
    /\ stripped w addrs w'.
Proof.
  intros Hne Hwf Hsingle.
  destruct (strip_batch addrs (stripped_start w) Hwf Hsingle)
    as (w' & Erun & Hinv).
  rewrite app_nil_r in Hinv.
  exists w'. split; [| exact Hinv].
  unfold _convert_upsert_data.
  destruct addrs as [| a0 addrs']; [contradiction |].
  cbn [map getitem nth_error lift bind M_monad is_BaseNode].
  change (NodeRef a0 :: map NodeRef addrs') with (map NodeRef (a0 :: addrs')).
  rewrite Erun. apply dicts_of_nodes.
Qed.

Lemma without_file_path_nodup (md : dict) :
  NoDup (dict_keys md) -> NoDup (dict_keys (without_file_path md)).
Proof.
  intros H. unfold without_file_path.
  destruct (truthy (dict_get md "file_path")); [| exact H].
  apply DictFacts.keys_remove_nodup. exact H.
Qed.

Lemma points_to_dec (r : addr) (rels : list (string * RelatedNodeType)) :
  (exists key, In (key, OneRelated r) rels)
  \/ ~ (exists key, In (key, OneRelated r) rels).
Proof.
  induction rels as [| [k rel] rels IH].
  - right. intros [key []].
  - destruct IH as [[key Hin] | Hnot];
      [left; exists key; right; exact Hin |].
    destruct rel as [r' | rs].
    + destruct (Nat.eq_dec r' r) as [-> | Hne].
      * left. exists k. left. reflexivity.
      * right. intros [key [E | Hin]]; [congruence | apply Hnot; eauto].
    + right. intros [key [E | Hin]]; [discriminate E | apply Hnot; eauto].
Qed.

Lemma related_to_dec (w : world) (addrs : list addr) (r : addr) :
  related_to w addrs r \/ ~ related_to w addrs r.
Proof.
  unfold related_to. induction addrs as [| a addrs IH].
  - right. intros (a & key & [] & _).
  - destruct (points_to_dec r (node_relationships (nodes w a)))
      as [[key Hin] | Hnot].
    + left. exists a, key. split; [left; reflexivity | exact Hin].
    + destruct IH as [(a' & key & Hin & Hkey) | Hnone].
      * left. exists a', key. split; [right; exact Hin | exact Hkey].
      * right. intros (a' & key & [<- | Hin] & Hkey).
        -- apply Hnot. eauto.
        -- apply Hnone. eauto.
Qed.

(** X21.  Converting a batch of nodes a second time changes nothing: the
    relationship keys of the nodes holding one related-node object each,
    the second conversion succeeds after the first and leaves every node,
    every related-node object, the identifier generator and the log of
    engine calls as the first one left them. *)
Theorem node_conversion_idempotent (env : Imports) (addrs : list addr)
    (w : world) :
  addrs <> [] ->
  (forall a, In a addrs -> well_formed_node (nodes w a)) ->
  (forall a, In a addrs -> single_relations (nodes w a)) ->
  let once := snd (_convert_upsert_data env (map NodeRef addrs) w) in
  let twice := _convert_upsert_data env (map NodeRef addrs) once in
  is_ok (fst (_convert_upsert_data env (map NodeRef addrs) w)) = true
  /\ is_ok (fst twice) = true /\ same_world (snd twice) once.
Proof.
  intros Hne Hwf Hsingle.
  destruct (node_batch_run env w Hne Hwf Hsingle) as (w1 & E1 & Hinv1).
  rewrite E1. cbn [fst snd is_ok]. split; [reflexivity |].
  assert (Hwf1 : forall a, In a addrs -> well_formed_node (nodes w1 a)).
  { intros a Hin. destruct Hinv1 as (_ & _ & Hsame & Hdone & _).
    destruct (Hwf a Hin) as [Hmd Hrels]. split.
    - rewrite (proj2 (Hdone a Hin)). apply without_file_path_nodup. exact Hmd.
    - rewrite (proj1 (proj2 (Hsame a))). exact Hrels. }
  assert (Hsingle1 : forall a, In a addrs -> single_relations (nodes w1 a)).
  { intros a Hin. destruct Hinv1 as (_ & _ & Hsame & _).
    unfold single_relations. rewrite (proj1 (proj2 (Hsame a))).
    apply (Hsingle a Hin). }
  destruct (node_batch_run env w1 Hne Hwf1 Hsingle1) as (w2 & E2 & Hinv2).
  rewrite E2. cbn [fst snd is_ok]. split; [reflexivity |].
  destruct Hinv1 as (_ & _ & Hsame1 & Hdone1 & _ & _ & Hclear1 & _).
  destruct Hinv2 as (Hdrawn & Hlog & Hsame2 & Hdone2 & Hrest2 & Hids2
                     & Hclear2 & Hkeep2).
  unfold same_world. split; [| split; [| split; assumption]].
  - intros a. destruct (in_dec Nat.eq_dec a addrs) as [Hin | Hnot];
      [| apply Hrest2; exact Hnot].
    destruct (Hsame2 a) as (Hid & Hrel & Htext).
    destruct (Hdone2 a Hin) as [Hemb2 Hmd2].
    destruct (Hdone1 a Hin) as [Hemb1 Hmd1].
    assert (Hmd : node_metadata (nodes w2 a) = node_metadata (nodes w1 a)).
    { rewrite Hmd2, Hmd1. apply without_file_path_idempotent.
      apply (Hwf a Hin). }
    destruct (nodes w2 a), (nodes w1 a). cbn in *. congruence.
  - intros r. destruct (related_to_dec w1 addrs r) as [Hrel | Hnot];
      [| apply Hkeep2; exact Hnot].
    assert (Hrel0 : related_to w addrs r).
    { destruct Hrel as (a & key & Hin & Hkey). exists a, key.
      split; [exact Hin |]. rewrite <- (proj1 (proj2 (Hsame1 a))). exact Hkey. }
    pose proof (Hclear2 r Hrel) as Hm2.
    pose proof (Hclear1 r Hrel0) as Hm1.
    pose proof (Hids2 r) as Hid.
    destruct (infos w2 r), (infos w1 r). cbn in *. congruence.
Qed.

Lemma node_conversion_idempotent_witness :
  is_ok (fst (_convert_upsert_data Example.imports (map NodeRef [ 0%nat ])
                (snd (_convert_upsert_data Example.imports
                        (map NodeRef [ 0%nat ])
                        Example.world_with_path))))
  = true.
Proof.
  apply (@node_conversion_idempotent Example.imports [ 0%nat ]
           Example.world_with_path).
  - discriminate.
  - intros a _. split; cbn; repeat constructor; cbn; intuition discriminate.
  - intros a _ key rel Hin. cbn in Hin.
    destruct Hin as [Hin | [Hin | []]]; injection Hin as _ <-; eauto.
Defined.

(** ** Nodes with a list of related nodes *)

Lemma forM_app_world {A : Type} (f : A -> M unit) (xs ys : list A) (w : world) :
  forM_ f (xs ++ ys) w
  = match forM_ f xs w with
    | (Ok _, w') => forM_ f ys w'
    | (Raise e, w') => (Raise e, w')
    end.
Proof.
  revert w. induction xs as [| x xs IH]; intros w; cbn; [reflexivity |].
  destruct (f x w) as [[[] | e] w1]; [apply IH | reflexivity].
Qed.

(** The loop over the relationship keys stops at the first key that holds a
    list: the objects of the keys before it have been emptied. *)
Lemma clear_related_stops (before after : list (string * RelatedNodeType))
    (key : string) (rs : list addr) (w : world) :
  let rels := before ++ (key, ManyRelated rs) :: after in
  NoDup (map fst rels) ->
  (forall key' rel, In (key', rel) before -> exists r, rel = OneRelated r) ->
  exists w',
    forM_ (clear_related rels) (map fst rels) w
    = (Raise (AttributeError "metadata"), w')
    /\ nodes w' = nodes w /\ drawn w' = drawn w /\ log w' = log w
    /\ (forall r, (exists key', In (key', OneRelated r) before) ->
                  info_metadata (infos w' r) = [])
    /\ (forall r, ~ (exists key', In (key', OneRelated r) before) ->
                  infos w' r = infos w r).
Proof.
  intros rels Hnd Hsingle.
  assert (Hbefore : forall k rel, In (k, rel) before ->
                                  dict_assoc k rels = Some rel).
  { intros k rel Hin. apply in_dict_assoc; [exact Hnd |].
    unfold rels. apply in_or_app. left. exact Hin. }
  assert (Hkey : dict_assoc key rels = Some (ManyRelated rs)).
  { apply in_dict_assoc; [exact Hnd |].
    unfold rels. apply in_or_app. right. left. reflexivity. }
  destruct (@clear_related_loop rels (map fst before) w)
    as (w' & Erun & Hn & Hd & Hl & _ & Hc & Hk).
  { intros k Hin. apply in_map_iff in Hin.
    destruct Hin as [[k' rel] [E Hin]]. cbn in E. subst k'.
    destruct (Hsingle k rel Hin) as [r ->].
    exists r. apply Hbefore. exact Hin. }
  exists w'. split; [| split; [exact Hn | split; [exact Hd | split; [exact Hl |]]]].
  - unfold rels at 2. rewrite map_app, forM_app_world, Erun.
    cbn [map fst forM_ bind M_monad]. unfold clear_related at 1, lift.
    rewrite Hkey. reflexivity.
  - split.
    + intros r [key' Hin]. apply Hc. exists key'.
      split; [apply (in_map fst) in Hin; exact Hin | apply Hbefore; exact Hin].
    + intros r Hnot. apply Hk. intros [k [Hin Hk']]. apply Hnot.
      apply in_map_iff in Hin. destruct Hin as [[k' rel] [E Hin]].
      cbn in E. subst k'. exists k.
      rewrite (Hbefore k rel Hin) in Hk'. injection Hk' as ->. exact Hin.
Qed.

Lemma strip_node_stops (a : addr) (w : world)
    (before after : list (string * RelatedNodeType)) (key : string)
    (rs : list addr) :
  well_formed_node (nodes w a) ->
  node_relationships (nodes w a) = before ++ (key, ManyRelated rs) :: after ->
  (forall key' rel, In (key', rel) before -> exists r, rel = OneRelated r) ->
  exists w',
    strip_node (NodeRef a) w = (Raise (AttributeError "metadata"), w')
    /\ drawn w' = drawn w /\ log w' = log w
    /\ nodes w' a
       = mkNode (node_id_ (nodes w a)) VNone
                (without_file_path (node_metadata (nodes w a)))
                (node_relationships (nodes w a)) (node_text (nodes w a))
    /\ (forall a', a' <> a -> nodes w' a' = nodes w a')
    /\ (forall r, (exists key', In (key', OneRelated r) before) ->
                  info_metadata (infos w' r) = [])
    /\ (forall r, ~ (exists key', In (key', OneRelated r) before) ->
                  infos w' r = infos w r).
Proof.
  intros [Hmd Hnd] Erels Hsingle. rewrite Erels in Hnd.
  unfold strip_node, get_node, set_node, lift.
  cbn [bind M_monad ret nodes infos drawn log].
  rewrite !Nat.eqb_refl.
  cbn [node_id_ node_embedding node_metadata node_relationships node_text].
  rewrite Erels.
  destruct (truthy (dict_get (node_metadata (nodes w a)) "file_path")) eqn:Et.
  - unfold dict_pop.
    destruct (dict_find (node_metadata (nodes w a)) "file_path") as [v |] eqn:Ef;
      [| unfold dict_get in Et; rewrite Ef in Et; discriminate Et].
    cbn [snd bind M_monad nodes infos drawn log].
    rewrite !Nat.eqb_refl.
    cbn [node_id_ node_embedding node_metadata node_relationships node_text].
    match goal with
    | |- context [forM_ _ _ ?w1] =>
        destruct (@clear_related_stops before after key rs w1 Hnd Hsingle)
          as (w' & Erun & Hn & Hd & Hl & Hc & Hk)
    end.
    rewrite Erun. exists w'. split; [reflexivity |].
    rewrite Hn, Hd, Hl. cbn [nodes drawn log].
    split; [reflexivity |]. split; [reflexivity |].
    split; [| split; [| split; [exact Hc | exact Hk]]].
    + rewrite Nat.eqb_refl. unfold without_file_path. rewrite Et.
      reflexivity.
    + intros a' Hne. apply Nat.eqb_neq in Hne. rewrite !Hne. reflexivity.
  - cbn [bind M_monad nodes infos drawn log].
    rewrite ?Nat.eqb_refl.
    cbn [node_id_ node_embedding node_metadata node_relationships node_text].
    match goal with
    | |- context [forM_ _ _ ?w1] =>
        destruct (@clear_related_stops before after key rs w1 Hnd Hsingle)
          as (w' & Erun & Hn & Hd & Hl & Hc & Hk)
    end.
    rewrite Erun. exists w'. split; [reflexivity |].
    rewrite Hn, Hd, Hl. cbn [nodes drawn log].
    split; [reflexivity |]. split; [reflexivity |].
    split; [| split; [| split; [exact Hc | exact Hk]]].
    + rewrite Nat.eqb_refl. unfold without_file_path. rewrite Et.
      reflexivity.
    + intros a' Hne. apply Nat.eqb_neq in Hne. rewrite !Hne. reflexivity.
Qed.

(** X22.  A node with a relationship key that holds a list of related
    nodes, as the key of its children does, makes the conversion raise
    [AttributeError], whatever follows the node in the batch.  By then the
    node has lost its embedding and its truthy ["file_path"], and the
    related-node objects of the keys before the list have lost their
    metadata; the nodes of the list keep theirs, as does every other
    object. *)
Theorem node_with_children_refused (env : Imports) (a : addr)
    (others : list pyobj) (w : world)
    (before after : list (string * RelatedNodeType)) (key : string)
    (rs : list addr) :
  well_formed_node (nodes w a) ->
  node_relationships (nodes w a) = before ++ (key, ManyRelated rs) :: after ->
  (forall key' rel, In (key', rel) before -> exists r, rel = OneRelated r) ->
  exists w',
    _convert_upsert_data env (NodeRef a :: others) w
    = (Raise (AttributeError "metadata"), w')
    /\ drawn w' = drawn w /\ log w' = log w
    /\ nodes w' a
       = mkNode (node_id_ (nodes w a)) VNone
                (without_file_path (node_metadata (nodes w a)))
                (node_relationships (nodes w a)) (node_text (nodes w a))
    /\ (forall a', a' <> a -> nodes w' a' = nodes w a')
    /\ (forall r, (exists key', In (key', OneRelated r) before) ->
                  info_metadata (infos w' r) = [])
    /\ (forall r, ~ (exists key', In (key', OneRelated r) before) ->
                  infos w' r = infos w r).
Proof.
  intros Hwf Erels Hsingle.
  destruct (@strip_node_stops a w before after key rs Hwf Erels Hsingle)
    as (w' & E & H).
  exists w'. split; [| exact H].
  unfold _convert_upsert_data.
  cbn [getitem nth_error lift bind M_monad is_BaseNode forM_].
  rewrite E. reflexivity.
Qed.

Lemma node_with_children_refused_witness :
  let run := _convert_upsert_data Example.imports [ NodeRef 0%nat; NodeRef 1%nat ]
               Example.world_with_children in
  fst run = Raise (AttributeError "metadata")
  /\ node_embedding (nodes (snd run) 0%nat) = VNone
  /\ node_metadata (nodes (snd run) 0%nat) = [ ("page", VInt 3) ]
  /\ nodes (snd run) 1%nat = nodes Example.world_with_children 1%nat
  /\ info_metadata (infos (snd run) 7%nat) = []
  /\ info_metadata (infos (snd run) 8%nat)
     = [ ("file_path", VStr "/tmp/a.txt") ]
  /\ info_metadata (infos (snd run) 10%nat)
     = [ ("file_path", VStr "/tmp/a.txt") ].
Proof.
  destruct (@node_with_children_refused Example.imports 0%nat [ NodeRef 1%nat ]
              Example.world_with_children
              [ ("1", OneRelated 7) ] [ ("3", OneRelated 10) ] "5"
              [ 8%nat; 9%nat ])
    as (w' & E & _ & _ & Hnode & Hothers & Hclear & Hkeep).
  - split; cbn; repeat constructor; cbn; intuition discriminate.
  - reflexivity.
  - intros key' rel [Hin | []]. injection Hin as _ <-. eauto.
  - cbv zeta. rewrite E. cbn [fst snd].
    split; [reflexivity |].
    split; [rewrite Hnode; reflexivity |].
    split; [rewrite Hnode; reflexivity |].
    split; [apply Hothers; discriminate |].
    split; [apply Hclear; exists "1"; left; reflexivity |].
    split.
    + rewrite Hkeep; [reflexivity |].
      intros [key' [Hin | []]]. discriminate Hin.
    + rewrite Hkeep; [reflexivity |].
      intros [key' [Hin | []]]. discriminate Hin.
Defined.

(** ** Distances the wrapper refuses, and hits that share their metadata *)

(** X23.  The node conversion hands each distance to the wrapper, whose
    validation error is the call's: the hits all having an entity mapping
    that the node constructor accepts, and the hits before it a distance
    that the wrapper accepts, a hit whose distance the wrapper refuses
    makes the call raise the wrapper's error. *)
Theorem node_hit_refused_score (env : Imports) (pre : list dict) (r : dict)
    (rest : list dict) (remove_embedding : bool) (d : value) (e : exn) :
  (forall r', In r' (pre ++ r :: rest) ->
              exists e, dict_find r' "entity" = Some (VDict e)) ->
  (forall r' e', In r' (pre ++ r :: rest) ->
                 entity_of env r' remove_embedding = Ok e' ->
                 exists n, TextNode_from_dict env e' = Ok n) ->
  Forall (fun r' => exists d s, dict_find r' "distance" = Some d
                                /\ validate_score env d = Ok s) pre ->
  dict_find r "distance" = Some d ->
  validate_score env d = Raise e ->
  _convert_response_to_node_with_score env (pre ++ r :: rest) remove_embedding
  = Raise e.
Proof.
  intros Hent Haccept Hpre Hd He.
  apply node_wrapping_fails; try assumption.
  unfold dict_getitem. rewrite Hd. exact He.
Qed.

Lemma node_hit_refused_score_witness :
  _convert_response_to_node_with_score Example.imports
    ([ Example.hit_without_score ]
     ++ [ ("entity", VDict [ ("text", VStr "t") ]); ("distance", VStr "near") ]
     :: [ [ ("entity", VDict []) ] ])
    true
  = Raise (ValueError "validation error for NodeWithScore").
Proof.
  apply (@node_hit_refused_score Example.imports
           [ Example.hit_without_score ]
           [ ("entity", VDict [ ("text", VStr "t") ]); ("distance", VStr "near") ]
           [ [ ("entity", VDict []) ] ] true (VStr "near")).
  - intros r' [<- | [<- | [<- | []]]]; eexists; reflexivity.
  - intros r' e' _ _. exists e'. reflexivity.
  - constructor; [eexists; eexists; split; reflexivity | constructor].
  - reflexivity.
  - reflexivity.
Defined.

(** The conversion of a hit returns what the conversion of the hit as it
    now is returns. *)
Lemma convert_held_now (env : Imports) (remove_embedding : bool)
    (ws : writes) (h : HeldHit) :
  fst (convert_held env remove_embedding h ws)
  = convert_hit env remove_embedding (hit_now ws h).
Proof.
  unfold convert_held, read_hit, liftW, convert_hit. cbn [bind W_monad].
  destruct (entity_of env (hit_now ws h) remove_embedding) as [e' | err];
    cbn [bind result_monad W_monad]; [| reflexivity].
  unfold add_score_in_place, liftW. cbn [bind W_monad].
  destruct (add_score e' (dict_get (hit_now ws h) "distance")) as [e'' | err];
    cbn [bind result_monad W_monad]; [| reflexivity].
  destruct (dict_find e' "metadata") as [v |]; [| reflexivity].
  destruct (dict_find e'' "metadata") as [[] |]; reflexivity.
Qed.

(** X24.  Two hits that hold the same metadata mapping, which has no
    ["score"] yet: the first conversion sets the first hit's distance in
    the mapping, the second one finds it there and keeps it, so the call
    comes to the construction of two documents whose metadata both have the
    first hit's distance under ["score"]; the second hit's distance goes
    nowhere. *)
Theorem shared_metadata_keeps_first_score (env : Imports)
    (remove_embedding : bool) (h1 h2 : HeldHit) (e1 e2 md : dict)
    (d1 d2 : value) :
  held_metadata h1 = held_metadata h2 ->
  dict_find (held_value h1) "entity" = Some (VDict e1) ->
  dict_find (held_value h2) "entity" = Some (VDict e2) ->
  dict_find e1 "metadata" = Some (VDict md) ->
  dict_find e2 "metadata" = Some (VDict md) ->
  dict_find md "score" = None ->
  dict_find (held_value h1) "distance" = Some d1 ->
  dict_find (held_value h2) "distance" = Some d2 ->
  (remove_embedding = true ->
   "metadata" <> embedding_key env /\ "metadata" <> sparse_key env) ->
  exists e1'' e2'' md1' md2',
    fst (_convert_response_to_document_in_place env [ h1; h2 ] remove_embedding)
    = (doc1 <- Document_parse_obj env e1'' ;;
       doc2 <- Document_parse_obj env e2'' ;;
       Ok [ doc1; doc2 ])
    /\ built_from env remove_embedding e1 md1' e1''
    /\ built_from env remove_embedding e2 md2' e2''
    /\ dict_find md1' "score" = Some d1
    /\ dict_find md2' "score" = Some d1
    /\ (forall k, k <> "score" ->
                  dict_find md1' k = dict_find md k
                  /\ dict_find md2' k = dict_find md k).
Proof.
  intros Hid He1 He2 Hm1 Hm2 Hns Hd1 Hd2 Hnames.
  assert (Hbuilt : forall e eA e' e'' mdB,
             nulled env remove_embedding eA e' ->
             (forall k, k <> "metadata" -> dict_find eA k = dict_find e k) ->
             dict_find e'' "metadata" = Some (VDict mdB) ->
             (forall k, k <> "metadata" -> dict_find e'' k = dict_find e' k) ->
             built_from env remove_embedding e mdB e'').
  { intros e eA e' e'' mdB [Hvec Hkeep] HeA Emd Hrest.
    split; [exact Emd |]. split.
    - intros Hr. destruct (Hnames Hr) as [Hn1 Hn2]. destruct (Hvec Hr) as [V1 V2].
      rewrite !Hrest by congruence. split; assumption.
    - intros k Hk Hv. rewrite (Hrest k Hk), (Hkeep k Hv). apply HeA. exact Hk. }
  (* the first hit *)
  destruct (@hit_stages env (held_value h1) e1 remove_embedding He1 Hnames)
    as (e1' & e1'' & E1' & E1'' & Hn1 & Hs1 & Hsame1).
  { intros v Hv. rewrite Hm1 in Hv. injection Hv as <-. eauto. }
  destruct Hs1 as (mdA & md1' & Hcase1 & Emd1' & Hscore1 & Hothers1 & Hrest1).
  assert (mdA = md).
  { rewrite Hsame1, Hm1 in Hcase1.
    destruct Hcase1 as [E | [E _]]; [congruence | discriminate E]. }
  subst mdA. rewrite Hns, (dict_get_find _ _ Hd1) in Hscore1.
  destruct (@convert_held_fresh env remove_embedding no_writes h1 eq_refl)
    as (ws1 & Erun1 & _ & Hws1).
  unfold written_by in Hws1. rewrite E1', E1'', Hsame1, Hm1, Emd1' in Hws1.
  assert (Ehit1 : convert_hit env remove_embedding (held_value h1)
                  = Document_parse_obj env e1'').
  { unfold convert_hit. rewrite E1'. cbn [bind result_monad].
    rewrite E1''. reflexivity. }
  (* the second hit, as the first conversion left it *)
  set (e2x := dict_set e2 "metadata" (VDict md1')).
  assert (Enow : hit_now ws1 h2
                 = dict_set (held_value h2) "entity" (VDict e2x)).
  { unfold hit_now. rewrite He2, Hm2, <- Hid, Hws1. reflexivity. }
  destruct (@hit_stages env (hit_now ws1 h2) e2x remove_embedding)
    as (e2' & e2'' & E2' & E2'' & Hn2 & Hs2 & Hsame2).
  { rewrite Enow. apply DictFacts.find_set_same. }
  { exact Hnames. }
  { intros v Hv. unfold e2x in Hv. rewrite DictFacts.find_set_same in Hv.
    injection Hv as <-. eauto. }
  destruct Hs2 as (mdB & md2' & Hcase2 & Emd2' & Hscore2 & Hothers2 & Hrest2).
  assert (mdB = md1').
  { unfold e2x in Hsame2. rewrite DictFacts.find_set_same in Hsame2.
    rewrite Hsame2 in Hcase2.
    destruct Hcase2 as [E | [E _]]; [congruence | discriminate E]. }
  subst mdB. rewrite Hscore1 in Hscore2.
  assert (Ehit2 : convert_hit env remove_embedding (hit_now ws1 h2)
                  = Document_parse_obj env e2'').
  { unfold convert_hit. rewrite E2'. cbn [bind result_monad].
    rewrite E2''. reflexivity. }
  exists e1'', e2'', md1', md2'.
  split; [| split; [| split; [| split; [| split]]]].
  - unfold _convert_response_to_document_in_place.
    rewrite foldM_append_writes. cbn [mapM bind W_monad].
    rewrite Erun1, Ehit1.
    destruct (Document_parse_obj env e1'') as [doc1 | err];
      cbn [bind result_monad]; [| reflexivity].
    pose proof (convert_held_now env remove_embedding ws1 h2) as Erun2.
    rewrite Ehit2 in Erun2.
    destruct (convert_held env remove_embedding h2 ws1) as [res2 ws2].
    cbn [fst] in Erun2. subst res2.
    destruct (Document_parse_obj env e2'') as [doc2 | err]; reflexivity.
  - apply (Hbuilt e1 e1 e1' e1'' md1'); auto.
  - apply (Hbuilt e2 e2x e2' e2'' md2'); auto.
    intros k Hk. unfold e2x. apply DictFacts.find_set_other. exact Hk.
  - exact Hscore1.
  - exact Hscore2.
  - intros k Hk. split; [apply Hothers1; exact Hk |].
    rewrite (Hothers2 k Hk). apply Hothers1. exact Hk.
Qed.

Lemma shared_metadata_keeps_first_score_witness :
  exists e1'' e2'' md1' md2',
    fst (_convert_response_to_document_in_place Example.imports
           Example.hits_sharing_metadata true)
    = (doc1 <- Document_parse_obj Example.imports e1'' ;;
       doc2 <- Document_parse_obj Example.imports e2'' ;;
       Ok [ doc1; doc2 ])
    /\ dict_find md1' "score" = Some (VFloat 0.75%float)
    /\ dict_find md2' "score" = Some (VFloat 0.75%float).
Proof.
  destruct (@shared_metadata_keeps_first_score Example.imports true
              (mkHeldHit Example.hit_without_score 0)
              (mkHeldHit (dict_set Example.hit_without_score "distance"
                                   (VFloat 0.5%float)) 0)
              [ ("id_", VStr "d1");
                ("embedding", VList [ VFloat 1%float ]);
                ("class_name", VStr "Document");
                ("metadata", VDict [ ("source", VStr "a.txt") ]);
                ("page_content", VStr "body") ]
              [ ("id_", VStr "d1");
                ("embedding", VList [ VFloat 1%float ]);
                ("class_name", VStr "Document");
                ("metadata", VDict [ ("source", VStr "a.txt") ]);
                ("page_content", VStr "body") ]
              [ ("source", VStr "a.txt") ]
              (VFloat 0.75%float) (VFloat 0.5%float))
    as (e1'' & e2'' & md1' & md2' & E & _ & _ & H1 & H2 & _);
    try reflexivity.
  - intros _. split; discriminate.
  - exists e1'', e2'', md1', md2'. split; [exact E |]. split; assumption.
Defined.
